(** * Wallet-session guard of the Solana wallet-connect front end

    A shallow embedding of the [SignAndConnect] React component, in its
    credential-verified form (sessionStorage token, [/api/auth/me],
    [/api/auth/verify]) and in its simplified form (a localStorage flag per
    wallet address), together with the properties of the session guard;
    and of the two components it renders once a session stands, the
    transfer form [TokenTransfer] and the list [TransactionHistory].

    Conventions of the embedding.
    - A JavaScript string is a Rocq [string], read as the UTF-8 bytes of the
      text; [undefined] and [null] are [None].
    - React state, the hook values, the [useRef] latch, the browser storage
      and the list of calls made to the outside world are the fields of one
      record.  A closure reads React state and hook values from the render
      that created it (the snapshot [v]) and reads the latch and the storage
      live (the state [s]).
    - An [async] function is cut at the [await] whose result decides what it
      does: the part before it launches the request, the part after it takes
      the outcome of the request as an argument.
    - [console.log] and the JSX are left out, except for the four-way choice
      of what the component shows. *)

From Stdlib Require Import ZArith QArith Ascii String Lia.
Import Ascii String.
From stdpp Require Import base option list strings gmap pretty.

Local Open Scope string_scope.
Local Open Scope list_scope.
Local Open Scope nat_scope.

(** ** JavaScript values *)

Module Js.

(** Truthiness of a [string | null | undefined]. *)
Definition truthy (x : option string) : bool :=
  match x with
  | Some (String _ _) => true
  | _ => false
  end.

(** Truthiness of an object reference or [undefined]. *)
Definition defined {A} (x : option A) : bool :=
  match x with Some _ => true | None => false end.

Definition lower_ascii (c : ascii) : ascii :=
  let n := nat_of_ascii c in
  if (65 <=? n) && (n <=? 90) then ascii_of_nat (n + 32) else c.

(** [String.prototype.toLowerCase] on the letters A to Z; wallet addresses
    are base58 text. *)
Fixpoint toLowerCase (s : string) : string :=
  match s with
  | EmptyString => EmptyString
  | String c r => String (lower_ascii c) (toLowerCase r)
  end.

(** [a.toLowerCase() === b.toLowerCase()] *)
Definition same_address (a b : string) : bool :=
  bool_decide (toLowerCase a = toLowerCase b).

(** A field of a parsed JSON answer that is meant to hold a string: it is
    missing ([undefined]), it is [null], or it holds the string. *)
Inductive field :=
  | absent
  | null
  | text (t : string).

#[global] Instance field_eq_dec : EqDecision field.
Proof. solve_decision. Defined.

(** What a state of type [string | null] keeps of such a field; [None]
    stands for [undefined] and for [null]: the component reads that state
    by its truthiness only. *)
Definition held (x : field) : option string :=
  match x with
  | text t => Some t
  | absent | null => None
  end.

(** [String(x)] as [Storage.setItem] applies it to its value. *)
Definition to_string (x : field) : string :=
  match x with
  | text t => t
  | null => "null"
  | absent => "undefined"
  end.

(** [new TextEncoder().encode(s)] *)
Definition encode (s : string) : list Byte.byte := list_byte_of_string s.

Definition newline : string := String (ascii_of_nat 10) EmptyString.

Definition is_digit (c : ascii) : bool :=
  let n := nat_of_ascii c in (48 <=? n) && (n <=? 57).

(** The decimal digit of the units of [n]. *)
Definition digit_char (n : Z) : ascii :=
  ascii_of_nat (48 + Z.to_nat (n mod 10)%Z).

(** The last [width] decimal digits of [n], zeros in front. *)
Fixpoint pad (width : nat) (n : Z) : list ascii :=
  match width with
  | 0 => []
  | S w => pad w (n / 10)%Z ++ [digit_char n]
  end.

(** Year, month and day of the proleptic Gregorian calendar for a number
    of days since 1970-01-01, as ECMAScript's YearFromTime, MonthFromTime
    and DateFromTime give them. *)
Definition civil_from_days (days : Z) : Z * Z * Z :=
  (let z := days + 719468 in
   let era := z / 146097 in
   let doe := z mod 146097 in
   let yoe := (doe - doe / 1460 + doe / 36524 - doe / 146096) / 365 in
   let doy := doe - (365 * yoe + yoe / 4 - yoe / 100) in
   let mp := (5 * doy + 2) / 153 in
   let d := doy - (153 * mp + 2) / 5 + 1 in
   let m := if mp <? 10 then mp + 3 else mp - 9 in
   let y := yoe + era * 400 + (if m <=? 2 then 1 else 0) in
   (y, m, d))%Z.

(** [new Date(t).toISOString()] for a time value [t], the milliseconds
    since 1970-01-01T00:00:00Z: [YYYY-MM-DDTHH:mm:ss.sssZ] for the years 0
    to 9999 and a sign with six digits for the other years.  A [Date] holds
    a time value of at most 8.64e15 in magnitude, and so does [new Date()];
    beyond it the method throws, which is not modelled. *)
Definition toISOString (t : Z) : string :=
  let '(y, m, d) := civil_from_days (t / 86400000)%Z in
  let ms := (t mod 86400000)%Z in
  let year :=
    if ((0 <=? y) && (y <=? 9999))%Z then pad 4 y
    else (if (y <? 0)%Z then "-" else "+")%char :: pad 6 (Z.abs y) in
  string_of_list_ascii
    (year ++ "-"%char :: pad 2 m ++ "-"%char :: pad 2 d
       ++ "T"%char :: pad 2 (ms / 3600000)%Z
       ++ ":"%char :: pad 2 (ms / 60000 mod 60)%Z
       ++ ":"%char :: pad 2 (ms / 1000 mod 60)%Z
       ++ "."%char :: pad 3 (ms mod 1000)%Z ++ ["Z"%char]).

#[global] Arguments toISOString : simpl never.

(** What follows the year in the text of an instant:
    [-MM-DDTHH:mm:ss.sssZ]. *)
Definition is_iso8601_rest (cs : list ascii) : bool :=
  match cs with
  | [d1; m1; m2; d2; a1; a2; t;
     h1; h2; c1; n1; n2; c2; s1; s2; p; f1; f2; f3; z] =>
      forallb is_digit
        [m1; m2; a1; a2; h1; h2; n1; n2; s1; s2; f1; f2; f3]
      && bool_decide ([d1; d2; t; c1; c2; p; z]
                      = ["-"; "-"; "T"; ":"; ":"; "."; "Z"]%char)
  | _ => false
  end.

(** The two shapes of an ISO-8601 instant that [Date.prototype.toISOString]
    returns: [YYYY-MM-DDTHH:mm:ss.sssZ], and the same with an expanded year,
    a sign and six digits. *)
Definition is_iso8601 (s : string) : bool :=
  match list_ascii_of_string s with
  | c :: y1 :: y2 :: y3 :: r =>
      if Ascii.eqb c "+"%char || Ascii.eqb c "-"%char then
        match r with
        | y4 :: y5 :: y6 :: rest =>
            forallb is_digit [y1; y2; y3; y4; y5; y6] && is_iso8601_rest rest
        | _ => false
        end
      else forallb is_digit [c; y1; y2; y3] && is_iso8601_rest r
  | _ => false
  end.

End Js.

(** ** base58 (the [bs58] package, Bitcoin alphabet) *)

Module Bs58.

Definition ALPHABET : string :=
  "123456789ABCDEFGHJKLMNPQRSTUVWXYZabcdefghijkmnopqrstuvwxyz".

Definition digit (d : N) : ascii :=
  match String.get (N.to_nat d) ALPHABET with
  | Some c => c
  | None => "1"%char
  end.

(** The number a byte string denotes, most significant byte first. *)
Definition to_N (bs : list Byte.byte) : N :=
  fold_left (fun acc b => (acc * 256 + Byte.to_N b)%N) bs 0%N.

Fixpoint leading_zeros (bs : list Byte.byte) : nat :=
  match bs with
  | Byte.x00 :: r => S (leading_zeros r)
  | _ => 0
  end.

(** Digits of [n] in base 58, most significant first; [fuel] bounds the
    number of digits. *)
Fixpoint digits (fuel : nat) (n : N) (acc : list N) : list N :=
  match fuel with
  | 0 => acc
  | S f => if (n =? 0)%N then acc else digits f (n / 58)%N ((n mod 58)%N :: acc)
  end.

Definition encode (bs : list Byte.byte) : string :=
  string_of_list_ascii
    (replicate (leading_zeros bs) "1"%char
       ++ map digit (digits (2 * length bs) (to_N bs) [])).

End Bs58.

(** ** What both forms of the component share *)

(** The wallet provider as the component uses it: [signMessage], and a
    [disconnect] method that may be missing. *)
Record Provider := { hasDisconnect : bool }.

#[global] Instance Provider_eq_dec : EqDecision Provider.
Proof. solve_decision. Defined.

(** The challenge of lines 126 (credential-verified) and 53 (simplified):
    a template literal over the address and [new Date().toISOString()]. *)
Definition challenge (address iso : string) : string :=
  "Sign this message to authenticate with Solana Wallet Connect."
    +:+ Js.newline +:+ Js.newline
    +:+ "Wallet: " +:+ address +:+ Js.newline
    +:+ "Timestamp: " +:+ iso.

(** What the component shows (the nested conditional of the JSX). *)
Inductive Phase :=
  | Disconnected
  | Authenticating
  | Authenticated
  | ConnectedUnauthenticated.

Definition phase_of (isConnected isLoading isSigned : bool) : Phase :=
  if negb isConnected then Disconnected
  else if isLoading then Authenticating
  else if isSigned then Authenticated
  else ConnectedUnauthenticated.

(** ** [useEffect]

    After a render React runs the effects whose dependency array differs
    from that of the previous render, and every effect after the first
    render.  The body sees the state of this render ([v]); what it sets
    shows in the next one. *)

Module React.

Definition changed {S A} `{EqDecision A}
    (deps : S -> A) (prev : option S) (v : S) : bool :=
  match prev with
  | None => true
  | Some p => bool_decide (deps p <> deps v)
  end.

Definition run_effect {S A} `{EqDecision A}
    (deps : S -> A) (body : S -> S -> S)
    (prev : option S) (v s : S) : S :=
  if changed deps prev v then body v s else s.

End React.

(** ** The credential-verified component *)

Module Verified.

(** The [user] state and the [user] field of the backend's answers. *)
Record UserRecord := {
  walletAddress : string;
  createdAt : string;
  lastLoginAt : string;
  isNewUser : option bool;
}.

#[global] Instance UserRecord_eq_dec : EqDecision UserRecord.
Proof. solve_decision. Defined.

(** The body of [POST /api/auth/verify]. *)
Record VerifyBody := {
  body_walletAddress : string;
  body_message : string;
  body_signature : string;
}.

(** The parsed answer of [/api/auth/verify]: [data.success] by its
    truthiness, the other fields possibly missing. *)
Record VerifyData := {
  success : bool;
  data_message : option string;
  data_user : option UserRecord;
  data_token : Js.field;
}.

(** How [fetch(.../api/auth/me)] and the reading of its answer end. *)
Inductive MeOutcome :=
  | MeThrows                   (* fetch or response.json() rejects, or
                                  data.user.walletAddress cannot be read *)
  | MeNotOk                    (* response.ok is false *)
  | MeOk (u : UserRecord).     (* response.ok, data.user = u *)

(** How [fetch(.../api/auth/verify)] and [response.json()] end. *)
Inductive VerifyOutcome :=
  | FetchRejects               (* network failure *)
  | JsonRejects                (* the answer is not JSON, or not an object *)
  | Responded (data : VerifyData).

(** How [provider.signMessage] ends, and what follows a signature. *)
Inductive SignOutcome :=
  | SignRejects                         (* the user declines in the wallet *)
  | SignFalsy                           (* resolves to null or undefined *)
  | Signed (signatureUint8 : list Byte.byte) (r : VerifyOutcome).

(** Calls to the outside world, in the order they are made. *)
Inductive Action :=
  | FetchMe (bearer : string)
  | SignMessage (encodedMessage : list Byte.byte)
  | PostVerify (body : VerifyBody)
  | ProviderDisconnect
  | AppKitDisconnect
  | OpenModal
  | Alert (text : string)
  | GetBalance (address : string)
  | SetItem (key value : string)
  | RemoveItem (key : string).

(** Promises the component is waiting for, with what their continuation
    captured. *)
Inductive Pending :=
  | AwaitMe (storedToken address : string)
  | AwaitSign (provider : Provider) (address message : string)
  | AwaitBalance (address : string).

#[global] Instance Pending_eq_dec : EqDecision Pending.
Proof. solve_decision. Defined.

Definition LAMPORTS_PER_SOL : positive := 1000000000.

Record State := mkState {
  (* useAppKitAccount, useAppKitProvider *)
  address : option string;
  isConnected : bool;
  walletProvider : option Provider;
  (* useState *)
  isSigned : bool;
  isLoading : bool;
  balance : option Q;
  user : option UserRecord;
  authToken : option string;
  (* useRef *)
  userDisconnectedRef : bool;
  (* the browser *)
  sessionStorage : gmap string string;
  now : Z;                              (* the time value of new Date() *)
  (* the outside world *)
  trace : list Action;
  pending : list Pending;
}.

Definition setIsSigned (x : bool) (s : State) : State :=
  let 'mkState a c p _ l b u t r st ck tr pd := s in
  mkState a c p x l b u t r st ck tr pd.

Definition setIsLoading (x : bool) (s : State) : State :=
  let 'mkState a c p g _ b u t r st ck tr pd := s in
  mkState a c p g x b u t r st ck tr pd.

Definition setBalance (x : option Q) (s : State) : State :=
  let 'mkState a c p g l _ u t r st ck tr pd := s in
  mkState a c p g l x u t r st ck tr pd.

Definition setUser (x : option UserRecord) (s : State) : State :=
  let 'mkState a c p g l b _ t r st ck tr pd := s in
  mkState a c p g l b x t r st ck tr pd.

Definition setAuthToken (x : option string) (s : State) : State :=
  let 'mkState a c p g l b u _ r st ck tr pd := s in
  mkState a c p g l b u x r st ck tr pd.

(** [userDisconnectedRef.current = x] *)
Definition setRef (x : bool) (s : State) : State :=
  let 'mkState a c p g l b u t _ st ck tr pd := s in
  mkState a c p g l b u t x st ck tr pd.

Definition emit (x : Action) (s : State) : State :=
  let 'mkState a c p g l b u t r st ck tr pd := s in
  mkState a c p g l b u t r st ck (tr ++ [x]) pd.

Definition await (x : Pending) (s : State) : State :=
  let 'mkState a c p g l b u t r st ck tr pd := s in
  mkState a c p g l b u t r st ck tr (pd ++ [x]).

(** [new Date().toISOString()] *)
Definition clock (s : State) : string := Js.toISOString (now s).

Definition getItem (key : string) (s : State) : option string :=
  sessionStorage s !! key.

Definition setItem (key value : string) (s : State) : State :=
  let 'mkState a c p g l b u t r st ck tr pd := s in
  mkState a c p g l b u t r (<[key := value]> st) ck (tr ++ [SetItem key value]) pd.

Definition removeItem (key : string) (s : State) : State :=
  let 'mkState a c p g l b u t r st ck tr pd := s in
  mkState a c p g l b u t r (delete key st) ck (tr ++ [RemoveItem key]) pd.

(** *** Lines 31-80: load and verify an existing session *)

(** [verifySession] up to [await fetch]. *)
Definition verifySession_start (v s : State) : State :=
  let storedToken := getItem "authToken" s in
  if Js.truthy storedToken && isConnected v && Js.truthy (address v) then
    let s := emit (FetchMe (default "" storedToken)) s in
    await (AwaitMe (default "" storedToken) (default "" (address v))) s
  else s.

(** [verifySession] from the answer on; [storedToken] and [address] are the
    values the closure captured. *)
Definition verifySession_resume
    (storedToken address : string) (o : MeOutcome) (s : State) : State :=
  match o with
  | MeOk u =>
      if Js.same_address (walletAddress u) address then
        let s := setUser (Some u) s in
        let s := setIsSigned true s in
        setAuthToken (Some storedToken) s
      else
        let s := removeItem "authToken" s in
        let s := setAuthToken None s in
        let s := setIsSigned false s in
        setUser None s
  | MeNotOk =>
      let s := removeItem "authToken" s in
      let s := setAuthToken None s in
      let s := setIsSigned false s in
      setUser None s
  | MeThrows =>
      let s := removeItem "authToken" s in
      let s := setAuthToken None s in
      setIsSigned false s
  end.

Definition effect_verifySession (v s : State) : State :=
  if isConnected v && negb (userDisconnectedRef s) then verifySession_start v s
  else s.

(** *** Lines 82-96: the wallet address changed while connected *)

Definition effect_addressDrift (v s : State) : State :=
  match address v, user v with
  | Some a, Some u =>
      if isConnected v && Js.truthy (Some a) && isSigned v then
        if negb (Js.same_address a (walletAddress u)) then
          let s := removeItem "authToken" s in
          let s := setAuthToken None s in
          let s := setIsSigned false s in
          let s := setUser None s in
          setBalance None s
        else s
      else s
  | _, _ => s
  end.

(** *** Lines 99-119: the balance *)

Definition effect_fetchBalance (v s : State) : State :=
  if isConnected v && Js.truthy (address v) && isSigned v then
    let s := emit (GetBalance (default "" (address v))) s in
    await (AwaitBalance (default "" (address v))) s
  else setBalance None s.

(** [bal] is the number of lamports, [None] a failed request; the
    quotient is kept exact. *)
Definition fetchBalance_resume (bal : option Z) (s : State) : State :=
  match bal with
  | Some n => setBalance (Some (n # LAMPORTS_PER_SOL)) s
  | None => setBalance None s
  end.

(** *** Lines 121-187: the signing protocol *)

(** The [catch] block: the provider is disconnected when it can be. *)
Definition handleSignMessage_catch (provider : Provider) (s : State) : State :=
  if hasDisconnect provider then emit ProviderDisconnect s else s.

(** [handleSignMessage] from [setIsLoading(true)] to the call of
    [provider.signMessage(encodedMessage)]. *)
Definition handleSignMessage_call (address : string) (s : State) : State :=
  let s := setIsLoading true s in
  let message := challenge address (clock s) in
  let encodedMessage := Js.encode message in
  emit (SignMessage encodedMessage) s.

(** [handleSignMessage] up to [await provider.signMessage(encodedMessage)];
    the callback closes over [walletProvider] and [address]. *)
Definition handleSignMessage_start (v s : State) : State :=
  match walletProvider v, address v with
  | Some provider, Some (String _ _ as address) =>
      let s := handleSignMessage_call address s in
      await (AwaitSign provider address (challenge address (clock s))) s
  | _, _ => s
  end.

(** [handleSignMessage] from the wallet's answer on. *)
Definition handleSignMessage_resume
    (provider : Provider) (address message : string)
    (o : SignOutcome) (s : State) : State :=
  let s :=
    match o with
    | SignRejects => handleSignMessage_catch provider s
    | SignFalsy => s
    | Signed signatureUint8 r =>
        let signature := Bs58.encode signatureUint8 in
        let s := emit (PostVerify {| body_walletAddress := address;
                                     body_message := message;
                                     body_signature := signature |}) s in
        match r with
        | FetchRejects | JsonRejects => handleSignMessage_catch provider s
        | Responded data =>
            if success data then
              let s := setUser (data_user data) s in
              let s := setAuthToken (Js.held (data_token data)) s in
              let s := setItem "authToken" (Js.to_string (data_token data)) s in
              let s := setIsSigned true s in
              match data_user data with
              | Some _ => s
              | None =>
                  (* reading data.user.isNewUser throws *)
                  handleSignMessage_catch provider s
              end
            else emit (Alert "Signature verification failed") s
        end
    end in
  setIsLoading false s.

(** A whole run, from the call to the [finally] block, with nothing
    happening in between. *)
Definition handleSignMessage (o : SignOutcome) (v s : State) : State :=
  match walletProvider v, address v with
  | Some provider, Some (String _ _ as address) =>
      let s := handleSignMessage_call address s in
      handleSignMessage_resume provider address (challenge address (clock s)) o s
  | _, _ => s
  end.

(** Lines 189-194: the condition of the effect, and the effect. *)
Definition autoSign_fires (v s : State) : bool :=
  isConnected v && negb (isSigned v) && Js.defined (walletProvider v)
  && Js.truthy (address v) && negb (userDisconnectedRef s)
  && negb (Js.truthy (authToken v)).

Definition effect_autoSign (v s : State) : State :=
  if autoSign_fires v s then handleSignMessage_start v s else s.

(** *** Lines 196-208: the wallet disconnected *)

Definition effect_disconnect (v s : State) : State :=
  if negb (isConnected v) && userDisconnectedRef s then
    let s := removeItem "authToken" s in
    let s := setIsSigned false s in
    let s := setAuthToken None s in
    setUser None s
  else if negb (isConnected v) && negb (userDisconnectedRef s) then
    setRef false s
  else s.

(** *** Lines 210-225: the two buttons *)

Definition handleConnect (s : State) : State :=
  let s := setIsSigned false s in
  let s := setRef false s in
  emit OpenModal s.

Definition handleDisconnect (s : State) : State :=
  let s := removeItem "authToken" s in
  let s := setIsSigned false s in
  let s := setUser None s in
  let s := setAuthToken None s in
  let s := setRef true s in
  emit AppKitDisconnect s.

Definition phase (s : State) : Phase :=
  phase_of (isConnected s) (isLoading s) (isSigned s).

(** *** Renders: the dependency arrays, and the effects in the order they
    are written *)

(** React compares dependencies with [Object.is]; here [user] is compared
    by value.  A new record equal to the old one makes React run the
    address-drift effect once more, on the values it already saw, which
    changes nothing: its condition reads nothing but its dependencies. *)
Definition deps_verifySession (s : State) := (isConnected s, address s).
Definition deps_addressDrift (s : State) :=
  (address s, isConnected s, isSigned s, user s).
Definition deps_fetchBalance (s : State) :=
  (isConnected s, address s, isSigned s).
(** [handleSignMessage] is a [useCallback] over [walletProvider] and
    [address], both already in the array. *)
Definition deps_autoSign (s : State) :=
  (isConnected s, walletProvider s, isSigned s, address s, authToken s).
Definition deps_disconnect (s : State) := (isConnected s, address s).

(** The component between two events: its state, and the state the last
    render showed ([None] before the first render). *)
Record Component := {
  live : State;
  rendered : option State;
}.

Definition render (c : Component) : Component :=
  let v := live c in
  let prev := rendered c in
  let s := React.run_effect deps_verifySession effect_verifySession prev v v in
  let s := React.run_effect deps_addressDrift effect_addressDrift prev v s in
  let s := React.run_effect deps_fetchBalance effect_fetchBalance prev v s in
  let s := React.run_effect deps_autoSign effect_autoSign prev v s in
  let s := React.run_effect deps_disconnect effect_disconnect prev v s in
  {| live := s; rendered := Some v |}.

(** React renders again while effects change state; three renders reach a
    state that a further render leaves alone ([settle_stable]). *)
Definition settle (c : Component) : Component := render (render (render c)).

(** *** Events *)

Definition setHooks
    (c : bool) (a : option string) (p : option Provider) (s : State) : State :=
  let 'mkState _ _ _ g l b u t r st ck tr pd := s in
  mkState a c p g l b u t r st ck tr pd.

Definition setNow (x : Z) (s : State) : State :=
  let 'mkState a c p g l b u t r st _ tr pd := s in
  mkState a c p g l b u t r st x tr pd.

(** Takes the first pending promise equal to [x] off the list. *)
Fixpoint take (x : Pending) (pd : list Pending) : option (list Pending) :=
  match pd with
  | [] => None
  | y :: r => if decide (x = y) then Some r else cons y <$> take x r
  end.

Definition resolve (x : Pending) (s : State) : option State :=
  let 'mkState a c p g l b u t r st ck tr pd := s in
  pd' ← take x pd;
  Some (mkState a c p g l b u t r st ck tr pd').

Inductive Event :=
  | Hooks (isConnected : bool) (address : option string)
          (walletProvider : option Provider)   (* the wallet kit reports *)
  | Tick (t : Z)                               (* time passes *)
  | ClickConnect
  | ClickDisconnect
  | MeSettles (storedToken address : string) (o : MeOutcome)
  | SignSettles (provider : Provider) (address message : string)
                (o : SignOutcome)
  | BalanceSettles (address : string) (bal : option Z).

(** What an event does before React renders again; [None] when the event
    answers a request that is not pending. *)
Definition handle (e : Event) (s : State) : option State :=
  match e with
  | Hooks c a p => Some (setHooks c a p s)
  | Tick t => Some (setNow t s)
  | ClickConnect => Some (handleConnect s)
  | ClickDisconnect => Some (handleDisconnect s)
  | MeSettles storedToken address o =>
      verifySession_resume storedToken address o
        <$> resolve (AwaitMe storedToken address) s
  | SignSettles provider address message o =>
      handleSignMessage_resume provider address message o
        <$> resolve (AwaitSign provider address message) s
  | BalanceSettles address bal =>
      fetchBalance_resume bal <$> resolve (AwaitBalance address) s
  end.

Definition step (e : Event) (c : Component) : option Component :=
  s ← handle e (live c);
  Some (settle {| live := s; rendered := rendered c |}).

Fixpoint run (es : list Event) (c : Component) : option Component :=
  match es with
  | [] => Some c
  | e :: r => c' ← step e c; run r c'
  end.

(** The component when it mounts: [authToken] is initialised from the
    storage (line 24), and the first render runs every effect. *)
Definition initial
    (storage : gmap string string) (t : Z)
    (c : bool) (a : option string) (p : option Provider) : State :=
  {| address := a; isConnected := c; walletProvider := p;
     isSigned := false; isLoading := false; balance := None; user := None;
     authToken := storage !! "authToken";
     userDisconnectedRef := false;
     sessionStorage := storage; now := t;
     trace := []; pending := [] |}.

Definition mount
    (storage : gmap string string) (t : Z)
    (c : bool) (a : option string) (p : option Provider) : Component :=
  settle {| live := initial storage t c a p; rendered := None |}.

End Verified.

(** ** The simplified component *)

Module Simplified.

Inductive SignOutcome :=
  | SignRejects                              (* the user declines *)
  | SignFalsy                                (* resolves to null or undefined *)
  | Signed (signature : list Byte.byte).

Inductive Action :=
  | SignMessage (encodedMessage : list Byte.byte)
  | ProviderDisconnect
  | AppKitDisconnect
  | OpenModal
  | GetBalance (address : string)
  | SetItem (key value : string)
  | RemoveItem (key : string).

Record State := mkState {
  address : option string;
  isConnected : bool;
  walletProvider : option Provider;
  isSigned : bool;
  isLoading : bool;
  balance : option Q;
  userDisconnectedRef : bool;
  localStorage : gmap string string;
  now : Z;                              (* the time value of new Date() *)
  trace : list Action;
}.

Definition setIsSigned (x : bool) (s : State) : State :=
  let 'mkState a c p _ l b r st ck tr := s in mkState a c p x l b r st ck tr.

Definition setIsLoading (x : bool) (s : State) : State :=
  let 'mkState a c p g _ b r st ck tr := s in mkState a c p g x b r st ck tr.

Definition setBalance (x : option Q) (s : State) : State :=
  let 'mkState a c p g l _ r st ck tr := s in mkState a c p g l x r st ck tr.

Definition setRef (x : bool) (s : State) : State :=
  let 'mkState a c p g l b _ st ck tr := s in mkState a c p g l b x st ck tr.

Definition emit (x : Action) (s : State) : State :=
  let 'mkState a c p g l b r st ck tr := s in
  mkState a c p g l b r st ck (tr ++ [x]).

(** [new Date().toISOString()] *)
Definition clock (s : State) : string := Js.toISOString (now s).

Definition getItem (key : string) (s : State) : option string :=
  localStorage s !! key.

Definition setItem (key value : string) (s : State) : State :=
  let 'mkState a c p g l b r st ck tr := s in
  mkState a c p g l b r (<[key := value]> st) ck (tr ++ [SetItem key value]).

Definition removeItem (key : string) (s : State) : State :=
  let 'mkState a c p g l b r st ck tr := s in
  mkState a c p g l b r (delete key st) ck (tr ++ [RemoveItem key]).

(** The template literal [wallet_signed_${address}]. *)
Definition slot (address : string) : string := "wallet_signed_" +:+ address.

(** Lines 15-23. *)
Definition effect_loadSigned (v s : State) : State :=
  match address v with
  | Some (String _ _ as address) =>
      let signedState := getItem (slot address) s in
      if bool_decide (signedState = Some "true") then setIsSigned true s else s
  | _ => s
  end.

(** Lines 26-46, up to the request. *)
Definition effect_fetchBalance (v s : State) : State :=
  if isConnected v && Js.truthy (address v) && isSigned v then
    emit (GetBalance (default "" (address v))) s
  else setBalance None s.

Definition handleSignMessage_catch (provider : Provider) (s : State) : State :=
  if hasDisconnect provider then emit ProviderDisconnect s else s.

(** Lines 48-77; [o] is how [provider.signMessage] ends. *)
Definition handleSignMessage (o : SignOutcome) (v s : State) : State :=
  match walletProvider v, address v with
  | Some provider, Some (String _ _ as address) =>
      let s := setIsLoading true s in
      let message := challenge address (clock s) in
      let encodedMessage := Js.encode message in
      let s := emit (SignMessage encodedMessage) s in
      let s :=
        match o with
        | SignRejects => handleSignMessage_catch provider s
        | SignFalsy => s
        | Signed signature =>
            let s := setIsSigned true s in
            setItem (slot address) "true" s
        end in
      setIsLoading false s
  | _, _ => s
  end.

(** Lines 79-87: whether the effect calls [handleSignMessage]. *)
Definition autoSign_fires (v s : State) : bool :=
  isConnected v && negb (isSigned v) && Js.defined (walletProvider v)
  && Js.truthy (address v) && negb (userDisconnectedRef s)
  && negb (bool_decide (getItem (slot (default "" (address v))) s = Some "true")).

Definition deps_autoSign (s : State) :=
  (isConnected s, walletProvider s, isSigned s, address s).

(** Lines 89-100. *)
Definition effect_disconnect (v s : State) : State :=
  if negb (isConnected v) then
    let s :=
      match address v with
      | Some (String _ _ as address) => removeItem (slot address) s
      | _ => s
      end in
    setIsSigned false s
  else setRef false s.

Definition handleConnect (s : State) : State :=
  let s := setIsSigned false s in
  let s := setRef false s in
  emit OpenModal s.

(** Lines 108-116; an event handler, it sees the [address] of the last
    render, which is the current one between events. *)
Definition handleDisconnect (s : State) : State :=
  let s :=
    match address s with
    | Some (String _ _ as address) => removeItem (slot address) s
    | _ => s
    end in
  let s := setIsSigned false s in
  let s := setRef true s in
  emit AppKitDisconnect s.

Definition phase (s : State) : Phase :=
  phase_of (isConnected s) (isLoading s) (isSigned s).

End Simplified.

(** ** Strings as the display and the error handling use them *)

Module JsString.

(** The index [String.prototype.slice] makes of an argument: counted from
    the end when negative, and kept within the string. *)
Definition clamp (len : nat) (i : Z) : nat :=
  if (i <? 0)%Z then Z.to_nat (Z.max (Z.of_nat len + i) 0)
  else Nat.min (Z.to_nat i) len.

(** [s.slice(start, stop)], and [s.slice(start)] for [stop = None]. *)
Definition slice (start : Z) (stop : option Z) (s : string) : string :=
  let cs := list_ascii_of_string s in
  let len := length cs in
  let from := clamp len start in
  let to := match stop with Some e => clamp len e | None => len end in
  string_of_list_ascii (take (to - from) (drop from cs)).

(** [s.includes(sub)] *)
Fixpoint includes (s sub : string) : bool :=
  String.prefix sub s
  || match s with
     | EmptyString => false
     | String _ r => includes r sub
     end.

Definition is_space (c : ascii) : bool :=
  let n := nat_of_ascii c in
  ((9 <=? n) && (n <=? 13)) || (n =? 32).

Fixpoint trimStart (cs : list ascii) : list ascii :=
  match cs with
  | c :: r => if is_space c then trimStart r else cs
  | [] => []
  end.

(** [s.trim()] for the white space of ASCII. *)
Definition trim (s : string) : string :=
  string_of_list_ascii
    (rev (trimStart (rev (trimStart (list_ascii_of_string s))))).

(** [String(x)] for a [string | null]. *)
Definition of_nullable (x : option string) : string :=
  match x with Some t => t | None => "null" end.

End JsString.

(** The two ends of an address, as the transaction list and both forms of
    [SignAndConnect] show it. *)
Definition truncateAddress (address : string) : string :=
  JsString.slice 0 (Some 4%Z) address +:+ "..."
    +:+ JsString.slice (-4) None address.

(** ** The transaction history *)

Module History.

Inductive TxType := SOL | SPL_TOKEN.

Record Transaction := {
  _id : string;
  txHash : string;
  type : TxType;
  tokenMint : option string;
  tokenSymbol : option string;
  amount : string;
  sender : string;
  recipient : string;
  status : string;
  blockTime : option string;
  fee : option Z;
  createdAt : string;
}.

Inductive Filter := All | Confirmed | Pending | Failed.

#[global] Instance Filter_eq_dec : EqDecision Filter.
Proof. solve_decision. Defined.

(** The text of a filter value. *)
Definition filter_text (f : Filter) : string :=
  match f with
  | All => "all"
  | Confirmed => "confirmed"
  | Pending => "pending"
  | Failed => "failed"
  end.

(** [data.stats], as the four counters the component shows. *)
Record Stats := {
  totalTransactions : Z;
  confirmed : Z;
  pending : Z;
  failed : Z;
}.

(** How the request of the list ends. *)
Inductive ListOutcome :=
  | ListThrows                      (* fetch or response.json() rejects, or
                                       data.data cannot be read *)
  | ListRejected (message : option string)     (* data.success is falsy *)
  | ListOk (transactions : option (list Transaction)).
                                    (* data.success is truthy; what
                                       data.data.transactions holds,
                                       [None] when the answer has no list *)

(** How the request of the summary ends. *)
Inductive StatsOutcome :=
  | StatsThrows
  | StatsRejected
  | StatsOk (stats : option Stats).

Inductive Action :=
  | GetTransactions (query bearer : string)
  | GetStats (bearer : string)
  | OpenExplorer (url : string).

Record State := mkState {
  (* props *)
  authToken : option string;
  refreshTrigger : nat;
  (* useState *)
  transactions : option (list Transaction);  (* [None] once it was set to
                                                [undefined] *)
  isLoading : bool;
  error : option string;
  filter : Filter;
  stats : option Stats;
  (* the outside world *)
  trace : list Action;
}.

Definition setTransactions
    (x : option (list Transaction)) (s : State) : State :=
  let 'mkState a r _ l e f st tr := s in mkState a r x l e f st tr.

Definition setIsLoading (x : bool) (s : State) : State :=
  let 'mkState a r t _ e f st tr := s in mkState a r t x e f st tr.

Definition setError (x : option string) (s : State) : State :=
  let 'mkState a r t l _ f st tr := s in mkState a r t l x f st tr.

Definition setFilter (x : Filter) (s : State) : State :=
  let 'mkState a r t l e _ st tr := s in mkState a r t l e x st tr.

Definition setStats (x : option Stats) (s : State) : State :=
  let 'mkState a r t l e f _ tr := s in mkState a r t l e f x tr.

Definition emit (x : Action) (s : State) : State :=
  let 'mkState a r t l e f st tr := s in mkState a r t l e f st (tr ++ [x]).

(** The parent renders the component with new props. *)
Definition setProps (a : option string) (r : nat) (s : State) : State :=
  let 'mkState _ _ t l e f st tr := s in mkState a r t l e f st tr.

(** The path and query of line 40, after [API_URL]. *)
Definition query (f : Filter) : string :=
  let statusParam :=
    if decide (f <> All) then "&status=" +:+ filter_text f else "" in
  "/api/transactions?limit=50" +:+ statusParam.

(** Lines 32-44: [fetchTransactions] up to [await fetch]; [None] when it
    returns at once. *)
Definition fetchTransactions_start (v s : State) : option State :=
  match authToken v with
  | Some (String _ _ as authToken) =>
      let s := setIsLoading true s in
      let s := setError None s in
      Some (emit (GetTransactions (query (filter v)) authToken) s)
  | _ => None
  end.

(** Lines 46-58. *)
Definition fetchTransactions_resume (o : ListOutcome) (s : State) : State :=
  let s :=
    match o with
    | ListOk transactions => setTransactions transactions s
    | ListRejected message => setError message s
    | ListThrows => setError (Some "Failed to load transactions") s
    end in
  setIsLoading false s.

(** A whole run of [fetchTransactions]. *)
Definition fetchTransactions (o : ListOutcome) (v s : State) : State :=
  match fetchTransactions_start v s with
  | Some s => fetchTransactions_resume o s
  | None => s
  end.

(** Lines 61-79. *)
Definition fetchStats_start (v s : State) : option State :=
  match authToken v with
  | Some (String _ _ as authToken) => Some (emit (GetStats authToken) s)
  | _ => None
  end.

Definition fetchStats_resume (o : StatsOutcome) (s : State) : State :=
  match o with
  | StatsOk stats => setStats stats s
  | StatsRejected | StatsThrows => s
  end.

Definition fetchStats (o : StatsOutcome) (v s : State) : State :=
  match fetchStats_start v s with
  | Some s => fetchStats_resume o s
  | None => s
  end.

(** Lines 81-84: the effect launches both requests. *)
Definition effect (v s : State) : State :=
  let s := default s (fetchTransactions_start v s) in
  default s (fetchStats_start v s).

Definition deps (s : State) := (authToken s, filter s, refreshTrigger s).

(** Lines 86-110. *)
Definition getStatusColor (status : string) : string :=
  if decide (status = "confirmed") then "#10b981"
  else if decide (status = "pending") then "#f59e0b"
  else if decide (status = "failed") then "#ef4444"
  else "#6b7280".

Definition getStatusIcon (status : string) : string :=
  if decide (status = "confirmed") then "✓"
  else if decide (status = "pending") then "⏳"
  else if decide (status = "failed") then "✗"
  else "?".

(** Lines 126-128. *)
Definition openExplorer (txHash : string) (s : State) : State :=
  emit (OpenExplorer
          ("https://explorer.solana.com/tx/" +:+ txHash +:+ "?cluster=devnet"))
       s.

(** Lines 226-256: which of the four blocks under the filter buttons are
    rendered.  The last two read [transactions.length] when nothing is
    loading and no error is set; with [transactions] undefined that read
    throws and the render fails. *)
Definition shows_loading (s : State) : bool := isLoading s.
Definition shows_error (s : State) : bool := Js.truthy (error s).
Definition render_throws (s : State) : bool :=
  negb (isLoading s) && negb (Js.truthy (error s))
  && negb (Js.defined (transactions s)).
Definition shows_empty (s : State) : bool :=
  negb (isLoading s) && negb (Js.truthy (error s))
  && match transactions s with
     | Some transactions => length transactions =? 0
     | None => false
     end.
Definition shows_list (s : State) : bool :=
  negb (isLoading s) && negb (Js.truthy (error s))
  && match transactions s with
     | Some transactions => 0 <? length transactions
     | None => false
     end.

End History.

(** ** The transfer form *)

Module Transfer.

(** What the form takes from the platform and from the Solana libraries:
    JavaScript numbers, and the checks and renderings it leaves to them. *)
Class Platform := {
  number : Type;
  parseFloat : string -> number;
  le_zero : number -> bool;             (* x <= 0 *)
  gt : number -> number -> bool;        (* x > y *)
  times : number -> Z -> number;        (* x * n *)
  sol_of_lamports : Z -> number;        (* bal / LAMPORTS_PER_SOL *)
  toFixed : nat -> number -> string;    (* x.toFixed(n) *)
  isPublicKey : string -> bool;         (* new PublicKey(s) does not throw *)
  trim : string -> string;              (* s.trim() *)
  undefined_slice : string;             (* the message of the TypeError of
                                           undefined.slice *)
}.

Inductive TransferType := SOL | SPL.

#[global] Instance TransferType_eq_dec : EqDecision TransferType.
Proof. solve_decision. Defined.

(** How [/api/transactions/verify] ends. *)
Inductive BackendOutcome :=
  | BackendThrows
  | BackendRejects (message : option string)
  | BackendAccepts.

(** How the chain of awaited calls of [handleTransferSOL] and
    [handleTransferSPL] ends; a thrown error is given by the text
    [handleTransfer] makes of it. *)
Inductive ChainOutcome :=
  | BuildThrows (errorMessage : string)          (* keys and instruction *)
  | TokenAccountsThrow (second : bool) (errorMessage : string)
                                   (* one of the getAssociatedTokenAddress *)
  | BlockhashThrows (errorMessage : string)
  | SignThrows (errorMessage : string)           (* the wallet declines *)
  | SendThrows (errorMessage : string)
  | ConfirmThrows (signature errorMessage : string)
  | Confirmed (signature : string) (b : BackendOutcome).

(** How the last balance request of [handleTransfer] ends. *)
Inductive RefreshOutcome :=
  | RefreshThrows (errorMessage : string)
  | RefreshOk (lamports : Z).

Section WithPlatform.

Context `{Platform}.

(** The instruction handed to the wallet. *)
Inductive Instruction :=
  | SystemTransfer (fromPubkey toPubkey : string) (lamports : number)
  | TokenTransfer (mint fromOwner toOwner : string) (amount : number).

(** The body of [POST /api/transactions/verify]. *)
Record VerifyBody := {
  body_txHash : string;
  body_tokenMint : option string;
  body_recipient : string;
}.

Inductive Action :=
  | GetAssociatedTokenAddress (mint owner : string)
  | GetLatestBlockhash
  | SignTransaction (i : Instruction)
  | SendRawTransaction
  | ConfirmTransaction (signature : string)
  | PostVerify (body : VerifyBody) (authorization : string)
  | Alert (text : string)
  | OnTransactionComplete
  | GetBalance (address : string).

Record State := mkState {
  (* useAppKitProvider, useAppKitAccount *)
  walletProvider : option Provider;
  address : option string;
  (* props *)
  authToken : option string;
  onTransactionComplete : bool;          (* whether the callback is given *)
  (* useState *)
  transferType : TransferType;
  recipientAddress : string;
  amount : string;
  tokenMint : string;
  isTransferring : bool;
  balance : option number;
  error : option string;
  (* the outside world *)
  trace : list Action;
}.

Definition setTransferType (x : TransferType) (s : State) : State :=
  let 'mkState p a t cb _ r am m i b e tr := s in
  mkState p a t cb x r am m i b e tr.

Definition setRecipientAddress (x : string) (s : State) : State :=
  let 'mkState p a t cb ty _ am m i b e tr := s in
  mkState p a t cb ty x am m i b e tr.

Definition setAmount (x : string) (s : State) : State :=
  let 'mkState p a t cb ty r _ m i b e tr := s in
  mkState p a t cb ty r x m i b e tr.

Definition setTokenMint (x : string) (s : State) : State :=
  let 'mkState p a t cb ty r am _ i b e tr := s in
  mkState p a t cb ty r am x i b e tr.

Definition setIsTransferring (x : bool) (s : State) : State :=
  let 'mkState p a t cb ty r am m _ b e tr := s in
  mkState p a t cb ty r am m x b e tr.

Definition setBalance (x : option number) (s : State) : State :=
  let 'mkState p a t cb ty r am m i _ e tr := s in
  mkState p a t cb ty r am m i x e tr.

Definition setError (x : option string) (s : State) : State :=
  let 'mkState p a t cb ty r am m i b _ tr := s in
  mkState p a t cb ty r am m i b x tr.

Definition emit (x : Action) (s : State) : State :=
  let 'mkState p a t cb ty r am m i b e tr := s in
  mkState p a t cb ty r am m i b e (tr ++ [x]).

(** Lines 359-373: the balance on load; [bal] is how the request ends. *)
Definition effect_fetchBalance (bal : option Z) (v s : State) : State :=
  match address v with
  | Some (String _ _ as address) =>
      let s := emit (GetBalance address) s in
      match bal with
      | Some n => setBalance (Some (sol_of_lamports n)) s
      | None => s
      end
  | _ => s
  end.

(** Lines 375-415: the verdict, and the state with the message set. *)
Definition validateInputs (s : State) : bool * State :=
  let s' := setError None s in
  if negb (Js.truthy (Some (trim (recipientAddress s)))) then
    (false, setError (Some "Recipient address is required") s')
  else if negb (isPublicKey (recipientAddress s)) then
    (false, setError (Some "Invalid recipient address") s')
  else if negb (Js.truthy (Some (amount s)))
          || le_zero (parseFloat (amount s)) then
    (false, setError (Some "Amount must be greater than 0") s')
  else if bool_decide (transferType s = SPL)
          && negb (Js.truthy (Some (trim (tokenMint s)))) then
    (false,
     setError (Some "Token mint address is required for SPL transfers") s')
  else if bool_decide (transferType s = SPL)
          && negb (isPublicKey (tokenMint s)) then
    (false, setError (Some "Invalid token mint address") s')
  else
    match balance s with
    | Some balance =>
        if bool_decide (transferType s = SOL)
           && gt (parseFloat (amount s)) balance then
          (false,
           setError
             (Some ("Insufficient balance. You have "
                      +:+ toFixed 4 balance +:+ " SOL")) s')
        else (true, s')
    | None => (true, s')
    end.

(** What a transfer function hands back: an error thrown, or its return
    value, [undefined] when it returned at its first line. *)
Inductive Returned :=
  | Threw (errorMessage : string)
  | Gave (signature : option string).

(** Lines 524-554: the request is made; its answer changes nothing. *)
Definition verifyTransactionWithBackend
    (txHash : string) (tokenMint : option string) (recipient : string)
    (b : BackendOutcome) (s : State) : State :=
  emit (PostVerify {| body_txHash := txHash; body_tokenMint := tokenMint;
                      body_recipient := recipient |}
          ("Bearer " +:+ JsString.of_nullable (authToken s))) s.

(** From [getLatestBlockhash] on, the same in both transfer functions. *)
Definition send_and_confirm
    (i : Instruction) (tokenMint : option string)
    (o : ChainOutcome) (s : State) : State * Returned :=
  match o with
  | BuildThrows m | TokenAccountsThrow _ m => (s, Threw m)
  | BlockhashThrows m => (emit GetLatestBlockhash s, Threw m)
  | SignThrows m =>
      let s := emit GetLatestBlockhash s in
      (emit (SignTransaction i) s, Threw m)
  | SendThrows m =>
      let s := emit GetLatestBlockhash s in
      let s := emit (SignTransaction i) s in
      (emit SendRawTransaction s, Threw m)
  | ConfirmThrows signature m =>
      let s := emit GetLatestBlockhash s in
      let s := emit (SignTransaction i) s in
      let s := emit SendRawTransaction s in
      (emit (ConfirmTransaction signature) s, Threw m)
  | Confirmed signature b =>
      let s := emit GetLatestBlockhash s in
      let s := emit (SignTransaction i) s in
      let s := emit SendRawTransaction s in
      let s := emit (ConfirmTransaction signature) s in
      let s :=
        verifyTransactionWithBackend
          signature tokenMint (recipientAddress s) b s in
      (s, Gave (Some signature))
  end.

(** Lines 417-459. *)
Definition handleTransferSOL (o : ChainOutcome) (s : State) : State * Returned :=
  match walletProvider s, address s with
  | Some _, Some (String _ _ as address) =>
      send_and_confirm
        (SystemTransfer address (recipientAddress s)
           (times (parseFloat (amount s)) (Zpos Verified.LAMPORTS_PER_SOL)))
        None o s
  | _, _ => (s, Gave None)
  end.

(** Lines 461-522. *)
Definition handleTransferSPL (o : ChainOutcome) (s : State) : State * Returned :=
  match walletProvider s, address s with
  | Some _, Some (String _ _ as address) =>
      match o with
      | BuildThrows m => (s, Threw m)
      | TokenAccountsThrow false m =>
          (emit (GetAssociatedTokenAddress (tokenMint s) address) s, Threw m)
      | _ =>
          let s := emit (GetAssociatedTokenAddress (tokenMint s) address) s in
          let s :=
            emit (GetAssociatedTokenAddress (tokenMint s)
                    (recipientAddress s)) s in
          send_and_confirm
            (TokenTransfer (tokenMint s) address (recipientAddress s)
               (times (parseFloat (amount s)) (10 ^ 9)))
            (Some (tokenMint s)) o s
      end
  | _, _ => (s, Gave None)
  end.

(** Lines 594-605: the message shown for a thrown error. *)
Definition explain (errorMessage : string) : string :=
  if JsString.includes errorMessage "not been authorized"
     || JsString.includes errorMessage "User rejected"
     || JsString.includes errorMessage "denied"
  then "Transaction rejected. Please approve the transaction in your wallet."
  else if JsString.includes errorMessage "insufficient"
  then "Insufficient funds for this transaction."
  else if Js.truthy (Some errorMessage) then errorMessage
  else "Transfer failed. Please try again.".

(** Line 758: the [disabled] attribute of the transfer button. *)
Definition button_disabled (s : State) : bool :=
  isTransferring s || negb (Js.truthy (Some (recipientAddress s)))
  || negb (Js.truthy (Some (amount s))).

Definition handleTransfer_catch (errorMessage : string) (s : State) : State :=
  setError (Some (explain errorMessage)) s.

(** Lines 571-590: after the transfer function returned. *)
Definition handleTransfer_done
    (signature : option string) (r : RefreshOutcome) (s : State) : State :=
  let s := setRecipientAddress "" s in
  let s := setAmount "" s in
  let s := setTokenMint "" s in
  match signature with
  | None => handleTransfer_catch undefined_slice s
  | Some signature =>
      let s :=
        emit (Alert ("Transfer successful!" +:+ Js.newline +:+ "Signature: "
                       +:+ JsString.slice 0 (Some 8%Z) signature +:+ "..."
                       +:+ JsString.slice (-8) None signature)) s in
      let s := if onTransactionComplete s then emit OnTransactionComplete s
               else s in
      match address s with
      | Some (String _ _ as address) =>
          let s := emit (GetBalance address) s in
          match r with
          | RefreshOk n => setBalance (Some (sol_of_lamports n)) s
          | RefreshThrows m => handleTransfer_catch m s
          end
      | _ => s
      end
  end.

(** Lines 556-609. *)
Definition handleTransfer
    (o : ChainOutcome) (r : RefreshOutcome) (s : State) : State :=
  let '(ok, s1) := validateInputs s in
  if negb ok then s1
  else
    let s1 := setIsTransferring true s1 in
    let s1 := setError None s1 in
    let '(s2, ret) :=
      if bool_decide (transferType s = SOL) then handleTransferSOL o s1
      else handleTransferSPL o s1 in
    let s3 :=
      match ret with
      | Threw m => handleTransfer_catch m s2
      | Gave signature => handleTransfer_done signature r s2
      end in
    setIsTransferring false s3.

End WithPlatform.

End Transfer.

(** ** The renders of the simplified component *)

Module SimplifiedRender.

Import Simplified.

(** Lines 48-58: [handleSignMessage] up to [await provider.signMessage]. *)
Definition handleSignMessage_start (v s : State) : State :=
  match walletProvider v, address v with
  | Some provider, Some (String _ _ as address) =>
      let s := setIsLoading true s in
      let message := challenge address (clock s) in
      let encodedMessage := Js.encode message in
      emit (SignMessage encodedMessage) s
  | _, _ => s
  end.

(** Lines 79-87. *)
Definition effect_autoSign (v s : State) : State :=
  if autoSign_fires v s then handleSignMessage_start v s else s.

Definition deps_loadSigned (s : State) := address s.
Definition deps_fetchBalance (s : State) :=
  (isConnected s, address s, isSigned s).
Definition deps_disconnect (s : State) := (isConnected s, address s).

Record Component := {
  live : State;
  rendered : option State;
}.

(** The four effects, in the order they are written. *)
Definition render (c : Component) : Component :=
  let v := live c in
  let prev := rendered c in
  let s := React.run_effect deps_loadSigned effect_loadSigned prev v v in
  let s := React.run_effect deps_fetchBalance effect_fetchBalance prev v s in
  let s := React.run_effect deps_autoSign effect_autoSign prev v s in
  let s := React.run_effect deps_disconnect effect_disconnect prev v s in
  {| live := s; rendered := Some v |}.

(** The page is loaded again: the storage stays, the state starts anew. *)
Definition reload
    (c : bool) (a : option string) (p : option Provider) (s : State)
    : Component :=
  {| live := {| address := a; isConnected := c; walletProvider := p;
                isSigned := false; isLoading := false; balance := None;
                userDisconnectedRef := false;
                localStorage := localStorage s; now := now s;
                trace := [] |};
     rendered := None |}.

(** The signature requests in a trace. *)
Fixpoint prompts (tr : list Action) : nat :=
  match tr with
  | [] => 0
  | SignMessage _ :: r => S (prompts r)
  | _ :: r => prompts r
  end.

End SimplifiedRender.

(** ** The page: [SignAndConnect] with its two children *)

Module Page.

Record State := {
  guard : Verified.State;
  refreshTrigger : nat;                  (* line 28 *)
}.

(** Lines 227-245 of the credential-verified component; [bal] is how the
    balance request ends, and a failed one leaves the balance shown. *)
Definition handleTransactionComplete (bal : option Z) (p : State) : State :=
  let g := guard p in
  let g :=
    match Verified.address g with
    | Some (String _ _ as address) =>
        let g := Verified.emit (Verified.GetBalance address) g in
        match bal with
        | Some n =>
            Verified.setBalance (Some (n # Verified.LAMPORTS_PER_SOL)) g
        | None => g
        end
    | _ => g
    end in
  {| guard := g; refreshTrigger := S (refreshTrigger p) |}.

(** Lines 298-301: the props of [TransactionHistory]. *)
Definition history_props (p : State) (h : History.State) : History.State :=
  History.setProps (Verified.authToken (guard p)) (refreshTrigger p) h.

(** Lines 266-303: the children are rendered in the authenticated phase
    only. *)
Definition shows_children (p : State) : bool :=
  Verified.isConnected (guard p) && negb (Verified.isLoading (guard p))
  && Verified.isSigned (guard p).

End Page.

(** * Vocabulary of the properties

    From here on the unqualified names are those of the credential-verified
    component. *)

Import Verified.

(** What the effects depend on: the hook values and the session fields. *)
Definition hooks (s : State) := (isConnected s, address s, walletProvider s).
Definition session (s : State) := (isSigned s, user s, authToken s).

(** The condition under which the address-drift effect purges. *)
Definition drifted (s : State) : bool :=
  match address s, user s with
  | Some a, Some u =>
      isConnected s && Js.truthy (Some a) && isSigned s
      && negb (Js.same_address a (walletAddress u))
  | _, _ => false
  end.

(** The last render showed the state as it is now. *)
Definition settled (c : Component) : Prop := rendered c = Some (live c).

(** The guard of the fast path passed and the answer was bad. *)
Definition me_stale (address : string) (o : MeOutcome) : bool :=
  match o with
  | MeNotOk => true
  | MeOk u => negb (Js.same_address (walletAddress u) address)
  | MeThrows => false
  end.

(** The verify answer is marked successful. *)
Definition marked_successful (o : SignOutcome) : bool :=
  match o with
  | Signed _ (Responded data) => success data
  | _ => false
  end.

(** The token a successful run stores. *)
Definition issued (o : SignOutcome) : Js.field :=
  match o with
  | Signed _ (Responded data) => data_token data
  | _ => Js.absent
  end.

(** A verify answer marked successful carries a user record and a token. *)
Definition carries_credential (e : Event) : bool :=
  match e with
  | SignSettles _ _ _ (Signed _ (Responded data)) =>
      implb (success data)
        (Js.defined (data_user data)
         && Js.defined (Js.held (data_token data)))
  | _ => true
  end.

(** The signed flag is up only with a credential and a user record. *)
Definition credentialed (s : State) : Prop :=
  isSigned s = true -> Js.defined (authToken s) && Js.defined (user s) = true.

(** The invariant as the specification words it. *)
Definition signed_means_matching (s : State) : Prop :=
  isSigned s = true ->
  authToken s <> None
  /\ exists u a, user s = Some u /\ address s = Some a
                 /\ Js.toLowerCase (walletAddress u) = Js.toLowerCase a.

(** A pending [/api/auth/me] request left with a truthy token. *)
Definition launched_ok (x : Pending) : Prop :=
  match x with
  | AwaitMe storedToken _ => storedToken <> ""
  | _ => True
  end.

(** A stored credential is also held in memory, and every pending
    [/api/auth/me] request left with a truthy token. *)
Definition mirrored (s : State) : Prop :=
  (Js.truthy (getItem "authToken" s) = true -> Js.truthy (authToken s) = true)
  /\ Forall launched_ok (pending s).

(** No signature request among the calls made since [before]. *)
Definition no_new_prompt (before after : list Action) : Prop :=
  forall m, SignMessage m ∈ after -> SignMessage m ∈ before.

(** All that the effects of one render can do to the fields the guard
    relies on: nothing, or a purge; and the requests they launch. *)
Record effect_frame (s s' : State) : Prop := {
  ef_hooks : hooks s' = hooks s;
  ef_latch : userDisconnectedRef s' = userDisconnectedRef s;
  ef_clock : clock s' = clock s;
  ef_session :
    (session s' = session s /\ sessionStorage s' = sessionStorage s)
    \/ (session s' = (false, None, None)
        /\ sessionStorage s' = delete "authToken" (sessionStorage s));
  ef_pending :
    exists new, pending s' = pending s ++ new /\ Forall launched_ok new;
}.

(** The number a list of base-58 digits denotes, most significant first. *)
Definition of_digits (ds : list N) : N :=
  fold_left (fun acc d => (acc * 58 + d)%N) ds 0%N.

(** The signature requests in a trace. *)
Fixpoint prompts (tr : list Action) : nat :=
  match tr with
  | [] => 0
  | SignMessage _ :: r => S (prompts r)
  | _ :: r => prompts r
  end.

(** ** What the two encodings are held to *)

(** The place of a character in a list of characters. *)
Fixpoint index_of (c : ascii) (cs : list ascii) : option N :=
  match cs with
  | [] => None
  | x :: r => if Ascii.eqb c x then Some 0%N else N.succ <$> index_of c r
  end.

(** The value of a base58 digit, [None] for a character that is not of the
    alphabet. *)
Definition base58_digit (c : ascii) : option N :=
  index_of c (list_ascii_of_string Bs58.ALPHABET).

(** The number a base58 text denotes, most significant digit first. *)
Fixpoint base58_value (cs : list ascii) (acc : N) : option N :=
  match cs with
  | [] => Some acc
  | c :: r =>
      match base58_digit c with
      | Some d => base58_value r (acc * 58 + d)%N
      | None => None
      end
  end.

(** The characters ['1'] a text starts with. *)
Fixpoint leading_ones (cs : list ascii) : nat :=
  match cs with
  | c :: r => if Ascii.eqb c "1"%char then S (leading_ones r) else 0
  | [] => 0
  end.

(** [text] is the base58 text of [bytes], told from the text: all its
    characters are of the alphabet, it denotes the number the bytes denote,
    and it starts with as many ['1'] as the bytes start with zero
    bytes. *)
Definition base58_of (text : string) (bytes : list Byte.byte) : Prop :=
  let cs := list_ascii_of_string text in
  base58_value cs 0 = Some (Bs58.to_N bytes)
  /\ leading_ones cs = Bs58.leading_zeros bytes.

(** ** Scenarios *)

Definition now0 : Z := 1714558830000.

(** The text of that instant. *)
Definition iso0 : string := "2024-05-01T10:20:30.000Z".

Definition wallet : Provider := {| hasDisconnect := true |}.

(** A freshly mounted component whose wallet is connected as X. *)
Definition connected_X : State := initial ∅ now0 true (Some "X") (Some wallet).

Definition user_X : UserRecord :=
  {| walletAddress := "X"; createdAt := "2024-01-01T00:00:00.000Z";
     lastLoginAt := "2024-05-01T10:20:31.000Z"; isNewUser := Some false |}.

Definition user_Y : UserRecord :=
  {| walletAddress := "Y"; createdAt := "2023-11-05T08:00:00.000Z";
     lastLoginAt := "2024-04-30T23:59:59.000Z"; isNewUser := None |}.

Definition accept_X : VerifyData :=
  {| success := true; data_message := Some "ok";
     data_user := Some user_X; data_token := Js.text "T" |}.

Definition accept_without_token : VerifyData :=
  {| success := true; data_message := Some "ok";
     data_user := Some user_X; data_token := Js.absent |}.

(** The wallet connects as X, the user signs, the backend answers. *)
Definition sign_in (data : VerifyData) : list Event :=
  [Hooks true (Some "X") (Some wallet);
   SignSettles wallet "X" (challenge "X" iso0)
     (Signed [Byte.x01] (Responded data))].

(** ... and then the provider drops the connection. *)
Definition provider_drops : list Event :=
  sign_in accept_X ++ [Hooks false None None].

(** Authenticated as X with credential T. *)
Definition authenticated_X : State :=
  {| address := Some "X"; isConnected := true; walletProvider := Some wallet;
     isSigned := true; isLoading := false; balance := Some (5 # 1);
     user := Some user_X; authToken := Some "T";
     userDisconnectedRef := false;
     sessionStorage := {["authToken" := "T"]}; now := now0;
     trace := []; pending := [] |}.

(** The same, just after the wallet switched to Z. *)
Definition switched_to_Z : Component :=
  {| live := setHooks true (Some "Z") (Some wallet) authenticated_X;
     rendered := Some authenticated_X |}.

(** A component about to mount with credential T in the storage. *)
Definition before_mount_T : Component :=
  {| live := initial {["authToken" := "T"]} now0 false None None;
     rendered := None |}.

(** The simplified component after its wallet dropped the connection while
    the hook still reports the address. *)
Definition simplified_dropped : Simplified.State :=
  {| Simplified.address := Some "X"; Simplified.isConnected := false;
     Simplified.walletProvider := Some wallet;
     Simplified.isSigned := true; Simplified.isLoading := false;
     Simplified.balance := None;
     Simplified.userDisconnectedRef := false;
     Simplified.localStorage := {[ Simplified.slot "X" := "true" ]};
     Simplified.now := now0;
     Simplified.trace := [] |}.

(** The simplified component, connected as X and not signed. *)
Definition simplified_connected_X : Simplified.State :=
  {| Simplified.address := Some "X"; Simplified.isConnected := true;
     Simplified.walletProvider := Some wallet;
     Simplified.isSigned := false; Simplified.isLoading := false;
     Simplified.balance := None;
     Simplified.userDisconnectedRef := false;
     Simplified.localStorage := ∅;
     Simplified.now := now0;
     Simplified.trace := [] |}.


(** ** Vocabulary of the further properties *)

(** The launch of a session check or of a signature. *)
Definition is_launch (x : Action) : bool :=
  match x with
  | FetchMe _ | SignMessage _ => true
  | _ => false
  end.

(** [s'] is [s] after some calls, none of them such a launch. *)
Definition launches_nothing (s s' : State) : Prop :=
  exists acts,
    trace s' = trace s ++ acts
    /\ forallb (fun x => negb (is_launch x)) acts = true.

(** The record of a verify answer is for [a]. *)
Definition answers_for (a : string) (data : VerifyData) : bool :=
  match data_user data with
  | Some u => Js.same_address a (walletAddress u)
  | None => false
  end.

(** The [/api/auth/me] answer does not revalidate the credential for the
    address the request was made for. *)
Definition me_fails (address : string) (o : MeOutcome) : bool :=
  match o with
  | MeThrows | MeNotOk => true
  | MeOk u => negb (Js.same_address (walletAddress u) address)
  end.

(** An address without a line break. *)
Definition single_line (s : string) : bool :=
  forallb (fun c => negb (Ascii.eqb c (ascii_of_nat 10)))
    (list_ascii_of_string s).

(** How many of the three blocks under the loading notice of the history
    are rendered. *)
Definition blocks_shown (s : History.State) : nat :=
  Nat.b2n (History.shows_error s) + Nat.b2n (History.shows_empty s)
  + Nat.b2n (History.shows_list s).

(** The transfer ran to its end: confirmed on chain, with a wallet and an
    address at hand, and the balance read again. *)
Definition completes `{Transfer.Platform}
    (o : Transfer.ChainOutcome) (r : Transfer.RefreshOutcome)
    (s : Transfer.State) : bool :=
  match o, r with
  | Transfer.Confirmed _ _, Transfer.RefreshOk _ =>
      Js.defined (Transfer.walletProvider s) && Js.truthy (Transfer.address s)
  | _, _ => false
  end.

(** ** A platform to run the transfer form on

    Numbers are exact rationals, [None] standing for NaN; amounts are read
    as plain decimals; a public key is 32 to 44 characters of the base58
    alphabet.  It serves the examples only. *)

Definition digit_of (c : ascii) : option N :=
  let n := nat_of_ascii c in
  if (48 <=? n) && (n <=? 57) then Some (N.of_nat (n - 48)) else None.

Fixpoint read_digits (cs : list ascii) (acc : N) : option N :=
  match cs with
  | [] => Some acc
  | c :: r =>
      match digit_of c with
      | Some d => read_digits r (acc * 10 + d)%N
      | None => None
      end
  end.

Fixpoint split_point (cs : list ascii) : list ascii * list ascii :=
  match cs with
  | [] => ([], [])
  | c :: r =>
      if Ascii.eqb c "."%char then ([], r)
      else let '(w, f) := split_point r in (c :: w, f)
  end.

Definition read_decimal (s : string) : option Q :=
  let '(w, f) := split_point (list_ascii_of_string s) in
  match w, read_digits w 0, read_digits f 0 with
  | _ :: _, Some n, Some m =>
      let k := Pos.pow 10 (Pos.of_succ_nat (length f)) in
      Some ((Z.of_N n * Zpos k + 10 * Z.of_N m) # k)
  | _, _, _ => None
  end.

Definition show_fixed (k : nat) (x : option Q) : string :=
  match x with
  | None => "NaN"
  | Some q =>
      let scale := (10 ^ Z.of_nat k)%Z in
      let n := ((2 * Qnum q * scale + Zpos (Qden q)) / (2 * Zpos (Qden q)))%Z in
      let frac := pretty (Z.to_N (n mod scale)) in
      pretty (n / scale)%Z +:+ "."
        +:+ string_of_list_ascii (replicate (k - String.length frac) "0"%char)
        +:+ frac
  end.

#[local] Instance demo : Transfer.Platform := {|
  Transfer.number := option Q;
  Transfer.parseFloat := read_decimal;
  Transfer.le_zero x :=
    match x with Some q => Qle_bool q 0 | None => false end;
  Transfer.gt x y :=
    match x, y with
    | Some a, Some b => negb (Qle_bool a b)
    | _, _ => false
    end;
  Transfer.times x n :=
    match x with Some q => Some (q * inject_Z n)%Q | None => None end;
  Transfer.sol_of_lamports n := Some (n # Verified.LAMPORTS_PER_SOL);
  Transfer.toFixed := show_fixed;
  Transfer.isPublicKey s :=
    forallb (fun c => existsb (Ascii.eqb c) (list_ascii_of_string Bs58.ALPHABET))
      (list_ascii_of_string s)
    && (32 <=? String.length s) && (String.length s <=? 44);
  Transfer.trim := JsString.trim;
  Transfer.undefined_slice :=
    "Cannot read properties of undefined (reading 'slice')";
|}.

(** ** Further scenarios *)

Definition recipient_0 : string := "11111111111111111111111111111111".

(** The form filled in for half a SOL, with two SOL at hand. *)
Definition form_half_sol : Transfer.State :=
  {| Transfer.walletProvider := Some wallet;
     Transfer.address := Some "X";
     Transfer.authToken := Some "T";
     Transfer.onTransactionComplete := true;
     Transfer.transferType := Transfer.SOL;
     Transfer.recipientAddress := recipient_0;
     Transfer.amount := "0.5";
     Transfer.tokenMint := "";
     Transfer.isTransferring := false;
     Transfer.balance := Some (Some (2 # 1));
     Transfer.error := None;
     Transfer.trace := [] |}.

(** The same with no recipient. *)
Definition form_blank : Transfer.State :=
  Transfer.setRecipientAddress "  " form_half_sol.

(** The same with no wallet provider at hand. *)
Definition form_no_wallet : Transfer.State :=
  let 'Transfer.mkState _ a t cb ty r am m i b e tr := form_half_sol in
  Transfer.mkState None a t cb ty r am m i b e tr.

(** The history of a signed-in user, loaded and empty. *)
Definition history_T : History.State :=
  {| History.authToken := Some "T"; History.refreshTrigger := 0;
     History.transactions := Some []; History.isLoading := false;
     History.error := None; History.filter := History.Confirmed;
     History.stats := None; History.trace := [] |}.

(** Authenticated as X, shown as such. *)
Definition shown_authenticated_X : Component :=
  {| live := authenticated_X; rendered := Some authenticated_X |}.

(** The same, just after the Disconnect button. *)
Definition just_disconnected : Component :=
  {| live := handleDisconnect authenticated_X;
     rendered := Some authenticated_X |}.

(** The simplified component, connected as X with its flag stored. *)
Definition simplified_signed_X : Simplified.State :=
  Simplified.handleSignMessage (Simplified.Signed [Byte.x01])
    simplified_connected_X simplified_connected_X.

(** * Properties *)

(** ** The encodings *)

Section Base58.

Local Open Scope N_scope.

Lemma fold_digits_app ds acc :
  fold_left (fun acc d => acc * 58 + d) ds acc
  = acc * 58 ^ N.of_nat (length ds) + of_digits ds.
Proof.
  unfold of_digits. revert acc.
  induction ds as [|d ds IH]; intros acc; cbn [fold_left length].
  - cbn. lia.
  - rewrite IH, (IH (0 * 58 + d)), Nat2N.inj_succ, N.pow_succ_r'. lia.
Qed.

Lemma of_digits_cons d ds :
  of_digits (d :: ds) = d * 58 ^ N.of_nat (length ds) + of_digits ds.
Proof. unfold of_digits at 1. cbn [fold_left]. rewrite fold_digits_app. lia. Qed.

Lemma digits_value fuel : forall n acc,
  n < 58 ^ N.of_nat fuel ->
  of_digits (Bs58.digits fuel n acc)
  = n * 58 ^ N.of_nat (length acc) + of_digits acc.
Proof.
  induction fuel as [|fuel IH]; intros n acc Hn; cbn [Bs58.digits].
  - cbn in Hn. assert (n = 0) as -> by lia. lia.
  - destruct (N.eqb_spec n 0) as [->|Hz]; [lia|].
    rewrite Nat2N.inj_succ, N.pow_succ_r' in Hn.
    rewrite IH.
    + rewrite of_digits_cons. cbn [length].
      rewrite Nat2N.inj_succ, N.pow_succ_r'.
      pose proof (N.div_mod n 58 ltac:(lia)) as Hdm. nia.
    + apply N.Div0.div_lt_upper_bound. lia.
Qed.

Lemma to_N_app bs acc :
  fold_left (fun acc b => acc * 256 + Byte.to_N b) bs acc
  < (acc + 1) * 256 ^ N.of_nat (length bs).
Proof.
  revert acc. induction bs as [|b bs IH]; intros acc; cbn [fold_left length].
  - cbn. lia.
  - rewrite Nat2N.inj_succ, N.pow_succ_r'.
    pose proof (IH (acc * 256 + Byte.to_N b)) as H.
    pose proof (Byte.to_N_bounded b) as Hb.
    eapply N.lt_le_trans; [exact H|]. nia.
Qed.

(** Twice as many base-58 digits as bytes are enough: the fuel of
    [Bs58.encode] never cuts the number short. *)
Lemma digits_of_bytes bs :
  of_digits (Bs58.digits (2 * length bs) (Bs58.to_N bs) []) = Bs58.to_N bs.
Proof.
  rewrite digits_value; [cbn; lia|].
  pose proof (to_N_app bs 0) as H. unfold Bs58.to_N.
  eapply N.lt_le_trans; [exact H|].
  rewrite N.add_0_l, N.mul_1_l.
  replace (N.of_nat (2 * length bs)) with (2 * N.of_nat (length bs)) by lia.
  rewrite N.pow_mul_r. apply N.pow_le_mono_l. cbn. lia.
Qed.

Lemma digits_below fuel : forall n acc,
  Forall (fun d => d < 58) acc ->
  Forall (fun d => d < 58) (Bs58.digits fuel n acc).
Proof.
  induction fuel as [|fuel IH]; intros n acc Ha; cbn [Bs58.digits]; [exact Ha|].
  destruct (n =? 0); [exact Ha|].
  apply IH. constructor; [|exact Ha]. apply N.mod_lt. lia.
Qed.

End Base58.

Section Encodings.

Local Open Scope N_scope.

Lemma digit_index d : d < 58 -> base58_digit (Bs58.digit d) = Some d.
Proof.
  intros Hd.
  assert (A : forallb
                (fun k => match base58_digit (Bs58.digit (N.of_nat k)) with
                          | Some x => x =? N.of_nat k
                          | None => false
                          end) (seq 0 58) = true) by (vm_compute; reflexivity).
  rewrite forallb_forall in A.
  specialize (A (N.to_nat d)). rewrite N2Nat.id in A.
  destruct (base58_digit (Bs58.digit d)) as [x|].
  - f_equal. apply N.eqb_eq, A, in_seq. lia.
  - discriminate A. apply in_seq. lia.
Qed.

Lemma digit_not_one d : d <> 0 -> d < 58 -> Ascii.eqb (Bs58.digit d) "1" = false.
Proof.
  intros Hz Hd. destruct (Ascii.eqb_spec (Bs58.digit d) "1") as [E|]; [|reflexivity].
  pose proof (digit_index d Hd) as I. rewrite E in I.
  vm_compute in I. congruence.
Qed.

Lemma value_ones z cs :
  base58_value (replicate z "1"%char ++ cs) 0
  = base58_value cs 0.
Proof.
  induction z as [|z IH]; [reflexivity|].
  cbn [replicate app base58_value].
  change (base58_digit "1") with (Some 0). exact IH.
Qed.

Lemma value_digits ds : forall acc,
  Forall (fun d => d < 58) ds ->
  base58_value (map Bs58.digit ds) acc
  = Some (fold_left (fun acc d => acc * 58 + d) ds acc).
Proof.
  induction ds as [|d ds IH]; intros acc Hds; [reflexivity|].
  apply Forall_cons in Hds as [Hd Hds].
  cbn [map base58_value fold_left]. rewrite digit_index by exact Hd.
  apply IH, Hds.
Qed.

Lemma digits_zero fuel acc : Bs58.digits fuel 0 acc = acc.
Proof. destruct fuel; reflexivity. Qed.

Lemma digits_head fuel : forall n acc,
  n <> 0 -> n < 58 ^ N.of_nat fuel ->
  exists d rest, Bs58.digits fuel n acc = d :: rest /\ d <> 0 /\ d < 58.
Proof.
  induction fuel as [|fuel IH]; intros n acc Hz Hn.
  - cbn in Hn. lia.
  - cbn [Bs58.digits]. destruct (N.eqb_spec n 0) as [|_]; [contradiction|].
    rewrite Nat2N.inj_succ, N.pow_succ_r' in Hn.
    destruct (N.eq_dec (n / 58) 0) as [E|E].
    + rewrite E, digits_zero.
      apply N.div_small_iff in E; [|lia].
      exists (n mod 58), acc. rewrite N.mod_small by exact E. auto.
    + apply IH; [exact E|]. apply N.Div0.div_lt_upper_bound. lia.
Qed.

Lemma ones_replicate z cs :
  leading_ones (replicate z "1"%char ++ cs) = (z + leading_ones cs)%nat.
Proof. induction z as [|z IH]; [reflexivity|]. cbn. now rewrite IH. Qed.

Lemma to_N_bound bs :
  Bs58.to_N bs < 58 ^ N.of_nat (2 * length bs).
Proof.
  pose proof (to_N_app bs 0) as H. unfold Bs58.to_N.
  eapply N.lt_le_trans; [exact H|].
  rewrite N.add_0_l, N.mul_1_l.
  replace (N.of_nat (2 * length bs)) with (2 * N.of_nat (length bs)) by lia.
  rewrite N.pow_mul_r. apply N.pow_le_mono_l. cbn. lia.
Qed.

(** [Bs58.encode] gives the base58 text of its bytes. *)
Lemma encode_is_base58 bs : base58_of (Bs58.encode bs) bs.
Proof.
  unfold base58_of, Bs58.encode. cbn zeta.
  rewrite list_ascii_of_string_of_list_ascii.
  set (ds := Bs58.digits (2 * length bs) (Bs58.to_N bs) []).
  assert (Hb : Forall (fun d => d < 58) ds) by (apply digits_below; constructor).
  split.
  - rewrite value_ones, value_digits by exact Hb.
    f_equal. apply digits_of_bytes.
  - rewrite ones_replicate.
    enough (leading_ones (map Bs58.digit ds) = 0%nat) as -> by lia.
    destruct (N.eq_dec (Bs58.to_N bs) 0) as [E|E].
    + subst ds. rewrite E, digits_zero. reflexivity.
    + destruct (digits_head (2 * length bs) (Bs58.to_N bs) [] E (to_N_bound bs))
        as (d & rest & Hd & Hz & H58).
      fold ds in Hd. rewrite Hd. cbn [map leading_ones].
      now rewrite digit_not_one.
Qed.

Lemma digit_char_digit n :
  Js.is_digit (Js.digit_char n) = true
  /\ Ascii.eqb (Js.digit_char n) "+" = false
  /\ Ascii.eqb (Js.digit_char n) "-" = false.
Proof.
  unfold Js.digit_char.
  assert (Hk : (Z.to_nat (n mod 10) < 10)%nat)
    by (pose proof (Z.mod_pos_bound n 10 ltac:(lia)); lia).
  revert Hk. generalize (Z.to_nat (n mod 10)). intros k Hk.
  do 10 (destruct k as [|k]; [vm_compute; auto|]). lia.
Qed.

(** Whatever the instant, [toISOString] gives a text of one of the two
    ISO-8601 shapes. *)
Lemma toISOString_is_iso8601 t : Js.is_iso8601 (Js.toISOString t) = true.
Proof.
  unfold Js.toISOString, Js.is_iso8601.
  destruct (Js.civil_from_days _) as [[y m] d].
  rewrite list_ascii_of_string_of_list_ascii.
  assert (D := fun n => proj1 (digit_char_digit n)).
  assert (P := fun n => proj1 (proj2 (digit_char_digit n))).
  assert (M := fun n => proj2 (proj2 (digit_char_digit n))).
  destruct (_ && _)%bool; cbn [Js.pad app].
  - rewrite P, M. cbn [orb forallb Js.is_iso8601_rest].
    rewrite !D. reflexivity.
  - destruct (y <? 0)%Z; cbn [Ascii.eqb Bool.eqb orb forallb Js.is_iso8601_rest];
      rewrite !D; reflexivity.
Qed.

(** [TextEncoder.encode] gives the bytes of the text, one for one: the
    bytes read back as text are the text. *)
Lemma encode_utf8 m :
  string_of_list_byte (Js.encode m) = m
  /\ length (Js.encode m) = String.length m.
Proof.
  unfold Js.encode. split; [apply string_of_list_byte_of_string|].
  unfold list_byte_of_string. rewrite length_map.
  induction m as [|c m IH]; [reflexivity|]. cbn. now rewrite IH.
Qed.

End Encodings.

Example toISOString_epoch : Js.toISOString 0 = "1970-01-01T00:00:00.000Z".
Proof. reflexivity. Qed.

Example toISOString_now0 : Js.toISOString now0 = iso0.
Proof. reflexivity. Qed.

Example toISOString_before_epoch :
  Js.toISOString (-1) = "1969-12-31T23:59:59.999Z".
Proof. reflexivity. Qed.

Example toISOString_leap_day :
  Js.toISOString 1709251199999 = "2024-02-29T23:59:59.999Z".
Proof. reflexivity. Qed.

Example toISOString_expanded_years :
  Js.toISOString 253402300800000 = "+010000-01-01T00:00:00.000Z"
  /\ Js.toISOString (-62167219200001) = "-000001-12-31T23:59:59.999Z"
  /\ Js.toISOString 8640000000000000 = "+275760-09-13T00:00:00.000Z".
Proof. repeat split. Qed.

Example bs58_hello :
  Bs58.encode (Js.encode "Hello World!") = "2NEpo7TZRRrLZSi2U".
Proof. reflexivity. Qed.

Example bs58_leading_zeros :
  Bs58.encode [Byte.x00; Byte.x00; Byte.x01] = "112".
Proof. reflexivity. Qed.

Example iso0_is_iso8601 : Js.is_iso8601 iso0 = true.
Proof. reflexivity. Qed.

Example same_address_ignores_case : Js.same_address "AbC1" "aBc1" = true.
Proof. reflexivity. Qed.

(** ** Single handlers and effects *)

Section Handlers.

(** C4.  The explicit disconnect, from any state: in the credential-verified
    component the [authToken] slot is absent afterwards, the latch is set,
    the signed flag, the user record and the credential are cleared, and
    the wallet kit is asked to disconnect; in the simplified component the
    latch is set, the signed flag is cleared, the wallet kit is asked to
    disconnect, and the slot of the connected address is absent afterwards
    (with no address there is no slot to name, and the storage is left as
    it is). *)
Theorem explicit_disconnect_clears (s : State) (z : Simplified.State) :
  let s' := handleDisconnect s in
  let z' := Simplified.handleDisconnect z in
  (getItem "authToken" s' = None
   /\ userDisconnectedRef s' = true
   /\ isSigned s' = false /\ user s' = None /\ authToken s' = None
   /\ trace s' = trace s ++ [RemoveItem "authToken"; AppKitDisconnect])
  /\ (Simplified.userDisconnectedRef z' = true
      /\ Simplified.isSigned z' = false
      /\ last (Simplified.trace z') = Some Simplified.AppKitDisconnect
      /\ if Js.truthy (Simplified.address z)
         then Simplified.getItem
                (Simplified.slot (default "" (Simplified.address z))) z' = None
         else Simplified.localStorage z' = Simplified.localStorage z).
Proof.
  destruct s, z as [[[|c a]|] ? ? ? ? ? ? st ? tr];
    unfold getItem, Simplified.getItem; cbn;
    rewrite ?lookup_delete_eq, ?last_snoc, <- ?app_assoc; auto 10.
Qed.

(** C10.  When the [/api/auth/me] request throws, the stored credential is
    removed and the signed flag and the in-memory credential are cleared,
    but the user record stays as it was; when the answer is not OK the user
    record is cleared as well. *)
Theorem me_throws_keeps_user (storedToken address : string) (s : State) :
  let t := verifySession_resume storedToken address MeThrows s in
  let n := verifySession_resume storedToken address MeNotOk s in
  (getItem "authToken" t = None /\ authToken t = None /\ isSigned t = false
   /\ user t = user s)
  /\ (getItem "authToken" n = None /\ authToken n = None /\ isSigned n = false
      /\ user n = None).
Proof.
  destruct s; unfold getItem; cbn; rewrite !lookup_delete_eq; auto 10.
Qed.

(** C6.  When the fast path's answer is not OK, or carries a record for
    another address, the stored credential is removed, the session fields
    are cleared, the component shows the connected, unauthenticated state,
    and the condition of the automatic signature holds wherever a provider
    and an address are present and the latch is clear. *)
Theorem stale_credential_discarded
    (storedToken address : string) (o : MeOutcome) (s : State) :
  me_stale address o = true ->
  isConnected s = true -> isLoading s = false ->
  let s' := verifySession_resume storedToken address o s in
  getItem "authToken" s' = None
  /\ authToken s' = None /\ isSigned s' = false /\ user s' = None
  /\ phase s' = ConnectedUnauthenticated
  /\ autoSign_fires s' s'
     = Js.defined (walletProvider s) && Js.truthy (Verified.address s)
       && negb (userDisconnectedRef s).
Proof.
  intros Ho Hc Hl. destruct s; cbn in *; subst.
  destruct o as [| |u]; cbn in Ho; try discriminate;
    unfold getItem, autoSign_fires, verifySession_resume;
    [|destruct (Js.same_address _ _); try discriminate];
    cbn; rewrite lookup_delete_eq, ?andb_true_r; auto 10.
Qed.

Lemma stale_credential_discarded_witness :
  let s' := verifySession_resume "T" "X" (MeOk user_Y) authenticated_X in
  getItem "authToken" s' = None
  /\ authToken s' = None /\ isSigned s' = false /\ user s' = None
  /\ phase s' = ConnectedUnauthenticated
  /\ autoSign_fires s' s' = true.
Proof.
  apply (stale_credential_discarded "T" "X" (MeOk user_Y) authenticated_X);
    reflexivity.
Defined.

End Handlers.

Section Signing.

Lemma take_last x l : x ∉ l -> take x (l ++ [x]) = Some l.
Proof.
  induction l as [|y l IH]; cbn; intros Hx.
  - rewrite decide_True by reflexivity. reflexivity.
  - apply not_elem_of_cons in Hx as [Hy Hx].
    rewrite decide_False by exact Hy. rewrite IH by exact Hx. reflexivity.
Qed.

(** A whole run is the launch of the request followed at once by the event
    that settles it. *)
Lemma handleSignMessage_as_events
    (o : SignOutcome) (v s : State) (provider : Provider) (a : string) :
  walletProvider v = Some provider -> address v = Some a -> a <> "" ->
  AwaitSign provider a (challenge a (clock s)) ∉ pending s ->
  handle (SignSettles provider a (challenge a (clock s)) o)
         (handleSignMessage_start v s)
  = Some (handleSignMessage o v s).
Proof.
  intros Hp Ha Hne Hx. unfold handleSignMessage, handleSignMessage_start.
  rewrite Hp, Ha. destruct a as [|c a]; [done|].
  destruct s; cbn in *. rewrite take_last by exact Hx. reflexivity.
Qed.

(** C5, amended.  A run of the signing protocol writes the credential slot
    exactly when the verify answer is marked successful, and then it writes
    the text of what the answer holds as its token.  When the wallet
    declines, the request fails, the answer cannot be parsed, or the answer
    is not marked successful, the storage and the session fields are as
    before and the loading flag is down, so that a connected, unsigned
    component shows the connected, unauthenticated state.  An answer marked
    successful is not examined further; what follows it when it lacks a
    field is not part of this statement. *)
Theorem credential_written_iff_success
    (o : SignOutcome) (v s : State) (provider : Provider) (a : string) :
  walletProvider v = Some provider -> address v = Some a -> a <> "" ->
  let s' := handleSignMessage o v s in
  exists acts,
    trace s' = trace s ++ acts
    /\ ((exists value, SetItem "authToken" value ∈ acts)
        <-> marked_successful o = true)
    /\ (forall key value, SetItem key value ∈ acts ->
          key = "authToken" /\ value = Js.to_string (issued o))
    /\ (if marked_successful o
        then sessionStorage s'
             = <["authToken" := Js.to_string (issued o)]> (sessionStorage s)
        else sessionStorage s' = sessionStorage s
             /\ isSigned s' = isSigned s /\ user s' = user s
             /\ authToken s' = authToken s /\ isLoading s' = false
             /\ phase s' = phase_of (isConnected s) false (isSigned s)).
Proof.
  intros Hp Ha Hne s'. subst s'. unfold handleSignMessage.
  rewrite Hp, Ha. destruct a as [|c a]; [done|].
  unfold handleSignMessage_call.
  destruct s, provider as [[]], o as [| |sig [| |[[] m [u|] t]]]; cbn;
    eexists; (split; [rewrite <- ?app_assoc; cbn; reflexivity|]);
    setoid_rewrite list_elem_of_In; cbn;
    (split; [split; [intros [value H]|intros H; try discriminate H; eauto 10]
            |split; [intros key value H|auto 10]]);
    intuition (try discriminate; congruence).
Qed.

Lemma credential_written_iff_success_witness :
  let o := Signed [Byte.x01] (Responded accept_X) in
  let s' := handleSignMessage o connected_X connected_X in
  exists acts,
    trace s' = trace connected_X ++ acts
    /\ ((exists value, SetItem "authToken" value ∈ acts)
        <-> marked_successful o = true)
    /\ (forall key value, SetItem key value ∈ acts ->
          key = "authToken" /\ value = Js.to_string (issued o))
    /\ (if marked_successful o
        then sessionStorage s'
             = <["authToken" := Js.to_string (issued o)]>
                 (sessionStorage connected_X)
        else sessionStorage s' = sessionStorage connected_X
             /\ isSigned s' = isSigned connected_X
             /\ user s' = user connected_X
             /\ authToken s' = authToken connected_X /\ isLoading s' = false
             /\ phase s'
                = phase_of (isConnected connected_X) false
                    (isSigned connected_X)).
Proof.
  intros o.
  apply (credential_written_iff_success o connected_X connected_X
           wallet "X"); [reflexivity|reflexivity|discriminate].
Defined.

(** C5, as the specification words it, fails.  A verify answer that is
    marked successful but holds no user record is malformed; the run
    stores its token and raises the signed flag before it fails on the
    missing record, so the error path runs (the provider is asked to
    disconnect) with the credential stored, and the component shows the
    authenticated state, not the connected, unauthenticated one. *)
Lemma malformed_success_is_stored :
  let data := {| success := true; data_message := None;
                 data_user := None; data_token := Js.text "T" |} in
  let s' := handleSignMessage (Signed [Byte.x01] (Responded data))
              connected_X connected_X in
  getItem "authToken" connected_X = None
  /\ getItem "authToken" s' = Some "T"
  /\ isSigned s' = true /\ user s' = None
  /\ last (trace s') = Some ProviderDisconnect
  /\ phase s' = Authenticated
  /\ phase s' <> ConnectedUnauthenticated.
Proof. vm_compute. repeat split; discriminate. Qed.

(** C8.  When the user declines the signature, the run asks the wallet once
    and then disconnects the provider if it can; the storage and the
    session fields are as before and the loading flag is down, so a
    connected, unsigned component shows the connected, unauthenticated
    state; and nothing the automatic signature depends on has changed, so
    that effect does not run again.  The simplified component does the
    same. *)
Theorem signature_rejection_ends_attempt
    (v s : State) (provider : Provider) (a : string)
    (zv z : Simplified.State) (zprovider : Provider) (za : string) :
  walletProvider v = Some provider -> address v = Some a -> a <> "" ->
  isConnected s = true -> isSigned s = false ->
  Simplified.walletProvider zv = Some zprovider ->
  Simplified.address zv = Some za -> za <> "" ->
  Simplified.isConnected z = true -> Simplified.isSigned z = false ->
  let s' := handleSignMessage SignRejects v s in
  let z' := Simplified.handleSignMessage Simplified.SignRejects zv z in
  (trace s'
   = trace s ++ SignMessage (Js.encode (challenge a (clock s)))
               :: (if hasDisconnect provider then [ProviderDisconnect] else [])
   /\ sessionStorage s' = sessionStorage s
   /\ isSigned s' = false /\ user s' = user s /\ authToken s' = authToken s
   /\ phase s' = ConnectedUnauthenticated
   /\ React.run_effect deps_autoSign effect_autoSign (Some s) s' s' = s')
  /\ (Simplified.trace z'
      = Simplified.trace z
        ++ Simplified.SignMessage (Js.encode (challenge za (Simplified.clock z)))
           :: (if hasDisconnect zprovider
               then [Simplified.ProviderDisconnect] else [])
      /\ Simplified.localStorage z' = Simplified.localStorage z
      /\ Simplified.isSigned z' = false
      /\ Simplified.phase z' = ConnectedUnauthenticated
      /\ React.changed Simplified.deps_autoSign (Some z) z' = false).
Proof.
  intros Hp Ha Hne Hc Hs Hzp Hza Hzne Hzc Hzs.
  unfold handleSignMessage, handleSignMessage_call, Simplified.handleSignMessage.
  rewrite Hp, Ha, Hzp, Hza.
  destruct a as [|c a], za as [|zc za]; try done.
  destruct s, z, provider as [[]], zprovider as [[]]; cbn in *; subst;
    unfold React.run_effect, React.changed; cbn;
    rewrite !bool_decide_eq_false_2 by (intros H; apply H; reflexivity);
    rewrite <- ?app_assoc; auto 10.
Qed.

Lemma signature_rejection_ends_attempt_witness :
  trace (handleSignMessage SignRejects connected_X connected_X)
  = [SignMessage (Js.encode (challenge "X" iso0)); ProviderDisconnect]
  /\ Simplified.trace
       (Simplified.handleSignMessage Simplified.SignRejects
          simplified_connected_X simplified_connected_X)
     = [Simplified.SignMessage (Js.encode (challenge "X" iso0));
        Simplified.ProviderDisconnect].
Proof.
  pose proof (signature_rejection_ends_attempt connected_X connected_X
                wallet "X" simplified_connected_X simplified_connected_X
                wallet "X"
                eq_refl eq_refl ltac:(discriminate) eq_refl eq_refl
                eq_refl eq_refl ltac:(discriminate) eq_refl eq_refl)
    as [[H _] [Hz _]].
  exact (conj H Hz).
Defined.

(** C9.  A run that obtains a signature builds the challenge from the
    connected address and the text [toISOString] gives for the instant of
    the clock, which has the shape of an ISO-8601 instant; it asks the
    wallet to sign the bytes of that very message, which read back as text
    are the message; and it posts the address, the message and the base58
    text of the signature bytes to the verify endpoint. *)
Theorem challenge_signed_and_posted
    (signatureUint8 : list Byte.byte) (r : VerifyOutcome)
    (v s : State) (provider : Provider) (a : string) :
  walletProvider v = Some provider -> address v = Some a -> a <> "" ->
  let s' := handleSignMessage (Signed signatureUint8 r) v s in
  exists message timestamp encodedMessage signature rest,
    message
    = "Sign this message to authenticate with Solana Wallet Connect."
        +:+ Js.newline +:+ Js.newline
        +:+ "Wallet: " +:+ a +:+ Js.newline
        +:+ "Timestamp: " +:+ timestamp
    /\ timestamp = Js.toISOString (now s)
    /\ Js.is_iso8601 timestamp = true
    /\ string_of_list_byte encodedMessage = message
    /\ length encodedMessage = String.length message
    /\ base58_of signature signatureUint8
    /\ trace s'
       = trace s
         ++ SignMessage encodedMessage
            :: PostVerify {| body_walletAddress := a;
                             body_message := message;
                             body_signature := signature |}
            :: rest.
Proof.
  intros Hp Ha Hne s'. subst s'.
  assert (T : exists rest,
            trace (handleSignMessage (Signed signatureUint8 r) v s)
            = trace s
              ++ SignMessage (Js.encode (challenge a (clock s)))
                 :: PostVerify
                      {| body_walletAddress := a;
                         body_message := challenge a (clock s);
                         body_signature := Bs58.encode signatureUint8 |}
                 :: rest).
  { unfold handleSignMessage, handleSignMessage_call. rewrite Hp, Ha.
    destruct a as [|c a]; [done|].
    destruct s, provider as [[]], r as [| |[[] m [u|] t]]; cbn;
      eexists; rewrite <- ?app_assoc; reflexivity. }
  destruct T as [rest T].
  exists (challenge a (clock s)), (clock s),
    (Js.encode (challenge a (clock s))), (Bs58.encode signatureUint8), rest.
  split; [reflexivity|]. split; [reflexivity|].
  split; [apply toISOString_is_iso8601|].
  split; [apply encode_utf8|]. split; [apply encode_utf8|].
  split; [apply encode_is_base58|exact T].
Qed.

Lemma challenge_signed_and_posted_witness :
  exists message timestamp encodedMessage signature rest,
    message
    = "Sign this message to authenticate with Solana Wallet Connect."
        +:+ Js.newline +:+ Js.newline
        +:+ "Wallet: " +:+ "X" +:+ Js.newline
        +:+ "Timestamp: " +:+ timestamp
    /\ timestamp = Js.toISOString (now connected_X)
    /\ Js.is_iso8601 timestamp = true
    /\ string_of_list_byte encodedMessage = message
    /\ length encodedMessage = String.length message
    /\ base58_of signature [Byte.x01]
    /\ trace (handleSignMessage (Signed [Byte.x01] (Responded accept_X))
                connected_X connected_X)
       = trace connected_X
         ++ SignMessage encodedMessage
            :: PostVerify {| body_walletAddress := "X";
                             body_message := message;
                             body_signature := signature |}
            :: rest.
Proof.
  apply (challenge_signed_and_posted [Byte.x01] (Responded accept_X)
           connected_X connected_X wallet "X");
    [reflexivity|reflexivity|discriminate].
Defined.

(** The run of the example signs the bytes of its challenge and posts "2",
    the base58 text of the one byte 01. *)
Example challenge_of_the_example :
  trace (handleSignMessage (Signed [Byte.x01] (Responded accept_X))
           connected_X connected_X)
  = [SignMessage
       (Js.encode
          ("Sign this message to authenticate with Solana Wallet Connect."
             +:+ Js.newline +:+ Js.newline +:+ "Wallet: X" +:+ Js.newline
             +:+ "Timestamp: 2024-05-01T10:20:30.000Z"));
     PostVerify
       {| body_walletAddress := "X";
          body_message :=
            "Sign this message to authenticate with Solana Wallet Connect."
              +:+ Js.newline +:+ Js.newline +:+ "Wallet: X" +:+ Js.newline
              +:+ "Timestamp: 2024-05-01T10:20:30.000Z";
          body_signature := "2" |};
     SetItem "authToken" "T"].
Proof. vm_compute. reflexivity. Qed.

End Signing.

Section Renders.

(** C7.  In the render that first shows a connected address different from
    the address of the authenticated user record, the component removes the
    stored credential and clears the credential, the signed flag, the user
    record and the balance, and so shows the connected, unauthenticated
    state (behind the signing notice if a signature is in progress). *)
Theorem address_drift_purges (c : Component) (a : string) (u : UserRecord) :
  let v := live c in
  React.changed deps_addressDrift (rendered c) v = true ->
  isConnected v = true -> address v = Some a -> a <> "" ->
  isSigned v = true -> user v = Some u ->
  Js.same_address a (walletAddress u) = false ->
  let s' := live (render c) in
  getItem "authToken" s' = None
  /\ authToken s' = None /\ isSigned s' = false /\ user s' = None
  /\ balance s' = None
  /\ phase s' = (if isLoading v then Authenticating else ConnectedUnauthenticated).
Proof.
  destruct c as [s prev]. cbn. intros Hch Hc Ha Hne Hs Hu Hm.
  destruct a as [|ch a]; [done|].
  unfold render, React.run_effect; cbn. rewrite Hch.
  unfold effect_verifySession, verifySession_start, effect_addressDrift,
    effect_fetchBalance, effect_autoSign, autoSign_fires, effect_disconnect.
  rewrite Hc, Ha, Hs, Hu. cbn. rewrite Hm. cbn.
  destruct s; cbn in *; subst.
  repeat match goal with
         | |- context [React.changed ?d ?p ?x] => destruct (React.changed d p x)
         | |- context [if ?b then _ else _] => destruct b
         end;
    unfold getItem, phase; cbn; rewrite lookup_delete_eq; auto 10.
Qed.

Lemma address_drift_purges_witness :
  let s' := live (render switched_to_Z) in
  getItem "authToken" s' = None
  /\ authToken s' = None /\ isSigned s' = false /\ user s' = None
  /\ balance s' = None
  /\ phase s' = ConnectedUnauthenticated.
Proof.
  apply (address_drift_purges switched_to_Z "Z" user_X);
    try reflexivity; discriminate.
Defined.

End Renders.

Section Frames.

Lemma effect_frame_refl s : effect_frame s s.
Proof.
  split; auto. exists []. split; [symmetry; apply app_nil_r|constructor].
Qed.

Lemma effect_frame_trans s1 s2 s3 :
  effect_frame s1 s2 -> effect_frame s2 s3 -> effect_frame s1 s3.
Proof.
  intros [H1 L1 K1 S1 [n1 [P1 F1]]] [H2 L2 K2 S2 [n2 [P2 F2]]]. split.
  - congruence.
  - congruence.
  - congruence.
  - destruct S1 as [[A1 B1]|[A1 B1]], S2 as [[A2 B2]|[A2 B2]].
    + left. split; congruence.
    + right. split; congruence.
    + right. split; congruence.
    + right. split; [congruence|]. rewrite B2, B1. apply delete_delete_eq.
  - exists (n1 ++ n2). split.
    + rewrite P2, P1. symmetry. apply app_assoc.
    + apply Forall_app. auto.
Qed.

Ltac frame_now :=
  split; cbn;
  [reflexivity | reflexivity | reflexivity
  | first [left; split; reflexivity | right; split; reflexivity]
  | first [ exists []; split; [symmetry; apply app_nil_r|constructor]
          | eexists [_]; split; [reflexivity|repeat constructor; cbn; auto] ] ].

Lemma verifySession_frame v s : effect_frame s (effect_verifySession v s).
Proof.
  unfold effect_verifySession, verifySession_start, getItem.
  destruct (isConnected v && negb (userDisconnectedRef s));
    [|apply effect_frame_refl].
  destruct (sessionStorage s !! "authToken") as [[|c t]|] eqn:E; cbn;
    try apply effect_frame_refl.
  destruct (isConnected v && Js.truthy (address v));
    [|apply effect_frame_refl].
  destruct s; frame_now.
Qed.

Lemma addressDrift_frame v s : effect_frame s (effect_addressDrift v s).
Proof.
  unfold effect_addressDrift.
  destruct (address v), (user v); try apply effect_frame_refl.
  destruct (_ && _); [|apply effect_frame_refl].
  destruct (negb _); [|apply effect_frame_refl].
  destruct s; frame_now.
Qed.

Lemma fetchBalance_frame v s : effect_frame s (effect_fetchBalance v s).
Proof.
  unfold effect_fetchBalance. destruct (_ && _); destruct s; frame_now.
Qed.

Lemma autoSign_frame v s : effect_frame s (effect_autoSign v s).
Proof.
  unfold effect_autoSign, handleSignMessage_start, handleSignMessage_call.
  destruct (autoSign_fires v s); [|apply effect_frame_refl].
  destruct (walletProvider v), (address v) as [[|c a]|];
    try apply effect_frame_refl.
  destruct s; frame_now.
Qed.

Lemma disconnect_frame v s : effect_frame s (effect_disconnect v s).
Proof.
  unfold effect_disconnect.
  destruct (negb (isConnected v)), s as [? ? ? ? ? ? ? ? [] ? ? ? ?]; cbn;
    try apply effect_frame_refl; frame_now.
Qed.

Lemma run_effect_frame {A} `{EqDecision A}
    (deps : State -> A) (body : State -> State -> State) prev v s :
  (forall v s, effect_frame s (body v s)) ->
  effect_frame s (React.run_effect deps body prev v s).
Proof.
  intros Hb. unfold React.run_effect.
  destruct (React.changed deps prev v); [apply Hb|apply effect_frame_refl].
Qed.

Create HintDb frames.

#[local] Hint Resolve verifySession_frame addressDrift_frame
  fetchBalance_frame autoSign_frame disconnect_frame effect_frame_refl : frames.

Lemma render_frame c : effect_frame (live c) (live (render c)).
Proof.
  unfold render; cbn.
  repeat (eapply effect_frame_trans; [|apply run_effect_frame]);
    auto with frames.
Qed.

Lemma settle_frame c : effect_frame (live c) (live (settle c)).
Proof.
  unfold settle.
  eapply effect_frame_trans; [|apply render_frame].
  eapply effect_frame_trans; [|apply render_frame].
  apply render_frame.
Qed.

End Frames.

Section Settling.

Lemma changed_same {A} `{EqDecision A} (deps : State -> A) r v :
  deps r = deps v -> React.changed deps (Some r) v = false.
Proof. intros E. cbn. apply bool_decide_eq_false_2. auto. Qed.

(** A render whose hook values and session fields are those of the render
    before runs no effect. *)
Lemma render_quiet c r :
  rendered c = Some r -> hooks r = hooks (live c) ->
  session r = session (live c) ->
  render c = {| live := live c; rendered := Some (live c) |}.
Proof.
  intros Hr Hh Hs. unfold render, React.run_effect. rewrite Hr.
  unfold hooks, session in *.
  rewrite !changed_same; [reflexivity| ..];
    unfold deps_verifySession, deps_addressDrift, deps_fetchBalance,
      deps_autoSign, deps_disconnect; congruence.
Qed.

(** With the hook values of the render before and the signed flag down, a
    render leaves the session fields alone. *)
Lemma render_unsigned c r :
  rendered c = Some r -> hooks r = hooks (live c) ->
  isSigned (live c) = false ->
  session (live (render c)) = session (live c).
Proof.
  intros Hr Hh Hs. destruct c as [s prev]; cbn in *; subst prev.
  assert (Cd : React.changed deps_disconnect (Some r) s = false)
    by (apply changed_same; unfold hooks, deps_disconnect in *; congruence).
  assert (Cv : React.changed deps_verifySession (Some r) s = false)
    by (apply changed_same; unfold hooks, deps_verifySession in *; congruence).
  unfold render, React.run_effect; cbn [live rendered]. rewrite Cd, Cv.
  clear Cd Cv Hh. destruct s as [[a|] ? ? ? ? ? [u|] ? ? ? ? ? ?]; cbn in Hs; subst;
    unfold effect_addressDrift, effect_fetchBalance, effect_autoSign,
      handleSignMessage_start, handleSignMessage_call, autoSign_fires; cbn;
    rewrite ?andb_false_r; cbn;
  repeat match goal with
         | |- context [React.changed ?d ?p ?x] => destruct (React.changed d p x)
         | |- context [match ?b with _ => _ end] => destruct b
         end; reflexivity.
Qed.

Lemma frame_session_cases s s' :
  effect_frame s s' -> session s' = session s \/ isSigned s' = false.
Proof.
  intros [_ _ _ [[E _]|[E _]] _]; [auto|right].
  unfold session in E. congruence.
Qed.

Lemma render_fixed d : rendered d = Some (live d) -> render d = d.
Proof.
  intros Hd. rewrite (render_quiet d (live d)); auto.
  destruct d; cbn in *; congruence.
Qed.

(** Three renders are enough: a fourth changes nothing. *)
Lemma settle_stable c :
  rendered (settle c) = Some (live (settle c)) /\ render (settle c) = settle c.
Proof.
  assert (Hr : rendered (settle c) = Some (live (settle c)));
    [|split; [exact Hr|apply render_fixed, Hr]].
  unfold settle. set (c1 := render c).
  assert (Hh1 : hooks (live c1) = hooks (live c)) by apply render_frame.
  destruct (frame_session_cases _ _ (render_frame c)) as [Hs|Hs]; fold c1 in Hs.
  - assert (E2 : render c1 = {| live := live c1; rendered := Some (live c1) |})
      by (apply (render_quiet c1 (live c)); auto).
    rewrite E2, render_fixed; reflexivity.
  - set (c2 := render c1).
    assert (Hs2 : session (live c2) = session (live c1))
      by (apply (render_unsigned c1 (live c)); auto).
    assert (Hh2 : hooks (live c2) = hooks (live c1)) by apply render_frame.
    rewrite (render_quiet c2 (live c1)); auto.
Qed.

End Settling.

Section Invariant.

Lemma drifted_deps r v :
  deps_addressDrift r = deps_addressDrift v -> drifted r = drifted v.
Proof.
  unfold deps_addressDrift, drifted. intros E.
  injection E as -> -> -> ->. reflexivity.
Qed.

Lemma drifted_unsigned s : isSigned s = false -> drifted s = false.
Proof.
  unfold drifted. intros ->.
  destruct (address s), (user s); try reflexivity.
  rewrite andb_false_r. reflexivity.
Qed.

Lemma addressDrift_unsigns v s :
  drifted v = true -> isSigned (effect_addressDrift v s) = false.
Proof.
  unfold drifted, effect_addressDrift.
  destruct (address v), (user v); try discriminate.
  intros [-> ->]%andb_true_iff. destruct s; reflexivity.
Qed.

Lemma frame_unsigned s s' :
  effect_frame s s' -> isSigned s = false -> isSigned s' = false.
Proof.
  intros F Hs. destruct (frame_session_cases _ _ F) as [E|E]; [|exact E].
  unfold session in E. congruence.
Qed.

Lemma frame_drifted s s' :
  effect_frame s s' -> drifted s = false -> drifted s' = false.
Proof.
  intros F Hd. destruct (frame_session_cases _ _ F) as [E|E].
  - rewrite <- Hd. apply drifted_deps.
    pose proof (ef_hooks _ _ F) as Hh.
    unfold session, hooks, deps_addressDrift in *. congruence.
  - apply drifted_unsigned, E.
Qed.

(** The state the component shows is never a drifted one once the render
    before was not. *)
Lemma render_settles_drift c :
  (forall r, rendered c = Some r -> drifted r = false) ->
  drifted (live (render c)) = false.
Proof.
  intros Hq. destruct (drifted (live c)) eqn:Hd.
  - assert (Hch : React.changed deps_addressDrift (rendered c) (live c) = true).
    { destruct (rendered c) as [r|] eqn:Hr; [|reflexivity].
      apply bool_decide_eq_true_2. intros E.
      apply drifted_deps in E. rewrite (Hq r eq_refl), Hd in E. discriminate. }
    apply drifted_unsigned. unfold render; cbn [live].
    eapply frame_unsigned.
    { eapply effect_frame_trans; [|apply run_effect_frame, disconnect_frame].
      eapply effect_frame_trans; [|apply run_effect_frame, autoSign_frame].
      apply run_effect_frame, fetchBalance_frame. }
    unfold React.run_effect at 1. rewrite Hch.
    apply addressDrift_unsigns, Hd.
  - eapply frame_drifted; [apply render_frame|exact Hd].
Qed.

Lemma settle_no_drift c :
  (forall r, rendered c = Some r -> drifted r = false) ->
  drifted (live (settle c)) = false.
Proof.
  intros Hq. unfold settle.
  eapply frame_drifted; [apply render_frame|].
  eapply frame_drifted; [apply render_frame|].
  apply render_settles_drift, Hq.
Qed.

Lemma step_settled e c c' : step e c = Some c' -> settled c'.
Proof.
  unfold step. destruct (handle e (live c)) as [s|]; [|discriminate].
  cbn. intros [= <-]. apply settle_stable.
Qed.

Lemma step_no_drift e c c' :
  (forall r, rendered c = Some r -> drifted r = false) ->
  step e c = Some c' -> drifted (live c') = false.
Proof.
  unfold step. destruct (handle e (live c)) as [s|]; [|discriminate].
  cbn. intros Hq [= <-]. apply settle_no_drift. exact Hq.
Qed.

(** Every state reached from a mount is settled and not drifted. *)
Lemma run_no_drift es : forall c c',
  settled c -> drifted (live c) = false ->
  run es c = Some c' -> settled c' /\ drifted (live c') = false.
Proof.
  induction es as [|e es IH]; intros c c' Hs Hd; cbn.
  - intros [= <-]. auto.
  - destruct (step e c) as [c1|] eqn:E; [|discriminate]. cbn.
    apply IH.
    + eapply step_settled, E.
    + eapply step_no_drift; [|exact E].
      intros r Hr. unfold settled in Hs. congruence.
Qed.

Lemma mount_no_drift storage t0 c a p :
  settled (mount storage t0 c a p)
  /\ drifted (live (mount storage t0 c a p)) = false.
Proof.
  split; [apply settle_stable|].
  apply settle_no_drift. cbn. discriminate.
Qed.

Lemma frame_credentialed s s' :
  effect_frame s s' -> credentialed s -> credentialed s'.
Proof.
  intros F Hc Hs. destruct (ef_session _ _ F) as [[E _]|[E _]];
    unfold session in E.
  - injection E as E1 E2 E3. rewrite E2, E3. apply Hc. congruence.
  - congruence.
Qed.

Lemma resolve_fields x s s' :
  resolve x s = Some s' ->
  hooks s' = hooks s /\ session s' = session s
  /\ sessionStorage s' = sessionStorage s
  /\ userDisconnectedRef s' = userDisconnectedRef s
  /\ isLoading s' = isLoading s /\ trace s' = trace s
  /\ clock s' = clock s
  /\ take x (pending s) = Some (pending s').
Proof.
  destruct s; cbn. destruct (take x pending0); [|discriminate].
  cbn. intros [= <-]. auto 10.
Qed.

Lemma handle_credentialed e s s' :
  carries_credential e = true -> credentialed s ->
  handle e s = Some s' -> credentialed s'.
Proof.
  intros Hw Hc. destruct e as [ic a p|t0| | |tok a o|p a m o|a b]; cbn.
  - intros [= <-]. destruct s; exact Hc.
  - intros [= <-]. destruct s; exact Hc.
  - intros [= <-]. destruct s; unfold credentialed; cbn; discriminate.
  - intros [= <-]. destruct s; unfold credentialed; cbn; discriminate.
  - destruct (resolve _ s) as [s0|] eqn:R; [|discriminate]. cbn. intros [= <-].
    apply resolve_fields in R as (_ & R & _). unfold session in R.
    unfold verifySession_resume.
    destruct o as [| |u]; [| |destruct (Js.same_address _ _)];
      destruct s0; unfold credentialed; cbn; intros; try discriminate;
      reflexivity.
  - destruct (resolve _ s) as [s0|] eqn:R; [|discriminate]. cbn. intros [= <-].
    apply resolve_fields in R as (_ & R & _). unfold session in R.
    injection R as R1 R2 R3. unfold credentialed in *. rewrite <- R1, <- R2, <- R3 in Hc.
    unfold handleSignMessage_resume, handleSignMessage_catch.
    destruct o as [| |sig [| |[[] msg [u|] [| |t]]]], p as [[]], s0;
      cbn in *; try exact Hc; try discriminate; reflexivity.
  - destruct (resolve _ s) as [s0|] eqn:R; [|discriminate]. cbn. intros [= <-].
    apply resolve_fields in R as (_ & R & _). unfold session in R.
    injection R as R1 R2 R3. unfold credentialed in *. rewrite <- R1, <- R2, <- R3 in Hc.
    destruct b, s0; exact Hc.
Qed.

Lemma run_credentialed es : forall c c',
  forallb carries_credential es = true -> credentialed (live c) ->
  run es c = Some c' -> credentialed (live c').
Proof.
  induction es as [|e es IH]; intros c c'; cbn.
  - intros _ Hc [= <-]. exact Hc.
  - intros [He Hes]%andb_true_iff Hc.
    unfold step. destruct (handle e (live c)) as [s|] eqn:E; [|discriminate].
    cbn. apply IH; [exact Hes|].
    eapply frame_credentialed; [apply settle_frame|]. cbn.
    eapply handle_credentialed; eauto.
Qed.

End Invariant.

Section Sequences.

Lemma mount_credentialed storage t0 c a p :
  credentialed (live (mount storage t0 c a p)).
Proof.
  eapply frame_credentialed; [apply settle_frame|]. cbn. discriminate.
Qed.

(** C1, as amended.  Along every sequence of events in which each verify
    answer marked successful carries a user record and a token, and once
    the renders that follow an event are done: when the signed flag is up,
    the credential and the user record are there, and while the wallet is
    connected with an address that address is the user record's, compared
    case-insensitively. *)
Theorem signed_means_matching_while_connected
    (es : list Event) (storage : gmap string string) (t0 : Z)
    (ic : bool) (a0 : option string) (p : option Provider) (c : Component) :
  run es (mount storage t0 ic a0 p) = Some c ->
  forallb carries_credential es = true ->
  isSigned (live c) = true ->
  authToken (live c) <> None
  /\ exists u, user (live c) = Some u
       /\ forall a, isConnected (live c) = true -> address (live c) = Some a ->
                    a <> "" ->
                    Js.toLowerCase (walletAddress u) = Js.toLowerCase a.
Proof.
  intros Hrun Hw Hs.
  pose proof (run_credentialed es _ _ Hw (mount_credentialed _ _ _ _ _) Hrun Hs)
    as [Ht Hu]%andb_true_iff.
  destruct (mount_no_drift storage t0 ic a0 p) as [M1 M2].
  destruct (run_no_drift es _ _ M1 M2 Hrun) as [_ Hd].
  destruct (authToken (live c)) as [t|]; [|discriminate].
  destruct (user (live c)) as [u|] eqn:Eu; [|discriminate].
  split; [discriminate|]. exists u. split; [reflexivity|].
  intros a Hc Ha Hne. unfold drifted in Hd. rewrite Ha, Eu, Hc, Hs in Hd.
  destruct a as [|ch a]; [done|]. cbn in Hd.
  apply negb_false_iff, bool_decide_eq_true_1 in Hd. symmetry. exact Hd.
Qed.



Lemma signed_means_matching_while_connected_witness :
  exists c,
    run (sign_in accept_X) (mount ∅ now0 false None None) = Some c
    /\ authToken (live c) <> None
    /\ exists u, user (live c) = Some u
         /\ forall a, isConnected (live c) = true -> address (live c) = Some a ->
                      a <> "" ->
                      Js.toLowerCase (walletAddress u) = Js.toLowerCase a.
Proof.
  eexists. split; [vm_compute; reflexivity|].
  apply (signed_means_matching_while_connected
           (sign_in accept_X) ∅ now0 false None None);
    [vm_compute; reflexivity|reflexivity|reflexivity].
Defined.

(** C1, as the specification words it, fails.  After a sign-in for X the
    provider drops the connection: the signed flag stays up with no
    connected address.  And after a verify answer marked successful that
    carries no token the signed flag is up with no credential. *)
Lemma signed_flag_outlives_its_conditions :
  (exists c,
     run provider_drops (mount ∅ now0 false None None) = Some c
     /\ isSigned (live c) = true /\ address (live c) = None
     /\ ~ signed_means_matching (live c))
  /\ (exists c,
        run (sign_in accept_without_token) (mount ∅ now0 false None None)
        = Some c
        /\ isSigned (live c) = true /\ authToken (live c) = None
        /\ ~ signed_means_matching (live c)).
Proof.
  split; eexists; (split; [vm_compute; reflexivity|]);
    (split; [reflexivity|split; [reflexivity|]]); intros H;
    destruct (H eq_refl) as [Ht (u & a & _ & Ha & _)].
  - discriminate Ha.
  - apply Ht. reflexivity.
Qed.

End Sequences.

Section IncidentalDisconnect.

Lemma render_incidental c :
  isConnected (live c) = false -> userDisconnectedRef (live c) = false ->
  session (live (render c)) = session (live c)
  /\ sessionStorage (live (render c)) = sessionStorage (live c).
Proof.
  destruct c as [s prev]. cbn [live]. intros Hc Hl.
  unfold render, React.run_effect; cbn [live rendered].
  destruct s as [[a|] ? ? ? ? ? [u|] ? ? ? ? ? ?]; cbn in Hc, Hl; subst;
    unfold effect_verifySession, effect_addressDrift, effect_fetchBalance,
      effect_autoSign, autoSign_fires, effect_disconnect; cbn;
    repeat match goal with
           | |- context [React.changed ?d ?p ?x] => destruct (React.changed d p x)
           end; cbn; auto.
Qed.

Lemma settle_incidental c :
  isConnected (live c) = false -> userDisconnectedRef (live c) = false ->
  session (live (settle c)) = session (live c)
  /\ sessionStorage (live (settle c)) = sessionStorage (live c).
Proof.
  intros Hc Hl. unfold settle.
  assert (K : forall d, isConnected (live d) = false ->
                userDisconnectedRef (live d) = false ->
                isConnected (live (render d)) = false
                /\ userDisconnectedRef (live (render d)) = false).
  { intros d Hd Ld. pose proof (render_frame d) as [Hh Hl' _ _ _].
    unfold hooks in Hh. split; congruence. }
  destruct (K c Hc Hl) as [Hc1 Hl1].
  destruct (K _ Hc1 Hl1) as [Hc2 Hl2].
  destruct (render_incidental c Hc Hl) as [A1 B1].
  destruct (render_incidental _ Hc1 Hl1) as [A2 B2].
  destruct (render_incidental _ Hc2 Hl2) as [A3 B3].
  split; congruence.
Qed.

(** C3, as amended.  When the provider drops the connection and the latch
    is not set, the credential-verified component leaves its storage and
    its session fields as they are, through all the renders that follow.
    The disconnect effect of the simplified component does not look at the
    latch: it removes the flag of the address the hook still reports, and
    leaves the storage alone only when no address is reported. *)
Theorem incidental_disconnect_keeps_credential
    (c c' : Component) (a : option string) (p : option Provider)
    (zv z : Simplified.State) :
  userDisconnectedRef (live c) = false ->
  step (Hooks false a p) c = Some c' ->
  Simplified.isConnected zv = false ->
  (sessionStorage (live c') = sessionStorage (live c)
   /\ session (live c') = session (live c))
  /\ Simplified.localStorage (Simplified.effect_disconnect zv z)
     = (if Js.truthy (Simplified.address zv)
        then delete (Simplified.slot (default "" (Simplified.address zv)))
               (Simplified.localStorage z)
        else Simplified.localStorage z).
Proof.
  intros Hl Hstep Hz. split.
  - unfold step in Hstep. cbn in Hstep. injection Hstep as <-.
    destruct (settle_incidental
                {| live := setHooks false a p (live c); rendered := rendered c |})
      as [A B].
    + destruct (live c); reflexivity.
    + destruct (live c); exact Hl.
    + cbn [live] in A, B. rewrite A, B. destruct (live c); auto.
  - unfold Simplified.effect_disconnect. rewrite Hz. cbn.
    destruct zv as [[[|ch za]|] ? ? ? ? ? ? ? ? ?], z; reflexivity.
Qed.

Lemma incidental_disconnect_keeps_credential_witness :
  exists c c',
    run (sign_in accept_X) (mount ∅ now0 false None None) = Some c
    /\ step (Hooks false None None) c = Some c'
    /\ sessionStorage (live c') = sessionStorage (live c)
    /\ Simplified.localStorage
         (Simplified.effect_disconnect simplified_dropped simplified_dropped)
       = delete (Simplified.slot "X")
           (Simplified.localStorage simplified_dropped).
Proof.
  eexists. eexists. split; [vm_compute; reflexivity|].
  split; [vm_compute; reflexivity|].
  match goal with
  | |- sessionStorage (live ?c') = sessionStorage (live ?c) /\ _ =>
      destruct (incidental_disconnect_keeps_credential
                  c c' None None simplified_dropped simplified_dropped)
        as [[H _] Hz]
  end; [reflexivity|vm_compute; reflexivity|reflexivity|].
  split; [exact H|exact Hz].
Defined.

(** C3, as the specification words it, fails for the simplified component:
    the latch is clear, the wallet is not connected, and the stored flag of
    the address is gone after the effect. *)
Lemma simplified_disconnect_removes_flag :
  Simplified.isConnected simplified_dropped = false
  /\ Simplified.userDisconnectedRef simplified_dropped = false
  /\ Simplified.getItem (Simplified.slot "X") simplified_dropped = Some "true"
  /\ Simplified.getItem (Simplified.slot "X")
       (Simplified.effect_disconnect simplified_dropped simplified_dropped)
     = None.
Proof. repeat split; vm_compute; reflexivity. Qed.

End IncidentalDisconnect.

Section FastPath.

Lemma same_address_sym a b : Js.same_address a b = Js.same_address b a.
Proof. unfold Js.same_address. apply bool_decide_ext. split; auto. Qed.

(** A render that leaves the session fields alone is the last one that
    runs an effect. *)
Lemma settle_quiet c :
  session (live (render c)) = session (live c) ->
  settle c = {| live := live (render c); rendered := Some (live (render c)) |}.
Proof.
  intros Hs. unfold settle.
  assert (Hh : hooks (live (render c)) = hooks (live c)) by apply render_frame.
  rewrite (render_quiet (render c) (live c)); auto.
  apply render_fixed. reflexivity.
Qed.

Lemma take_app_here x l r :
  exists l', take x (l ++ x :: r) = Some l'.
Proof.
  induction l as [|y l [l' IH]]; cbn.
  - rewrite decide_True by reflexivity. eauto.
  - destruct (decide (x = y)); [eauto|]. rewrite IH. cbn. eauto.
Qed.

Ltac no_prompt :=
  intros ?m; rewrite <- ?app_assoc, ?elem_of_app, ?elem_of_cons, ?elem_of_nil;
  intuition discriminate.

(** The render that shows a new connection while a credential is stored
    and held: the [/api/auth/me] request leaves, nothing is signed, the
    session is untouched. *)
Lemma render_fast_path c tok a :
  let v := live c in
  React.changed deps_verifySession (rendered c) v = true ->
  getItem "authToken" v = Some tok -> tok <> "" ->
  Js.truthy (authToken v) = true ->
  isConnected v = true -> address v = Some a -> a <> "" ->
  userDisconnectedRef v = false -> drifted v = false ->
  let s' := live (render c) in
  session s' = session v /\ hooks s' = hooks v
  /\ sessionStorage s' = sessionStorage v
  /\ isLoading s' = isLoading v
  /\ userDisconnectedRef s' = false
  /\ (exists l r, pending s' = l ++ AwaitMe tok a :: r)
  /\ no_new_prompt (trace v) (trace s').
Proof.
  destruct c as [s prev]. cbn [live rendered].
  intros Hch Hg Ht Hm Hc Ha Hne Hl Hd.
  unfold render, React.run_effect; cbn [live rendered]. rewrite Hch.
  destruct tok as [|tc tok], a as [|ch a]; try done.
  destruct s as [? ? ? sg ? ? us [[|mc mt]|] ? ? ? ? ?];
    unfold getItem, drifted in *; cbn in Hg, Hm, Hc, Ha, Hl, Hd;
    try discriminate; subst;
    unfold effect_verifySession, verifySession_start, getItem,
      effect_addressDrift, effect_fetchBalance, effect_autoSign,
      autoSign_fires, effect_disconnect; cbn; rewrite Hg; cbn;
    destruct us as [u0|], sg; cbn in Hd; rewrite ?Hd; cbn;
    repeat match goal with
           | |- context [React.changed ?d ?p ?x] => destruct (React.changed d p x)
           end; cbn; rewrite ?andb_false_r; cbn;
    (repeat split; try reflexivity;
     [do 2 eexists; first [reflexivity | rewrite <- app_assoc; reflexivity]
     |no_prompt]).
Qed.

(** A render of a signed, undrifted state under the hook values of the
    render before: nothing is signed, the session is untouched. *)
Lemma render_signed c r :
  let v := live c in
  rendered c = Some r -> hooks r = hooks v ->
  isSigned v = true -> drifted v = false ->
  let s' := live (render c) in
  session s' = session v /\ sessionStorage s' = sessionStorage v
  /\ isLoading s' = isLoading v
  /\ no_new_prompt (trace v) (trace s').
Proof.
  destruct c as [s prev]. cbn [live rendered]. intros Hr Hh Hs Hd. subst prev.
  assert (Cd : React.changed deps_disconnect (Some r) s = false)
    by (apply changed_same; unfold hooks, deps_disconnect in *; congruence).
  assert (Cv : React.changed deps_verifySession (Some r) s = false)
    by (apply changed_same; unfold hooks, deps_verifySession in *; congruence).
  unfold render, React.run_effect; cbn [live rendered]. rewrite Cd, Cv.
  clear Cd Cv Hh.
  destruct s as [[a|] [] ? ? ? ? [u|] ? ? ? ? ? ?];
    unfold drifted in Hd; cbn in Hs, Hd; subst;
    unfold effect_addressDrift, effect_fetchBalance, effect_autoSign,
      autoSign_fires; cbn;
    try (destruct a as [|ch a]; cbn in Hd |- *); rewrite ?Hd; cbn;
    repeat match goal with
           | |- context [bool_decide ?P] => destruct (bool_decide P)
           end; cbn;
    (repeat split; try reflexivity; no_prompt).
Qed.

(** C2.  A connection with address [a] shows up (at mount or later) while
    a credential is stored and held in memory, the latch is clear, no
    signature is in progress and no session for another address is held.
    Then the [/api/auth/me] request leaves with the stored credential, and
    when it answers OK with a record for [a] the component is
    authenticated with that record, the credential is still stored and
    held, and no signature was requested on the way. *)
Theorem fast_path_reaches_authenticated
    (c : Component) (tok a : string) (p : option Provider) (u : UserRecord) :
  let s := live c in
  let v := setHooks true (Some a) p s in
  getItem "authToken" s = Some tok -> tok <> "" ->
  Js.truthy (authToken s) = true ->
  userDisconnectedRef s = false -> isLoading s = false ->
  a <> "" ->
  React.changed deps_verifySession (rendered c) v = true ->
  drifted v = false ->
  Js.same_address (walletAddress u) a = true ->
  exists c1 c2,
    step (Hooks true (Some a) p) c = Some c1
    /\ step (MeSettles tok a (MeOk u)) c1 = Some c2
    /\ phase (live c2) = Authenticated
    /\ user (live c2) = Some u
    /\ authToken (live c2) = Some tok
    /\ getItem "authToken" (live c2) = Some tok
    /\ no_new_prompt (trace s) (trace (live c2)).
Proof.
  intros s v Hg Ht Hm Hl Hld Hne Hch Hd Hu.
  set (c0 := {| live := v; rendered := rendered c |}).
  assert (Hv : getItem "authToken" v = Some tok /\ authToken v = authToken s
               /\ isConnected v = true /\ address v = Some a
               /\ userDisconnectedRef v = false /\ isLoading v = false
               /\ trace v = trace s)
    by (subst v; destruct s; cbn in *; auto 10).
  destruct Hv as (Vg & Vm & Vc & Va & Vl & Vld & Vt).
  destruct (render_fast_path c0 tok a) as (R1 & R2 & R3 & R4 & R5 & R6 & R7);
    cbn [live rendered c0]; auto; [congruence|].
  cbn [live c0] in *.
  assert (S1 : step (Hooks true (Some a) p) c = Some (settle c0)) by reflexivity.
  rewrite (settle_quiet c0 R1) in S1.
  set (s1 := live (render c0)) in *. clearbody s1.
  destruct R6 as (l & r & R6).
  destruct (take_app_here (AwaitMe tok a) l r) as [pd' Htake].
  assert (Hres : exists s2, resolve (AwaitMe tok a) s1 = Some s2).
  { destruct s1; cbn in R6 |- *. rewrite R6, Htake. cbn. eauto. }
  destruct Hres as [s2 Hres].
  pose proof (resolve_fields _ _ _ Hres) as (F1 & F2 & F3 & F4 & F5 & F6 & F7 & _).
  remember (verifySession_resume tok a (MeOk u) s2) as s3 eqn:Es3.
  assert (H3 : hooks s3 = hooks s2 /\ session s3 = (true, Some u, Some tok)
               /\ sessionStorage s3 = sessionStorage s2
               /\ isLoading s3 = isLoading s2 /\ trace s3 = trace s2).
  { subst s3. unfold verifySession_resume. rewrite Hu.
    destruct s2; cbn. auto. }
  destruct H3 as (G1 & G2 & G3 & G4 & G5).
  set (c3 := {| live := s3; rendered := Some s1 |}).
  assert (D3 : drifted s3 = false).
  { unfold drifted. unfold hooks, session in *.
    assert (address s3 = Some a /\ isConnected s3 = true /\ user s3 = Some u)
      as (-> & -> & ->) by (repeat split; congruence).
    rewrite (same_address_sym a), Hu. apply andb_false_r. }
  destruct (render_signed c3 s1) as (Q1 & Q2 & Q3 & Q4);
    cbn [live rendered c3]; auto;
    [congruence|unfold session in G2; congruence|].
  cbn [live c3] in *.
  assert (S2 : step (MeSettles tok a (MeOk u))
                 {| live := s1; rendered := Some s1 |} = Some (settle c3)).
  { unfold step. cbn [handle live]. rewrite Hres. subst c3 s3. reflexivity. }
  rewrite (settle_quiet c3 Q1) in S2.
  pose proof (ef_hooks _ _ (render_frame c3)) as Q5. cbn [live c3] in Q5.
  set (s4 := live (render c3)) in *. clearbody s4.
  do 2 eexists. split; [exact S1|]. split; [exact S2|]. cbn [live].
  unfold session, getItem, phase, hooks in *.
  assert (isConnected s4 = true /\ isLoading s4 = false /\ isSigned s4 = true
          /\ user s4 = Some u /\ authToken s4 = Some tok
          /\ sessionStorage s4 = sessionStorage s)
    as (-> & -> & -> & -> & -> & ->).
  { repeat split; try congruence.
    rewrite Q2, G3, F3, R3. subst v. destruct s; reflexivity. }
  repeat split; auto.
  intros m Hin. rewrite <- Vt. apply R7. rewrite <- F6, <- G5. apply Q4, Hin.
Qed.

End FastPath.

Section Mirror.

Lemma take_Forall (P : Pending -> Prop) x pd pd' :
  take x pd = Some pd' -> Forall P pd -> P x /\ Forall P pd'.
Proof.
  revert pd'. induction pd as [|y pd IH]; cbn; [discriminate|].
  intros pd' Ht HF. apply Forall_cons in HF as [Hy HF].
  destruct (decide (x = y)) as [->|].
  - injection Ht as <-. auto.
  - destruct (take x pd) as [q|]; [|discriminate]. injection Ht as <-.
    destruct (IH q eq_refl HF). auto.
Qed.

Lemma frame_mirrored s s' : effect_frame s s' -> mirrored s -> mirrored s'.
Proof.
  intros F [Hm Hp]. split.
  - destruct (ef_session _ _ F) as [[E1 E2]|[_ E2]]; unfold getItem, session in *.
    + injection E1 as _ _ ->. rewrite E2. exact Hm.
    + rewrite E2, lookup_delete_eq. discriminate.
  - destruct (ef_pending _ _ F) as (new & -> & Hn). apply Forall_app. auto.
Qed.

Lemma handle_mirrored e s s' :
  carries_credential e = true -> mirrored s ->
  handle e s = Some s' -> mirrored s'.
Proof.
  intros Hw [Hm Hp]. unfold mirrored, getItem in *.
  destruct e as [ic a p|t0| | |tok a o|p a m o|a b]; cbn.
  - intros [= <-]. destruct s; auto.
  - intros [= <-]. destruct s; auto.
  - intros [= <-]. destruct s; auto.
  - intros [= <-]. destruct s; cbn in *. rewrite lookup_delete_eq.
    split; [discriminate|auto].
  - destruct (resolve _ s) as [s0|] eqn:R; [|discriminate]. cbn. intros [= <-].
    apply resolve_fields in R as (_ & R1 & R2 & _ & _ & _ & _ & R3).
    destruct (take_Forall _ _ _ _ R3 Hp) as [Hx Hp'].
    unfold session in R1. injection R1 as _ _ R1. rewrite <- R1, <- R2 in Hm.
    unfold verifySession_resume.
    destruct o as [| |u]; [| |destruct (Js.same_address _ _)];
      destruct s0; cbn in *; rewrite ?lookup_delete_eq;
      (split; [|assumption]); try discriminate.
    intros _. destruct tok; [done|reflexivity].
  - destruct (resolve _ s) as [s0|] eqn:R; [|discriminate]. cbn. intros [= <-].
    apply resolve_fields in R as (_ & R1 & R2 & _ & _ & _ & _ & R3).
    destruct (take_Forall _ _ _ _ R3 Hp) as [_ Hp'].
    unfold session in R1. injection R1 as _ _ R1. rewrite <- R1, <- R2 in Hm.
    unfold handleSignMessage_resume, handleSignMessage_catch.
    destruct o as [| |sig [| |[[] msg [u|] [| |t]]]], p as [[]], s0;
      cbn in *; try discriminate; rewrite ?lookup_insert_eq;
      (split; [|assumption]); auto.
  - destruct (resolve _ s) as [s0|] eqn:R; [|discriminate]. cbn. intros [= <-].
    apply resolve_fields in R as (_ & R1 & R2 & _ & _ & _ & _ & R3).
    destruct (take_Forall _ _ _ _ R3 Hp) as [_ Hp'].
    unfold session in R1. injection R1 as _ _ R1. rewrite <- R1, <- R2 in Hm.
    destruct b, s0; cbn in *; auto.
Qed.

(** On mount the credential in memory is the stored one, and along every
    sequence of events whose successful verify answers carry a token a
    stored credential stays mirrored in memory. *)
Lemma run_mirrored es : forall c c',
  forallb carries_credential es = true -> mirrored (live c) ->
  run es c = Some c' -> mirrored (live c').
Proof.
  induction es as [|e es IH]; intros c c'; cbn.
  - intros _ Hc [= <-]. exact Hc.
  - intros [He Hes]%andb_true_iff Hc.
    unfold step. destruct (handle e (live c)) as [s|] eqn:E; [|discriminate].
    cbn. apply IH; [exact Hes|].
    eapply frame_mirrored; [apply settle_frame|]. cbn.
    eapply handle_mirrored; eauto.
Qed.

Lemma mount_mirrored storage t0 c a p :
  mirrored (live (mount storage t0 c a p)).
Proof.
  eapply frame_mirrored; [apply settle_frame|]. split; [auto|constructor].
Qed.

Lemma reached_mirrored es storage t0 ic a p c :
  run es (mount storage t0 ic a p) = Some c ->
  forallb carries_credential es = true ->
  Js.truthy (getItem "authToken" (live c)) = true ->
  Js.truthy (authToken (live c)) = true.
Proof.
  intros Hrun Hw.
  apply (run_mirrored es _ _ Hw (mount_mirrored _ _ _ _ _) Hrun).
Qed.

(** After the explicit disconnect and the renders that follow it the slot
    is still absent and the session still cleared. *)
Lemma explicit_disconnect_settles c c' :
  step ClickDisconnect c = Some c' ->
  getItem "authToken" (live c') = None
  /\ session (live c') = (false, None, None)
  /\ userDisconnectedRef (live c') = true.
Proof.
  unfold step. cbn. intros [= <-].
  pose proof (settle_frame {| live := handleDisconnect (live c);
                              rendered := rendered c |}) as [_ Hl _ Hs _].
  cbn [live] in *. unfold getItem.
  destruct Hs as [[-> ->]|[-> ->]]; rewrite Hl; destruct (live c); cbn;
    rewrite ?lookup_delete_eq; auto.
Qed.

Lemma fast_path_reaches_authenticated_witness :
  exists c1 c2,
    step (Hooks true (Some "X") (Some wallet)) before_mount_T = Some c1
    /\ step (MeSettles "T" "X" (MeOk user_X)) c1 = Some c2
    /\ phase (live c2) = Authenticated
    /\ user (live c2) = Some user_X
    /\ authToken (live c2) = Some "T"
    /\ getItem "authToken" (live c2) = Some "T"
    /\ no_new_prompt (trace (live before_mount_T)) (trace (live c2)).
Proof.
  apply (fast_path_reaches_authenticated
           before_mount_T "T" "X" (Some wallet) user_X);
    try reflexivity; discriminate.
Defined.

(** The component mounts disconnected with credential T stored, then the
    wallet connects as X and [/api/auth/me] answers for X: authenticated,
    and no signature was ever requested. *)
Example mount_then_connect :
  exists c,
    run [Hooks true (Some "X") (Some wallet); MeSettles "T" "X" (MeOk user_X)]
        (mount {["authToken" := "T"]} now0 false None None) = Some c
    /\ phase (live c) = Authenticated
    /\ getItem "authToken" (live c) = Some "T"
    /\ prompts (trace (live c)) = 0.
Proof. eexists. split; [vm_compute; reflexivity|]. repeat split. Qed.

(** After a sign-in for X and a dropped connection, X reconnects: the
    stored credential is revalidated and the one signature request of the
    trace is that of the sign-in. *)
Example reconnect_after_drop :
  exists c,
    run (provider_drops
           ++ [Hooks true (Some "X") (Some wallet);
               MeSettles "T" "X" (MeOk user_X)])
        (mount ∅ now0 false None None) = Some c
    /\ phase (live c) = Authenticated
    /\ getItem "authToken" (live c) = Some "T"
    /\ prompts (trace (live c)) = 1.
Proof. eexists. split; [vm_compute; reflexivity|]. repeat split. Qed.

End Mirror.

(** * Further properties *)

(** ** The credential-verified component between events *)

Section Stability.

(** X1.  The five effects cannot keep each other running: after the three
    renders that follow an event, one more render runs no effect and
    changes nothing, and the state shown is the state held. *)
Theorem effects_settle_in_three_renders (c : Component) :
  render (settle c) = settle c
  /\ rendered (settle c) = Some (live (settle c)).
Proof. destruct (settle_stable c). auto. Qed.

End Stability.

Section Latch.

Lemma launches_nothing_refl s : launches_nothing s s.
Proof. exists []. split; [symmetry; apply app_nil_r|reflexivity]. Qed.

Lemma launches_nothing_trans s1 s2 s3 :
  launches_nothing s1 s2 -> launches_nothing s2 s3 -> launches_nothing s1 s3.
Proof.
  intros (a1 & E1 & F1) (a2 & E2 & F2). exists (a1 ++ a2). split.
  - rewrite E2, E1. symmetry. apply app_assoc.
  - rewrite forallb_app, F1, F2. reflexivity.
Qed.

Ltac one_call :=
  try unfold launches_nothing; cbn;
  first [ exists nil; split; [symmetry; apply app_nil_r|reflexivity]
        | eexists (cons _ nil); split; reflexivity
        | eexists (cons _ (cons _ nil)); split;
          [rewrite <- ?app_assoc|]; reflexivity
        | eexists (cons _ (cons _ (cons _ nil))); split;
          [rewrite <- ?app_assoc|]; reflexivity
        | eexists (cons _ (cons _ (cons _ (cons _ nil)))); split;
          [rewrite <- ?app_assoc|]; reflexivity ].

(** With the latch set no effect launches a session check or a
    signature. *)
Lemma effects_latched {A} `{EqDecision A}
    (deps : State -> A) (body : State -> State -> State) prev v s :
  (forall v s, userDisconnectedRef s = true -> launches_nothing s (body v s)) ->
  userDisconnectedRef s = true ->
  launches_nothing s (React.run_effect deps body prev v s).
Proof.
  intros Hb Hl. unfold React.run_effect.
  destruct (React.changed deps prev v); [auto|apply launches_nothing_refl].
Qed.

Lemma verifySession_latched v s :
  userDisconnectedRef s = true -> launches_nothing s (effect_verifySession v s).
Proof.
  unfold effect_verifySession. intros ->. rewrite andb_false_r.
  apply launches_nothing_refl.
Qed.

Lemma addressDrift_latched v s :
  userDisconnectedRef s = true -> launches_nothing s (effect_addressDrift v s).
Proof.
  intros _. unfold effect_addressDrift.
  destruct (address v), (user v); try apply launches_nothing_refl.
  destruct (_ && _); [|apply launches_nothing_refl].
  destruct (negb _); [|apply launches_nothing_refl].
  destruct s; cbn. one_call.
Qed.

Lemma fetchBalance_latched v s :
  userDisconnectedRef s = true -> launches_nothing s (effect_fetchBalance v s).
Proof.
  intros _. unfold effect_fetchBalance.
  destruct (_ && _); destruct s; cbn; one_call.
Qed.

Lemma autoSign_latched v s :
  userDisconnectedRef s = true -> launches_nothing s (effect_autoSign v s).
Proof.
  unfold effect_autoSign, autoSign_fires. intros ->.
  rewrite andb_false_r. apply launches_nothing_refl.
Qed.

Lemma disconnect_latched v s :
  userDisconnectedRef s = true -> launches_nothing s (effect_disconnect v s).
Proof.
  intros Hl. unfold effect_disconnect. rewrite Hl.
  destruct (negb (isConnected v)); cbn; [|apply launches_nothing_refl].
  destruct s; cbn. one_call.
Qed.

Lemma render_latched c :
  userDisconnectedRef (live c) = true ->
  launches_nothing (live c) (live (render c))
  /\ userDisconnectedRef (live (render c)) = true.
Proof.
  intros Hl. split; [|rewrite (ef_latch _ _ (render_frame c)); exact Hl].
  unfold render; cbn [live].
  set (s1 := React.run_effect deps_verifySession _ _ _ _).
  set (s2 := React.run_effect deps_addressDrift _ _ _ _).
  set (s3 := React.run_effect deps_fetchBalance _ _ _ _).
  set (s4 := React.run_effect deps_autoSign _ _ _ _).
  assert (F1 : effect_frame (live c) s1)
    by apply run_effect_frame, verifySession_frame.
  assert (F2 : effect_frame s1 s2) by apply run_effect_frame, addressDrift_frame.
  assert (F3 : effect_frame s2 s3) by apply run_effect_frame, fetchBalance_frame.
  assert (F4 : effect_frame s3 s4) by apply run_effect_frame, autoSign_frame.
  assert (L1 : userDisconnectedRef s1 = true)
    by (rewrite (ef_latch _ _ F1); exact Hl).
  assert (L2 : userDisconnectedRef s2 = true)
    by (rewrite (ef_latch _ _ F2); exact L1).
  assert (L3 : userDisconnectedRef s3 = true)
    by (rewrite (ef_latch _ _ F3); exact L2).
  assert (L4 : userDisconnectedRef s4 = true)
    by (rewrite (ef_latch _ _ F4); exact L3).
  eapply launches_nothing_trans;
    [|apply effects_latched; [apply disconnect_latched|exact L4]].
  eapply launches_nothing_trans;
    [|apply effects_latched; [apply autoSign_latched|exact L3]].
  eapply launches_nothing_trans;
    [|apply effects_latched; [apply fetchBalance_latched|exact L2]].
  eapply launches_nothing_trans;
    [|apply effects_latched; [apply addressDrift_latched|exact L1]].
  apply effects_latched; [apply verifySession_latched|exact Hl].
Qed.

Lemma settle_latched c :
  userDisconnectedRef (live c) = true ->
  launches_nothing (live c) (live (settle c))
  /\ userDisconnectedRef (live (settle c)) = true.
Proof.
  intros Hl. unfold settle.
  destruct (render_latched c Hl) as [N1 L1].
  destruct (render_latched _ L1) as [N2 L2].
  destruct (render_latched _ L2) as [N3 L3].
  split; [|exact L3].
  eapply launches_nothing_trans; [|exact N3].
  eapply launches_nothing_trans; [exact N1|exact N2].
Qed.

Lemma handle_latched e s s' :
  e <> ClickConnect -> userDisconnectedRef s = true ->
  handle e s = Some s' ->
  launches_nothing s s' /\ userDisconnectedRef s' = true.
Proof.
  intros He Hl. destruct e as [ic a p|t0| | |tok a o|p a m o|a b]; cbn;
    try congruence.
  - intros [= <-]. destruct s; cbn in *. split; [one_call|exact Hl].
  - intros [= <-]. destruct s; cbn in *. split; [one_call|exact Hl].
  - intros [= <-]. destruct s; cbn in *. split; [one_call|reflexivity].
  - destruct (resolve _ s) as [s0|] eqn:R; [|discriminate]. cbn. intros [= <-].
    apply resolve_fields in R as (_ & _ & _ & R4 & _ & R6 & _).
    rewrite Hl in R4. unfold launches_nothing. rewrite <- R6. clear R6.
    unfold verifySession_resume.
    destruct o as [| |u]; [| |destruct (Js.same_address _ _)];
      destruct s0; cbn in R4 |- *; (split; [one_call|auto]).
  - destruct (resolve _ s) as [s0|] eqn:R; [|discriminate]. cbn. intros [= <-].
    apply resolve_fields in R as (_ & _ & _ & R4 & _ & R6 & _).
    rewrite Hl in R4. unfold launches_nothing. rewrite <- R6. clear R6.
    unfold handleSignMessage_resume, handleSignMessage_catch.
    destruct o as [| |sig [| |[[] msg [u|] t]]], p as [[]], s0;
      cbn in R4 |- *; (split; [one_call|auto]).
  - destruct (resolve _ s) as [s0|] eqn:R; [|discriminate]. cbn. intros [= <-].
    apply resolve_fields in R as (_ & _ & _ & R4 & _ & R6 & _).
    rewrite Hl in R4. unfold launches_nothing. rewrite <- R6. clear R6.
    destruct b, s0; cbn in R4 |- *; (split; [one_call|auto]).
Qed.

(** X2.  Once the user has disconnected, only the Connect button re-arms
    the guard: through any other event, a wallet that reconnects by itself
    included, the latch stays set and neither a session check nor a
    signature request is launched. *)
Theorem latch_blocks_until_connect (e : Event) (c c' : Component) :
  userDisconnectedRef (live c) = true ->
  e <> ClickConnect ->
  step e c = Some c' ->
  userDisconnectedRef (live c') = true
  /\ launches_nothing (live c) (live c').
Proof.
  intros Hl He. unfold step.
  destruct (handle e (live c)) as [s|] eqn:E; [|discriminate].
  cbn. intros [= <-].
  destruct (handle_latched e _ _ He Hl E) as [N1 L1].
  destruct (settle_latched {| live := s; rendered := rendered c |} L1)
    as [N2 L2].
  split; [exact L2|]. eapply launches_nothing_trans; [exact N1|exact N2].
Qed.

End Latch.

Section Flows.

Lemma prompts_app tr1 tr2 : prompts (tr1 ++ tr2) = prompts tr1 + prompts tr2.
Proof.
  induction tr1 as [|x tr1 IH]; [reflexivity|].
  destruct x; cbn; rewrite IH; reflexivity.
Qed.

Lemma take_elem_of x pd : x ∈ pd -> exists pd', take x pd = Some pd'.
Proof.
  intros (l & r & ->)%list_elem_of_split. apply take_app_here.
Qed.

(** X3.  Along every sequence of events whose successful verify answers
    carry a user record and a token, a credential that is stored is also
    held in memory, so the automatic signature never fires while a
    credential is stored. *)
Theorem stored_credential_needs_no_signature
    (es : list Event) (storage : gmap string string) (t0 : Z)
    (ic : bool) (a0 : option string) (p : option Provider) (c : Component) :
  run es (mount storage t0 ic a0 p) = Some c ->
  forallb carries_credential es = true ->
  Js.truthy (getItem "authToken" (live c)) = true ->
  Js.truthy (authToken (live c)) = true
  /\ autoSign_fires (live c) (live c) = false.
Proof.
  intros Hrun Hw Hg.
  pose proof (run_mirrored es _ _ Hw (mount_mirrored _ _ _ _ _) Hrun) as [Hm _].
  specialize (Hm Hg). split; [exact Hm|].
  unfold autoSign_fires. rewrite Hm. apply andb_false_r.
Qed.

(** The render in which the automatic signature fires while nothing is
    stored: one signature request for the connected address, and nothing
    else. *)
Lemma render_prompts c p a :
  let v := live c in
  React.changed deps_autoSign (rendered c) v = true ->
  autoSign_fires v v = true ->
  walletProvider v = Some p -> address v = Some a ->
  Js.truthy (getItem "authToken" v) = false ->
  let s' := live (render c) in
  trace s' = trace v ++ [SignMessage (Js.encode (challenge a (clock v)))]
  /\ pending s' = pending v ++ [AwaitSign p a (challenge a (clock v))]
  /\ isLoading s' = true
  /\ session s' = session v /\ hooks s' = hooks v
  /\ sessionStorage s' = sessionStorage v
  /\ userDisconnectedRef s' = false.
Proof.
  destruct c as [s prev]. cbn [live rendered].
  intros Hch Hf Hp Ha Hg.
  unfold render, React.run_effect; cbn [live rendered]. rewrite Hch.
  unfold autoSign_fires in Hf.
  destruct s as [[[|ch a']|] [] [p'|] [] ? ? us [[|mc mt]|] [] st nw ? ?];
    cbn in Hf, Hp, Ha; try discriminate;
    injection Hp as <-; injection Ha as <-;
    unfold getItem in Hg; cbn in Hg;
    unfold effect_verifySession, verifySession_start, getItem,
      effect_addressDrift, effect_fetchBalance, effect_autoSign,
      autoSign_fires, handleSignMessage_start, handleSignMessage_call,
      effect_disconnect; cbn;
    (destruct (st !! "authToken") as [[|tc tt]|]; cbn in Hg; try discriminate);
    destruct us; cbn;
    repeat match goal with
           | |- context [React.changed ?d ?q ?x] => destruct (React.changed d q x)
           end; cbn; unfold clock; cbn [now];
    generalize (Js.toISOString nw); intros iso; auto 10.
Qed.

(** A render while the wallet is not connected and the latch is clear
    calls nothing and keeps everything but the balance. *)
Lemma render_idle c :
  isConnected (live c) = false -> userDisconnectedRef (live c) = false ->
  let s' := live (render c) in
  trace s' = trace (live c) /\ pending s' = pending (live c)
  /\ isLoading s' = isLoading (live c)
  /\ session s' = session (live c)
  /\ sessionStorage s' = sessionStorage (live c)
  /\ clock s' = clock (live c).
Proof.
  destruct c as [s prev]. cbn [live]. intros Hc Hl.
  unfold render, React.run_effect; cbn [live rendered].
  destruct s as [[a|] ? ? ? ? ? [u|] ? ? ? nw ? ?]; cbn in Hc, Hl; subst;
    unfold effect_verifySession, effect_addressDrift, effect_fetchBalance,
      effect_autoSign, autoSign_fires, effect_disconnect; cbn;
    repeat match goal with
           | |- context [React.changed ?d ?p ?x] => destruct (React.changed d p x)
           end; cbn; unfold clock; cbn [now];
    generalize (Js.toISOString nw); intros iso; auto 10.
Qed.

Lemma changed_by {A} `{EqDecision A} (deps : State -> A) r v :
  deps r <> deps v -> React.changed deps (Some r) v = true.
Proof. intros E. cbn. apply bool_decide_eq_true_2. exact E. Qed.

(** X4.  After the Connect button, when the wallet connects and no
    credential is stored or held, exactly one signature request is made,
    for the connected address, and the component shows the signing
    notice. *)
Theorem connect_without_credential_prompts
    (c : Component) (a : string) (p : Provider) :
  settled c -> isConnected (live c) = false ->
  Js.truthy (getItem "authToken" (live c)) = false ->
  Js.truthy (authToken (live c)) = false ->
  a <> "" ->
  exists c1 c2,
    step ClickConnect c = Some c1
    /\ step (Hooks true (Some a) (Some p)) c1 = Some c2
    /\ trace (live c2)
       = trace (live c)
         ++ [OpenModal;
             SignMessage (Js.encode (challenge a (clock (live c))))]
    /\ AwaitSign p a (challenge a (clock (live c))) ∈ pending (live c2)
    /\ phase (live c2) = Authenticating.
Proof.
  intros Hs Hc Hg Hm Hne.
  set (c0 := {| live := handleConnect (live c); rendered := rendered c |}).
  assert (H0 : isConnected (live c0) = false
               /\ userDisconnectedRef (live c0) = false
               /\ isSigned (live c0) = false
               /\ authToken (live c0) = authToken (live c)
               /\ sessionStorage (live c0) = sessionStorage (live c)
               /\ trace (live c0) = trace (live c) ++ [OpenModal]
               /\ clock (live c0) = clock (live c))
    by (cbn; destruct (live c); cbn in *; auto 10).
  destruct H0 as (A1 & A2 & A3 & A4 & A5 & A6 & A7).
  destruct (render_idle c0 A1 A2) as (B1 & B2 & B3 & B4 & B5 & B6).
  assert (S1 : step ClickConnect c = Some (settle c0)) by reflexivity.
  rewrite (settle_quiet c0 B4) in S1.
  pose proof (ef_hooks _ _ (render_frame c0)) as B7.
  pose proof (ef_latch _ _ (render_frame c0)) as B8.
  set (s1 := live (render c0)) in *. clearbody s1.
  set (v := setHooks true (Some a) (Some p) s1).
  set (c1 := {| live := v; rendered := Some s1 |}).
  assert (Hv : isConnected v = true /\ address v = Some a
               /\ walletProvider v = Some p
               /\ isSigned v = isSigned s1 /\ authToken v = authToken s1
               /\ userDisconnectedRef v = userDisconnectedRef s1
               /\ sessionStorage v = sessionStorage s1
               /\ trace v = trace s1 /\ clock v = clock s1
               /\ pending v = pending s1)
    by (subst v; destruct s1; cbn; auto 12).
  destruct Hv as (V1 & V2 & V3 & V4 & V5 & V6 & V7 & V8 & V9 & V10).
  unfold session, hooks in *.
  assert (E1 : isConnected s1 = false) by congruence.
  assert (E2 : isSigned s1 = false) by congruence.
  assert (E3 : authToken s1 = authToken (live c)) by congruence.
  destruct (render_prompts c1 p a) as (R1 & R2 & R3 & R4 & R5 & R6 & R7);
    cbn [live rendered c1].
  - apply changed_by. unfold deps_autoSign. rewrite V1, E1. intros [=].
  - unfold autoSign_fires. rewrite V1, V4, E2, V3, V2, V6, B8, A2, V5, E3, Hm.
    destruct a; [done|reflexivity].
  - exact V3.
  - exact V2.
  - unfold getItem in *. rewrite V7, B5, A5. exact Hg.
  - cbn [live c1] in *.
    assert (S2 : step (Hooks true (Some a) (Some p))
                   {| live := s1; rendered := Some s1 |} = Some (settle c1))
      by reflexivity.
    rewrite (settle_quiet c1 R4) in S2.
    do 2 eexists. split; [exact S1|]. split; [exact S2|]. cbn [live].
    rewrite R1, R2, V8, V9, B1, B6, A6, A7, <- app_assoc.
    split; [reflexivity|]. split; [apply elem_of_app; right; left|].
    unfold phase. rewrite R3.
    unfold hooks in R5.
    assert (isConnected (live (render c1)) = true) as -> by congruence.
    reflexivity.
Qed.

End Flows.

Section Answers.

(** What settling a pending request leaves of the state, and that it can
    be settled. *)
Lemma resolve_pending x s :
  x ∈ pending s ->
  exists s0, resolve x s = Some s0
    /\ hooks s0 = hooks s /\ session s0 = session s
    /\ sessionStorage s0 = sessionStorage s
    /\ userDisconnectedRef s0 = userDisconnectedRef s
    /\ isLoading s0 = isLoading s /\ trace s0 = trace s
    /\ clock s0 = clock s.
Proof.
  intros [pd' Ht]%take_elem_of.
  assert (exists s0, resolve x s = Some s0) as [s0 R]
    by (destruct s; cbn in *; rewrite Ht; cbn; eauto).
  exists s0. split; [exact R|].
  apply resolve_fields in R as (? & ? & ? & ? & ? & ? & ? & _). auto 10.
Qed.

(** The renders after a handler that left the state signed, undrifted and
    with the hook values the last render showed. *)
Lemma settle_signed s r :
  hooks r = hooks s -> isSigned s = true -> drifted s = false ->
  let c' := settle {| live := s; rendered := Some r |} in
  session (live c') = session s
  /\ sessionStorage (live c') = sessionStorage s
  /\ isLoading (live c') = isLoading s
  /\ hooks (live c') = hooks s
  /\ userDisconnectedRef (live c') = userDisconnectedRef s
  /\ no_new_prompt (trace s) (trace (live c')).
Proof.
  intros Hh Hs Hd. cbn zeta.
  set (c := {| live := s; rendered := Some r |}).
  destruct (render_signed c r) as (Q1 & Q2 & Q3 & Q4); cbn [live rendered c];
    auto.
  rewrite (settle_quiet c Q1). cbn [live c] in *.
  pose proof (render_frame c) as [F1 F2 _ _ _]. cbn [live c] in *. auto 10.
Qed.

(** X5.  When the verify answer is marked successful and its record is for
    the connected address, the component ends authenticated with that
    record, holds the token of the answer and has stored its text; no
    further signature is requested. *)
Theorem sign_in_completes
    (c : Component) (p : Provider) (a m : string)
    (signatureUint8 : list Byte.byte) (data : VerifyData) (u : UserRecord) :
  settled c ->
  isConnected (live c) = true -> address (live c) = Some a -> a <> "" ->
  AwaitSign p a m ∈ pending (live c) ->
  success data = true -> data_user data = Some u ->
  Js.same_address a (walletAddress u) = true ->
  exists c',
    step (SignSettles p a m (Signed signatureUint8 (Responded data))) c
    = Some c'
    /\ phase (live c') = Authenticated
    /\ user (live c') = Some u
    /\ authToken (live c') = Js.held (data_token data)
    /\ getItem "authToken" (live c') = Some (Js.to_string (data_token data))
    /\ no_new_prompt (trace (live c)) (trace (live c')).
Proof.
  intros Hs Hc Ha Hne Hp Hok Hu Hm.
  destruct (resolve_pending _ _ Hp) as (s0 & R & F1 & F2 & F3 & F4 & F5 & F6 & F7).
  set (s3 := handleSignMessage_resume p a m
               (Signed signatureUint8 (Responded data)) s0).
  assert (H3 : hooks s3 = hooks s0
               /\ session s3 = (true, Some u, Js.held (data_token data))
               /\ sessionStorage s3
                  = <["authToken" := Js.to_string (data_token data)]>
                      (sessionStorage s0)
               /\ isLoading s3 = false
               /\ no_new_prompt (trace s0) (trace s3)).
  { subst s3. unfold handleSignMessage_resume. rewrite Hok, Hu.
    destruct s0; cbn. repeat split.
    intros x. rewrite <- !app_assoc, !elem_of_app, !elem_of_cons, elem_of_nil.
    intuition discriminate. }
  destruct H3 as (G1 & G2 & G3 & G4 & G5).
  assert (D3 : drifted s3 = false).
  { unfold drifted. unfold hooks, session in *.
    assert (address s3 = Some a /\ isConnected s3 = true /\ user s3 = Some u)
      as (-> & -> & ->) by (repeat split; congruence).
    rewrite Hm. apply andb_false_r. }
  destruct (settle_signed s3 (live c)) as (Q1 & Q2 & Q3 & Q4 & Q5 & Q6);
    [congruence|unfold session in G2; congruence|exact D3|].
  eexists. split.
  { unfold step. cbn [handle]. rewrite R. cbn. rewrite Hs. reflexivity. }
  fold s3. unfold session, hooks, getItem, phase in *.
  assert (isConnected (live (settle {| live := s3; rendered := Some (live c) |}))
          = true) as -> by congruence.
  rewrite Q3, G4, Q2, G3, lookup_insert_eq.
  repeat split; try congruence.
  - assert (isSigned (live (settle {| live := s3; rendered := Some (live c) |}))
            = true) as -> by congruence.
    reflexivity.
  - intros x Hx. rewrite <- F6. apply G5, Q6, Hx.
Qed.

(** X6.  When the revalidation of the stored credential fails (the request
    throws, the answer is not OK, or its record is for another address)
    while a wallet is connected, the credential is removed and a signature
    for the connected address is requested at once. *)
Theorem failed_revalidation_prompts
    (c : Component) (tok a0 : string) (o : MeOutcome)
    (a : string) (p : Provider) :
  settled c ->
  isConnected (live c) = true -> address (live c) = Some a -> a <> "" ->
  walletProvider (live c) = Some p ->
  userDisconnectedRef (live c) = false ->
  Js.truthy (authToken (live c)) = true ->
  AwaitMe tok a0 ∈ pending (live c) ->
  me_fails a0 o = true ->
  exists c',
    step (MeSettles tok a0 o) c = Some c'
    /\ trace (live c')
       = trace (live c)
         ++ [RemoveItem "authToken";
             SignMessage (Js.encode (challenge a (clock (live c))))]
    /\ getItem "authToken" (live c') = None
    /\ isSigned (live c') = false /\ authToken (live c') = None
    /\ phase (live c') = Authenticating.
Proof.
  intros Hs Hc Ha Hne Hp Hl Hm Hpd Ho.
  destruct (resolve_pending _ _ Hpd)
    as (s0 & R & F1 & F2 & F3 & F4 & F5 & F6 & F7).
  set (s3 := verifySession_resume tok a0 o s0).
  assert (H3 : hooks s3 = hooks s0
               /\ isSigned s3 = false /\ authToken s3 = None
               /\ sessionStorage s3 = delete "authToken" (sessionStorage s0)
               /\ userDisconnectedRef s3 = userDisconnectedRef s0
               /\ trace s3 = trace s0 ++ [RemoveItem "authToken"]
               /\ clock s3 = clock s0).
  { subst s3. unfold verifySession_resume.
    destruct o as [| |u]; cbn in Ho;
      [| |destruct (Js.same_address _ _); [discriminate|]];
      destruct s0; cbn; auto 10. }
  destruct H3 as (G1 & G2 & G3 & G4 & G5 & G6 & G7).
  set (c3 := {| live := s3; rendered := Some (live c) |}).
  unfold hooks, session in *.
  destruct (render_prompts c3 p a) as (R1 & R2 & R3 & R4 & R5 & R6 & R7);
    cbn [live rendered c3].
  - apply changed_by. unfold deps_autoSign. rewrite G3. intros [=].
    destruct (authToken (live c)); discriminate.
  - unfold autoSign_fires. rewrite G2, G3, G5, F4, Hl.
    assert (isConnected s3 = true /\ walletProvider s3 = Some p
            /\ address s3 = Some a) as (-> & -> & ->)
      by (repeat split; congruence).
    destruct a; [done|reflexivity].
  - congruence.
  - congruence.
  - unfold getItem. rewrite G4, lookup_delete_eq. reflexivity.
  - cbn [live c3] in *. eexists. split.
    { unfold step. cbn [handle]. rewrite R. cbn. rewrite Hs.
      fold s3. fold c3. rewrite (settle_quiet c3 R4). reflexivity. }
    cbn [live]. unfold session, hooks, getItem, phase in *.
    rewrite R1, G6, F6, G7, F7, <- app_assoc, R6, G4, lookup_delete_eq, R3.
    assert (isConnected (live (render c3)) = true) as -> by congruence.
    repeat split; congruence.
Qed.

(** The render that first shows a drifted state purges the session. *)
Lemma render_drifted c :
  drifted (live c) = true ->
  React.changed deps_addressDrift (rendered c) (live c) = true ->
  let s' := live (render c) in
  session s' = (false, None, None)
  /\ sessionStorage s' = delete "authToken" (sessionStorage (live c))
  /\ isLoading s' = isLoading (live c)
  /\ prompts (trace s') = prompts (trace (live c))
  /\ clock s' = clock (live c).
Proof.
  destruct c as [s prev]. cbn [live rendered]. intros Hd Hch.
  unfold render, React.run_effect; cbn [live rendered]. rewrite Hch.
  unfold drifted in Hd.
  destruct s as [[[|ch a]|] [] ? [] ? ? [u|] ? ? st ? ? ?];
    cbn in Hd; try discriminate.
  unfold effect_verifySession, verifySession_start, getItem,
    effect_addressDrift, effect_fetchBalance, effect_autoSign,
    autoSign_fires, effect_disconnect; cbn. rewrite Hd. cbn.
  repeat match goal with
         | |- context [React.changed ?d ?q ?x] => destruct (React.changed d q x)
         | |- context [if ?b then _ else _] => destruct b
         end; cbn; rewrite ?prompts_app; cbn; repeat split; lia.
Qed.

(** X7.  When the verify answer is marked successful but its record is for
    another address than the connected one, the session it started is
    purged by the next render and a new signature is requested: the
    component is back at the signing notice with nothing stored. *)
Theorem foreign_record_is_purged
    (c : Component) (p0 : Provider) (a0 m : string)
    (signatureUint8 : list Byte.byte) (data : VerifyData) (u : UserRecord)
    (a : string) (p : Provider) :
  settled c -> drifted (live c) = false ->
  isConnected (live c) = true -> address (live c) = Some a -> a <> "" ->
  walletProvider (live c) = Some p ->
  userDisconnectedRef (live c) = false ->
  AwaitSign p0 a0 m ∈ pending (live c) ->
  success data = true -> data_user data = Some u ->
  Js.same_address a (walletAddress u) = false ->
  exists c',
    step (SignSettles p0 a0 m (Signed signatureUint8 (Responded data))) c
    = Some c'
    /\ getItem "authToken" (live c') = None
    /\ session (live c') = (false, None, None)
    /\ prompts (trace (live c')) = S (prompts (trace (live c)))
    /\ phase (live c') = Authenticating.
Proof.
  intros Hs Hnd Hc Ha Hne Hp Hl Hpd Hok Hu Hm.
  destruct (resolve_pending _ _ Hpd)
    as (s0 & R & F1 & F2 & F3 & F4 & F5 & F6 & F7).
  set (s3 := handleSignMessage_resume p0 a0 m
               (Signed signatureUint8 (Responded data)) s0).
  assert (H3 : hooks s3 = hooks s0
               /\ isSigned s3 = true /\ user s3 = Some u
               /\ userDisconnectedRef s3 = userDisconnectedRef s0
               /\ isLoading s3 = false
               /\ prompts (trace s3) = prompts (trace s0)).
  { subst s3. unfold handleSignMessage_resume. rewrite Hok, Hu.
    destruct s0; cbn. rewrite !prompts_app. cbn. repeat split; lia. }
  destruct H3 as (G1 & G2 & G3 & G4 & G5 & G6).
  unfold hooks in *.
  assert (D3 : drifted s3 = true).
  { unfold drifted.
    assert (address s3 = Some a /\ isConnected s3 = true)
      as (-> & ->) by (split; congruence).
    rewrite G3, G2, Hm. destruct a; [done|reflexivity]. }
  set (c3 := {| live := s3; rendered := Some (live c) |}).
  destruct (render_drifted c3) as (P1 & P2 & P3 & P4 & P5);
    cbn [live rendered c3]; [exact D3| |].
  { apply changed_by. intros E. apply drifted_deps in E. congruence. }
  pose proof (render_frame c3) as [P6 P7 _ _ _].
  cbn [live c3] in *. unfold hooks, session in *.
  set (r1 := render c3) in *.
  assert (Hr1 : rendered r1 = Some s3) by reflexivity.
  destruct (render_prompts r1 p a) as (R1 & R2 & R3 & R4 & R5 & R6 & R7).
  - rewrite Hr1. apply changed_by. unfold deps_autoSign. intros E. congruence.
  - unfold autoSign_fires.
    assert (isConnected (live r1) = true /\ isSigned (live r1) = false
            /\ walletProvider (live r1) = Some p
            /\ address (live r1) = Some a
            /\ userDisconnectedRef (live r1) = false
            /\ authToken (live r1) = None)
      as (-> & -> & -> & -> & -> & ->) by (repeat split; congruence).
    destruct a; [done|reflexivity].
  - congruence.
  - congruence.
  - unfold getItem. rewrite P2, lookup_delete_eq. reflexivity.
  - set (r2 := render r1) in *.
    assert (E3 : render r2 = {| live := live r2; rendered := Some (live r2) |}).
    { apply (render_quiet r2 (live r1)); [reflexivity| |]; symmetry; assumption. }
    eexists. split.
    { unfold step. cbn [handle]. rewrite R. cbn. rewrite Hs.
      fold s3. fold c3. unfold settle. fold r1. fold r2. rewrite E3.
      reflexivity. }
    cbn [live]. clearbody r2. clear Hr1. clearbody r1.
    unfold session, hooks, getItem, phase in *.
    rewrite R6, P2, lookup_delete_eq, R3, R1, prompts_app, P4, G6, F6.
    assert (isConnected (live r2) = true) as -> by congruence.
    cbn. repeat split; try congruence. lia.
Qed.

(** X8.  The answer of a session check that was under way when the user
    disconnected is still adopted when it arrives: the signed flag is up
    and the credential is held in memory, while nothing is stored and the
    latch is set. *)
Theorem late_answer_after_disconnect_is_adopted
    (c : Component) (tok a : string) (u : UserRecord) :
  isConnected (live c) = true -> address (live c) = Some a -> a <> "" ->
  AwaitMe tok a ∈ pending (live c) ->
  Js.same_address (walletAddress u) a = true ->
  exists c1 c2,
    step ClickDisconnect c = Some c1
    /\ step (MeSettles tok a (MeOk u)) c1 = Some c2
    /\ isSigned (live c2) = true
    /\ user (live c2) = Some u
    /\ authToken (live c2) = Some tok
    /\ getItem "authToken" (live c2) = None
    /\ userDisconnectedRef (live c2) = true.
Proof.
  intros Hc Ha Hne Hpd Hu.
  set (c0 := {| live := handleDisconnect (live c); rendered := rendered c |}).
  assert (H0 : hooks (live c0) = hooks (live c)
               /\ userDisconnectedRef (live c0) = true
               /\ getItem "authToken" (live c0) = None
               /\ pending (live c0) = pending (live c))
    by (cbn; unfold getItem; destruct (live c); cbn;
        rewrite lookup_delete_eq; auto).
  destruct H0 as (A1 & A2 & A3 & A4).
  pose proof (settle_frame c0) as [B1 B2 _ B4 (new & B5 & _)].
  destruct (settle_stable c0) as [B6 _].
  set (c1 := settle c0) in *.
  assert (S1 : step ClickDisconnect c = Some c1) by reflexivity.
  clearbody c1.
  assert (B7 : getItem "authToken" (live c1) = None).
  { unfold getItem in *.
    destruct B4 as [[_ ->]|[_ ->]]; [exact A3|apply lookup_delete_eq]. }
  assert (Hpd1 : AwaitMe tok a ∈ pending (live c1))
    by (rewrite B5, A4; apply elem_of_app; left; exact Hpd).
  destruct (resolve_pending _ _ Hpd1)
    as (s0 & R & F1 & F2 & F3 & F4 & F5 & F6 & F7).
  set (s3 := verifySession_resume tok a (MeOk u) s0).
  assert (H3 : hooks s3 = hooks s0
               /\ session s3 = (true, Some u, Some tok)
               /\ sessionStorage s3 = sessionStorage s0
               /\ userDisconnectedRef s3 = userDisconnectedRef s0).
  { subst s3. unfold verifySession_resume. rewrite Hu. destruct s0; cbn. auto. }
  destruct H3 as (G1 & G2 & G3 & G4).
  assert (D3 : drifted s3 = false).
  { unfold drifted. unfold hooks, session in *.
    assert (address s3 = Some a /\ isConnected s3 = true /\ user s3 = Some u)
      as (-> & -> & ->) by (repeat split; congruence).
    rewrite (same_address_sym a), Hu. apply andb_false_r. }
  destruct (settle_signed s3 (live c1)) as (Q1 & Q2 & Q3 & Q4 & Q5 & Q6);
    [congruence|unfold session in G2; congruence|exact D3|].
  exists c1, (settle {| live := s3; rendered := Some (live c1) |}).
  split; [exact S1|]. split.
  { unfold step. cbn [handle]. rewrite R. cbn. rewrite B6. reflexivity. }
  unfold session, getItem in *.
  rewrite Q2, G3, F3. repeat split; congruence.
Qed.

End Answers.

(** * The simplified component across renders *)

Section SimplifiedRenders.

Import Simplified SimplifiedRender.

Lemma slot_inj (a b : string) : slot a = slot b -> a = b.
Proof. unfold slot. intros E. vm_compute in E. congruence. Qed.

Lemma signed_stores_flag (sig : list Byte.byte) (v z : State)
    (provider : Provider) (a : string) :
  walletProvider v = Some provider -> address v = Some a -> a <> "" ->
  localStorage (handleSignMessage (Signed sig) v z)
    = <[slot a := "true"]> (localStorage z)
  /\ now (handleSignMessage (Signed sig) v z) = now z.
Proof.
  intros Hp Ha Hne. unfold handleSignMessage. rewrite Hp, Ha.
  destruct a as [|ch a]; [congruence|].
  destruct z. cbn. split; reflexivity.
Qed.

Ltac flag H :=
  repeat match goal with
  | |- context [bool_decide (?x = Some "true")] =>
      first [ rewrite (bool_decide_eq_true_2 (x = Some "true") H)
            | rewrite (bool_decide_eq_false_2 (x = Some "true") H) ]
  end.

Ltac deps_cases :=
  repeat (match goal with
          | |- context [bool_decide ?P] =>
              let D := fresh "D" in
              destruct (bool_decide_reflect P) as [D|D];
              unfold deps_loadSigned, deps_fetchBalance, deps_autoSign,
                deps_disconnect in D;
              cbn in D;
              try congruence;
              try (exfalso; apply D; congruence)
          end; cbn).

Lemma reload_with_flag (a : string) (p : option Provider) (z : State) :
  a <> "" -> getItem (slot a) z = Some "true" ->
  let c := render (render (reload true (Some a) p z)) in
  isSigned (live c) = true
  /\ trace (live c) = [GetBalance a]
  /\ localStorage (live c) = localStorage z
  /\ phase (live c) = Authenticated.
Proof.
  intros Hne Hf. destruct a as [|ch a]; [congruence|].
  unfold getItem in Hf.
  unfold render, reload, React.run_effect.
  cbn [live rendered React.changed].
  unfold effect_loadSigned, effect_autoSign, autoSign_fires, getItem.
  cbn [address localStorage]. flag Hf.
  cbn [effect_fetchBalance effect_disconnect isConnected isSigned address
       andb negb setBalance setIsSigned Js.truthy].
  flag Hf. rewrite !andb_false_r. cbn.
  deps_cases. flag Hf. cbn. repeat split; reflexivity.
Qed.

(** X9. The simplified component restores a signed wallet from its stored
    flag: after a signature for address [a] was accepted, a page reload
    with the same wallet connected ends, within two renders, signed and
    showing the wallet view, with the balance requested and no signature
    requested again. *)
Theorem simplified_reload_restores_signed
    (sig : list Byte.byte) (v z : State) (provider : Provider) (a : string)
    (p : option Provider) :
  walletProvider v = Some provider -> address v = Some a -> a <> "" ->
  let z1 := handleSignMessage (Signed sig) v z in
  let c := render (render (reload true (Some a) p z1)) in
  isSigned (live c) = true
  /\ trace (live c) = [GetBalance a]
  /\ getItem (slot a) (live c) = Some "true"
  /\ phase (live c) = Authenticated.
Proof.
  intros Hp Ha Hne z1 c.
  destruct (signed_stores_flag sig v z provider a Hp Ha Hne) as [Hs _].
  assert (Hf : getItem (slot a) z1 = Some "true").
  { unfold getItem, z1. rewrite Hs. apply lookup_insert_eq. }
  destruct (reload_with_flag a p z1 Hne Hf) as (E1 & E2 & E3 & E4).
  fold c in E1, E2, E3, E4.
  repeat split; auto.
  unfold getItem. rewrite E3. exact Hf.
Qed.

(** X10. The flag of the simplified component is kept per address: a
    signature accepted for [a] does not sign another address in; after a
    reload with a wallet connected as [b], the first render requests a
    signature of the challenge for [b]. *)
Theorem simplified_flag_is_per_address
    (sig : list Byte.byte) (v z : State) (provider p : Provider)
    (a b : string) :
  walletProvider v = Some provider -> address v = Some a -> a <> "" ->
  b <> a -> b <> "" -> getItem (slot b) z <> Some "true" ->
  let z1 := handleSignMessage (Signed sig) v z in
  let c := render (reload true (Some b) (Some p) z1) in
  isSigned (live c) = false
  /\ trace (live c) = [SignMessage (Js.encode (challenge b (clock z)))]
  /\ phase (live c) = Authenticating.
Proof.
  intros Hp Ha Hne Hba Hb Hz z1 c.
  destruct (signed_stores_flag sig v z provider a Hp Ha Hne) as [Hs Hc].
  assert (Hf : getItem (slot b) z1 <> Some "true").
  { unfold getItem, z1. rewrite Hs. rewrite lookup_insert_ne; [exact Hz|].
    intros E. apply slot_inj in E. congruence. }
  fold z1 in Hc. clearbody z1.
  destruct b as [|ch b]; [congruence|].
  unfold getItem in Hf.
  subst c. unfold render, reload, React.run_effect.
  cbn [live rendered React.changed].
  unfold effect_loadSigned, effect_autoSign, autoSign_fires, getItem.
  cbn [address localStorage]. flag Hf.
  cbn [effect_fetchBalance effect_disconnect isConnected isSigned address
       andb negb setBalance setIsSigned Js.truthy default].
  flag Hf.
  cbn. rewrite Hc. repeat split.
Qed.

(** X11. The simplified component has no check of the address against the
    signed state: whatever changed since the last render, a render that
    starts connected and signed ends signed, requests no signature and
    leaves the storage as it was. *)
Theorem simplified_render_keeps_signed (c : Component) :
  isConnected (live c) = true -> isSigned (live c) = true ->
  isSigned (live (render c)) = true
  /\ prompts (trace (live (render c))) = prompts (trace (live c))
  /\ localStorage (live (render c)) = localStorage (live c).
Proof.
  intros Hc Hs. destruct c as [v prev]. cbn [live] in Hc, Hs.
  assert (P : forall tr x, prompts (tr ++ [GetBalance x]) = prompts tr).
  { induction tr as [|[] tr IH]; intros; cbn; auto. }
  unfold render, React.run_effect. cbn [live rendered].
  unfold effect_autoSign, autoSign_fires, effect_disconnect,
    effect_fetchBalance, effect_loadSigned.
  rewrite Hc, Hs. cbn [negb andb].
  destruct v as [a ic p g l b r st ck tr]. cbn in Hc, Hs. subst.
  destruct (React.changed deps_loadSigned _ _);
    destruct (React.changed deps_fetchBalance _ _);
    destruct (React.changed deps_autoSign _ _);
    destruct (React.changed deps_disconnect _ _);
    cbn [address]; destruct a as [[|ch a]|]; cbn;
    repeat (match goal with
            | |- context [bool_decide ?P] => destruct (bool_decide P)
            end; cbn);
    rewrite ?P; repeat split; reflexivity.
Qed.

End SimplifiedRenders.

(** * The transaction history *)

Section HistoryProperties.

Import History.

(** X12. A completed transfer makes the history load again: the callback
    of the page raises the refresh counter and leaves the session and the
    storage alone, and with the new props the effect of the history runs
    and sends both requests under the credential of the session, or
    nothing when the session has none. *)
Theorem transfer_reloads_history
    (bal : option Z) (p : Page.State) (h : History.State) :
  let p' := Page.handleTransactionComplete bal p in
  let v := Page.history_props p h in
  let v' := Page.history_props p' v in
  session (Page.guard p') = session (Page.guard p)
  /\ Verified.sessionStorage (Page.guard p')
     = Verified.sessionStorage (Page.guard p)
  /\ React.changed deps (Some v) v' = true
  /\ trace (React.run_effect deps effect (Some v) v' v')
     = trace h
       ++ match Verified.authToken (Page.guard p) with
          | Some (String _ _ as tok) =>
              [GetTransactions (query (filter h)) tok; GetStats tok]
          | _ => []
          end.
Proof.
  intros p' v v'.
  assert (G : session (Page.guard p') = session (Page.guard p)
              /\ Verified.sessionStorage (Page.guard p')
                 = Verified.sessionStorage (Page.guard p)).
  { subst p'. destruct p as [g n]. unfold Page.handleTransactionComplete.
    cbn [Page.guard Page.refreshTrigger].
    destruct g as [ga gc gp gs gl gb gu gt gr gst gck gtr gpe]. cbn.
    destruct ga as [[|ch a]|]; cbn; auto.
    destruct bal; cbn; auto. }
  destruct G as [G1 G2]. split; [exact G1|]. split; [exact G2|].
  assert (T : Verified.authToken (Page.guard p')
              = Verified.authToken (Page.guard p)).
  { unfold session in G1. congruence. }
  assert (C : React.changed deps (Some v) v' = true).
  { unfold React.changed. apply bool_decide_eq_true_2.
    subst v v' p'. destruct h. unfold deps. cbn. intros [=]. lia. }
  split; [exact C|].
  unfold React.run_effect. rewrite C.
  subst v v'. unfold Page.history_props. rewrite T.
  destruct h as [a0 r0 txs l e f st tr].
  unfold effect, fetchTransactions_start, fetchStats_start. cbn.
  destruct (Verified.authToken (Page.guard p)) as [[|ch tok]|]; cbn;
    rewrite ?app_nil_r, <- ?app_assoc; reflexivity.
Qed.

(** X13. However the request of the list ends, the loading notice is off
    afterwards and exactly one of four things happens at the next render:
    the error block, the empty notice or the list is shown, or the render
    throws on the length of a missing list.  A thrown request leaves the
    fixed text "Failed to load transactions" as the error, a refusal leaves
    its own message, a success leaves none.  The list changes only on
    success, to what the answer holds; the render throws after a success
    whose answer holds no list, and a refusal without a message shows what
    was there before with no error. *)
Theorem history_shows_one_block
    (o : ListOutcome) (v s : History.State) (tok : string) :
  authToken v = Some tok -> tok <> "" ->
  let s' := fetchTransactions o v s in
  shows_loading s' = false
  /\ error s'
     = match o with
       | ListOk _ => None
       | ListThrows => Some "Failed to load transactions"
       | ListRejected m => m
       end
  /\ transactions s'
     = match o with ListOk txs => txs | _ => transactions s end
  /\ shows_error s'
     = match o with
       | ListOk _ => false
       | ListThrows => true
       | ListRejected m => Js.truthy m
       end
  /\ blocks_shown s' + Nat.b2n (render_throws s') = 1
  /\ render_throws s'
     = match o with
       | ListOk txs => negb (Js.defined txs)
       | ListThrows => false
       | ListRejected m =>
           negb (Js.truthy m) && negb (Js.defined (transactions s))
       end.
Proof.
  intros Ht Hne. destruct tok as [|ch tok]; [congruence|].
  unfold fetchTransactions, fetchTransactions_start. rewrite Ht.
  destruct s as [a0 r0 txs l e f st tr].
  unfold blocks_shown, shows_loading, shows_error, shows_empty, shows_list,
    render_throws.
  destruct o as [|m|txs']; cbn.
  - repeat split.
  - destruct m as [[|c m]|]; cbn; repeat split;
      destruct txs as [[|tx txs]|]; reflexivity.
  - repeat split; destruct txs' as [[|tx txs']|]; reflexivity.
Qed.

(** X14. The fallback icon and the fallback colour go together: a status
    is shown with the question mark exactly when it is shown in grey, and
    that is for every status other than the three the backend documents. *)
Theorem unknown_status_icon_and_colour (status : string) :
  (getStatusIcon status = "?" <-> getStatusColor status = "#6b7280")
  /\ (getStatusIcon status = "?"
      <-> status <> "confirmed" /\ status <> "pending" /\ status <> "failed").
Proof.
  unfold getStatusIcon, getStatusColor.
  repeat destruct (decide _); subst;
    (split; split; try discriminate; try tauto; try congruence;
     try (intros (? & ? & ?); congruence)).
Qed.

(** X25. Choosing another filter loads the list again, filtered by the
    backend: the effect runs and asks for at most fifty transactions, with
    the status of the filter in the query for every filter but "all", and
    for the summary; the loading notice is up and the error of before is
    gone.  However the summary request ends, it touches neither the list
    nor the error nor the loading notice. *)
Theorem filter_change_reloads
    (f : Filter) (h : History.State) (tok : string) :
  authToken h = Some tok -> tok <> "" -> f <> filter h ->
  let v := setFilter f h in
  let s' := React.run_effect deps effect (Some h) v v in
  trace s'
  = trace h
    ++ [GetTransactions
          ("/api/transactions?limit=50"
             +:+ match f with
                 | All => ""
                 | _ => "&status=" +:+ filter_text f
                 end) tok;
        GetStats tok]
  /\ isLoading s' = true /\ error s' = None
  /\ forall o,
       transactions (fetchStats_resume o s') = transactions s'
       /\ error (fetchStats_resume o s') = error s'
       /\ isLoading (fetchStats_resume o s') = isLoading s'.
Proof.
  intros Ht Hne Hf. cbn zeta.
  destruct h as [a0 r0 txs l e f0 st tr]. cbn in Ht, Hf. subst a0.
  destruct tok as [|ch tok]; [congruence|].
  unfold React.run_effect, React.changed, deps.
  cbn [setFilter authToken filter refreshTrigger].
  rewrite bool_decide_eq_true_2 by congruence.
  unfold effect, fetchTransactions_start, fetchStats_start, query.
  cbn [authToken filter default setIsLoading setError emit].
  cbn [trace isLoading error].
  repeat split.
  - destruct f; cbn; rewrite <- ?app_assoc; reflexivity.
  - destruct o; reflexivity.
  - destruct o; reflexivity.
  - destruct o; reflexivity.
Qed.

End HistoryProperties.

(** * Addresses and challenges as text *)

Section Text.

Lemma list_of_append (a b : string) :
  list_ascii_of_string (a +:+ b)
  = list_ascii_of_string a ++ list_ascii_of_string b.
Proof.
  induction a as [|c a IH]; [reflexivity|].
  change (String c a +:+ b) with (String c (a +:+ b)). cbn. now rewrite IH.
Qed.

Lemma string_of_app (l1 l2 : list ascii) :
  string_of_list_ascii (l1 ++ l2)
  = string_of_list_ascii l1 +:+ string_of_list_ascii l2.
Proof.
  induction l1 as [|c l1 IH]; [reflexivity|].
  cbn [app string_of_list_ascii]. rewrite IH. reflexivity.
Qed.

Lemma string_length_list (s : string) :
  String.length s = length (list_ascii_of_string s).
Proof. induction s; cbn; auto. Qed.

Lemma length_string_of (l : list ascii) :
  String.length (string_of_list_ascii l) = length l.
Proof. induction l; cbn; auto. Qed.

Lemma length_append (a b : string) :
  String.length (a +:+ b) = String.length a + String.length b.
Proof.
  rewrite !string_length_list, list_of_append. apply length_app.
Qed.

Lemma list_of_string_inj (a b : string) :
  list_ascii_of_string a = list_ascii_of_string b -> a = b.
Proof.
  intros E. apply (f_equal string_of_list_ascii) in E.
  now rewrite !string_of_list_ascii_of_string in E.
Qed.

Lemma slice_head (n : nat) (a : string) :
  JsString.slice 0 (Some (Z.of_nat n)) a
  = string_of_list_ascii (list.take n (list_ascii_of_string a)).
Proof.
  unfold JsString.slice, JsString.clamp. cbn [Z.ltb Z.compare].
  destruct (Z.ltb_spec (Z.of_nat n) 0); [lia|].
  rewrite Nat2Z.id. cbn [Z.to_nat]. rewrite Nat.min_0_l, Nat.sub_0_r.
  rewrite drop_0. f_equal.
  destruct (Nat.le_ge_cases n (length (list_ascii_of_string a))).
  - now rewrite Nat.min_l.
  - rewrite Nat.min_r by auto. now rewrite !take_ge by lia.
Qed.

Lemma slice_tail (n : nat) (a : string) :
  0 < n ->
  JsString.slice (- Z.of_nat n) None a
  = string_of_list_ascii
      (drop (length (list_ascii_of_string a) - n) (list_ascii_of_string a)).
Proof.
  intros Hn. unfold JsString.slice, JsString.clamp.
  destruct (Z.ltb_spec (- Z.of_nat n) 0); [|lia].
  set (cs := list_ascii_of_string a).
  replace (Z.to_nat (Z.max (Z.of_nat (length cs) + - Z.of_nat n) 0))
    with (length cs - n) by lia.
  f_equal. apply take_ge. rewrite length_drop. lia.
Qed.

(** X15. The shortened address is the first four and the last four
    characters of the address around three dots: its length is twice
    [min 4 n] plus three for an address of [n] characters, its two ends
    are a prefix and a suffix of the address, and an address of at most
    four characters is shown twice in full. *)
Theorem truncateAddress_ends (a : string) :
  let n := String.length a in
  String.length (truncateAddress a) = 2 * Nat.min 4 n + 3
  /\ (exists rest, a = JsString.slice 0 (Some 4%Z) a +:+ rest)
  /\ (exists front, a = front +:+ JsString.slice (-4) None a)
  /\ (n <= 4 -> truncateAddress a = a +:+ "..." +:+ a).
Proof.
  intros n. unfold truncateAddress.
  pose proof (slice_head 4 a) as Hh. pose proof (slice_tail 4 a) as Ht.
  change (Z.of_nat 4) with 4%Z in Hh. change (- Z.of_nat 4)%Z with (-4)%Z in Ht.
  rewrite Hh, Ht by lia. clear Hh Ht.
  assert (Hn : n = length (list_ascii_of_string a))
    by apply string_length_list.
  set (cs := list_ascii_of_string a) in *.
  assert (Ha : a = string_of_list_ascii cs)
    by (symmetry; apply string_of_list_ascii_of_string).
  repeat split.
  - rewrite !length_append, !length_string_of, length_take, length_drop.
    cbn [String.length]. lia.
  - exists (string_of_list_ascii (drop 4 cs)).
    rewrite <- string_of_app, take_drop. exact Ha.
  - exists (string_of_list_ascii (list.take (length cs - 4) cs)).
    rewrite <- string_of_app, take_drop. exact Ha.
  - intros Hle. rewrite take_ge by lia.
    replace (length cs - 4) with 0 by lia. rewrite drop_0. now rewrite <- Ha.
Qed.

Lemma single_line_split (l l' r r' : list ascii) :
  forallb (fun c => negb (Ascii.eqb c (ascii_of_nat 10))) l = true ->
  forallb (fun c => negb (Ascii.eqb c (ascii_of_nat 10))) l' = true ->
  l ++ ascii_of_nat 10 :: r = l' ++ ascii_of_nat 10 :: r' ->
  l = l' /\ r = r'.
Proof.
  revert l'. induction l as [|c l IH]; intros [|c' l'] H1 H2 E;
    cbn [app forallb] in *.
  - injection E as ->. auto.
  - injection E as <- _. apply andb_prop in H2 as [H2 _].
    rewrite Ascii.eqb_refl in H2. discriminate.
  - injection E as -> _. apply andb_prop in H1 as [H1 _].
    rewrite Ascii.eqb_refl in H1. discriminate.
  - injection E as -> E. apply andb_prop in H1 as [_ H1].
    apply andb_prop in H2 as [_ H2].
    destruct (IH l' H1 H2 E) as [-> ->]. auto.
Qed.

(** X16. The challenge names its wallet and its moment: for addresses of
    one line, as base58 addresses are, two challenges are the same text
    only if they are for the same address and carry the same timestamp.
    A signature of one challenge is thus a signature of no other. *)
Theorem challenge_names_wallet_and_moment (a a' t t' : string) :
  single_line a = true -> single_line a' = true ->
  (challenge a t = challenge a' t' <-> a = a' /\ t = t').
Proof.
  intros H1 H2. split; [|intros [-> ->]; reflexivity].
  intros E. apply (f_equal list_ascii_of_string) in E.
  unfold challenge, Js.newline in E.
  rewrite !list_of_append in E.
  repeat match type of E with
         | ?x ++ _ = ?x ++ _ => apply app_inv_head in E
         end.
  cbn [list_ascii_of_string app] in E.
  apply single_line_split in E; auto.
  destruct E as [Ea Et].
  apply list_of_string_inj in Ea.
  repeat match type of Et with
         | _ :: _ = _ :: _ => injection Et as Et
         end.
  apply list_of_string_inj in Et. auto.
Qed.

End Text.

(** * The transfer form *)

Section TransferProperties.

Import Transfer.

Context `{Platform}.

Lemma validated (s : State) :
  fst (validateInputs s) = true -> validateInputs s = (true, setError None s).
Proof.
  unfold validateInputs.
  repeat match goal with
         | |- context [if ?c then _ else _] => destruct c
         | |- context [match balance s with _ => _ end] => destruct (balance s)
         end; cbn [fst]; intros; try discriminate; reflexivity.
Qed.

Lemma explain_shown (m : string) : Js.truthy (Some (explain m)) = true.
Proof.
  unfold explain.
  repeat match goal with
         | |- context [if ?c then _ else _] => destruct c eqn:?
         end; try reflexivity.
  assumption.
Qed.

Lemma includes_unfold (s sub : string) :
  JsString.includes s sub
  = String.prefix sub s
    || match s with
       | EmptyString => false
       | String _ r => JsString.includes r sub
       end.
Proof. destruct s; reflexivity. Qed.

Lemma prefix_app (sub post : string) : String.prefix sub (sub +:+ post) = true.
Proof.
  induction sub as [|c sub IH]; [destruct post; reflexivity|].
  change (String c sub +:+ post) with (String c (sub +:+ post)).
  cbn. destruct (ascii_dec c c); [exact IH|congruence].
Qed.

Lemma includes_app (pre sub post : string) :
  JsString.includes (pre +:+ sub +:+ post) sub = true.
Proof.
  induction pre as [|c pre IH].
  - change ("" +:+ sub +:+ post) with (sub +:+ post).
    rewrite includes_unfold, prefix_app. reflexivity.
  - change (String c pre +:+ sub +:+ post)
      with (String c (pre +:+ sub +:+ post)).
    rewrite includes_unfold, IH. apply orb_true_r.
Qed.

Lemma validateInputs_message (s : State) :
  fst (validateInputs s)
  = negb (Js.truthy (error (snd (validateInputs s))))
  /\ snd (validateInputs s)
     = setError (error (snd (validateInputs s))) s.
Proof.
  unfold validateInputs. destruct s as [p a t cb ty ra am m i b e tr].
  cbn [recipientAddress amount tokenMint transferType balance].
  repeat match goal with
         | |- context [if ?c then _ else _] => destruct c
         | |- context [match ?b with Some _ => _ | None => _ end] =>
             destruct b
         end; cbn; split; reflexivity.
Qed.

(** X17. The verdict of the validation and the message go together: the
    form is refused exactly when a message is shown after the check, and
    the check changes nothing of the form but that message. *)
Theorem validation_refuses_with_a_message (s : State) :
  fst (validateInputs s)
  = negb (Js.truthy (error (snd (validateInputs s))))
  /\ snd (validateInputs s)
     = setError (error (snd (validateInputs s))) s.
Proof. exact (validateInputs_message s). Qed.

(** X18. The balance is that of SOL and the mint that of a token: a token
    transfer is validated without regard to the balance shown, and a SOL
    transfer without regard to what the mint field holds. *)
Theorem validation_by_transfer_type
    (s : State) (b : option number) (m : string) :
  fst (validateInputs (setBalance b (setTransferType SPL s)))
  = fst (validateInputs (setTransferType SPL s))
  /\ fst (validateInputs (setTokenMint m (setTransferType SOL s)))
     = fst (validateInputs (setTransferType SOL s)).
Proof.
  destruct s as [p a t cb ty ra am m0 i b0 e tr].
  unfold validateInputs.
  cbn [setBalance setTransferType setTokenMint recipientAddress amount
       tokenMint transferType balance].
  rewrite (bool_decide_eq_true_2 (SPL = SPL)) by reflexivity.
  rewrite (bool_decide_eq_false_2 (SPL = SOL)) by discriminate.
  rewrite (bool_decide_eq_true_2 (SOL = SOL)) by reflexivity.
  rewrite (bool_decide_eq_false_2 (SOL = SPL)) by discriminate.
  cbn [andb]. split.
  all: repeat match goal with
              | |- context [if ?c then _ else _] => destruct c
              | |- context [match ?b with Some _ => _ | None => _ end] =>
                  destruct b
              end; reflexivity.
Qed.

Ltac run_transfer Hok :=
  unfold handleTransfer; rewrite (validated _ Hok); cbn [negb].

(** X19. Nothing leaves the form unless it is valid and a wallet is at
    hand: when the validation refuses, or the wallet provider or the
    address is missing, a click on the transfer button makes no call to the
    wallet, the network, the backend or the parent, and leaves an error
    message on the form. *)
Theorem transfer_needs_valid_form_and_wallet
    (o : ChainOutcome) (r : RefreshOutcome) (s : State) :
  fst (validateInputs s) && Js.defined (walletProvider s)
    && Js.truthy (address s) = false ->
  trace (handleTransfer o r s) = trace s
  /\ Js.truthy (error (handleTransfer o r s)) = true.
Proof.
  intros Hno.
  destruct (fst (validateInputs s)) eqn:Hok.
  - cbn [andb] in Hno. run_transfer Hok.
    assert (R : forall u,
              walletProvider u = walletProvider s ->
              address u = address s ->
              handleTransferSOL o u = (u, Gave None)
              /\ handleTransferSPL o u = (u, Gave None)).
    { intros u Ep Ea. unfold handleTransferSOL, handleTransferSPL.
      rewrite Ep, Ea.
      destruct (walletProvider s); [|auto].
      destruct (address s) as [[|ch a]|]; auto. discriminate. }
    destruct (R (setError None (setIsTransferring true (setError None s))))
      as [R1 R2]; [destruct s; reflexivity ..|].
    rewrite R1, R2. destruct (bool_decide _).
    all: unfold handleTransfer_done, handleTransfer_catch.
    all: pose proof (explain_shown undefined_slice) as E.
    all: destruct s; cbn -[explain] in *; auto.
  - unfold handleTransfer.
    pose proof (validateInputs_message s) as [V1 V2].
    rewrite Hok in V1.
    destruct (validateInputs s) as [ok s1]. cbn [fst snd] in *. subst ok.
    cbn [negb]. split.
    + rewrite V2. destruct s; reflexivity.
    + destruct (Js.truthy (error s1)); [reflexivity|discriminate].
Qed.

(** X20. A valid form without a wallet at hand is emptied and shows the
    text of a type error: the transfer function returns at its first line
    with no signature, the three fields are cleared as after a success,
    and the success notice fails on the missing signature, so that the
    message of that failure is what the form shows.  The transferring flag
    is down again, and the button is disabled all the same, for the fields
    it needs are empty. *)
Theorem valid_form_without_wallet_is_emptied
    (o : ChainOutcome) (r : RefreshOutcome) (s : State) :
  fst (validateInputs s) = true ->
  Js.defined (walletProvider s) && Js.truthy (address s) = false ->
  let s' := handleTransfer o r s in
  recipientAddress s' = "" /\ amount s' = "" /\ tokenMint s' = ""
  /\ error s' = Some (explain undefined_slice)
  /\ isTransferring s' = false
  /\ button_disabled s' = true
  /\ trace s' = trace s.
Proof.
  intros Hok Hno. cbn zeta. run_transfer Hok.
  unfold handleTransferSOL, handleTransferSPL, handleTransfer_done,
    handleTransfer_catch.
  destruct s as [p a t cb ty ra am m i b e tr].
  cbn [walletProvider address] in Hno. clear Hok.
  destruct p as [p|]; [destruct a as [[|ch a]|]; [|discriminate|]|];
    destruct ty; cbn -[explain]; repeat split.
Qed.

(** X21. A transfer that passed the validation ends with the transferring
    flag down, and with no error exactly when it ran to its end: the wallet
    and the address were at hand, the transaction was confirmed and the
    balance was read again.  Every other course leaves a message. *)
Theorem transfer_error_unless_complete
    (o : ChainOutcome) (r : RefreshOutcome) (s : State) :
  fst (validateInputs s) = true ->
  isTransferring (handleTransfer o r s) = false
  /\ Js.defined (error (handleTransfer o r s)) = negb (completes o r s).
Proof.
  intros Hok. run_transfer Hok.
  unfold handleTransferSOL, handleTransferSPL, send_and_confirm,
    handleTransfer_done, handleTransfer_catch, verifyTransactionWithBackend,
    completes.
  destruct s as [p a t cb ty ra am m i b e tr]. clear Hok.
  destruct p as [p|], a as [[|ch a]|], ty, o as [| [|] | | | | |], r, cb;
    cbn -[explain]; split; reflexivity.
Qed.

(** X22. The calls of a confirmed transfer, in their order: the token
    accounts for a token transfer, then blockhash, signature by the wallet,
    submission, confirmation, the report to the backend under the
    credential of the session, the success notice, the callback of the
    parent when there is one, and the balance.  The answer of the backend
    appears nowhere: whatever it is, the same calls follow and the form is
    emptied. *)
Theorem confirmed_transfer_calls
    (signature : string) (b : BackendOutcome) (r : RefreshOutcome)
    (s : State) (p : Provider) (a : string) :
  fst (validateInputs s) = true ->
  walletProvider s = Some p -> address s = Some a -> a <> "" ->
  let s' := handleTransfer (Confirmed signature b) r s in
  let quantity := parseFloat (amount s) in
  let accounts :=
    match transferType s with
    | SOL => []
    | SPL => [GetAssociatedTokenAddress (tokenMint s) a;
              GetAssociatedTokenAddress (tokenMint s) (recipientAddress s)]
    end in
  let instruction :=
    match transferType s with
    | SOL => SystemTransfer a (recipientAddress s)
               (times quantity (Zpos Verified.LAMPORTS_PER_SOL))
    | SPL => TokenTransfer (tokenMint s) a (recipientAddress s)
               (times quantity (10 ^ 9))
    end in
  let mint :=
    match transferType s with SOL => None | SPL => Some (tokenMint s) end in
  trace s'
  = trace s ++ accounts
      ++ [GetLatestBlockhash; SignTransaction instruction;
          SendRawTransaction; ConfirmTransaction signature;
          PostVerify {| body_txHash := signature; body_tokenMint := mint;
                        body_recipient := recipientAddress s |}
            ("Bearer " +:+ JsString.of_nullable (authToken s));
          Alert ("Transfer successful!" +:+ Js.newline +:+ "Signature: "
                   +:+ JsString.slice 0 (Some 8%Z) signature +:+ "..."
                   +:+ JsString.slice (-8) None signature)]
      ++ (if onTransactionComplete s then [OnTransactionComplete] else [])
      ++ [GetBalance a]
  /\ recipientAddress s' = "" /\ amount s' = "" /\ tokenMint s' = "".
Proof.
  intros Hok Hp Ha Hne. cbn zeta. run_transfer Hok.
  unfold handleTransferSOL, handleTransferSPL, send_and_confirm,
    handleTransfer_done, handleTransfer_catch, verifyTransactionWithBackend.
  destruct s as [p0 a0 t cb ty ra am m i b0 e tr]. clear Hok.
  cbn [walletProvider address] in Hp, Ha. subst p0 a0.
  destruct a as [|ch a]; [congruence|].
  cbn [transferType].
  destruct ty;
    rewrite ?(bool_decide_eq_true_2 (SOL = SOL)),
            ?(bool_decide_eq_false_2 (SPL = SOL)) by congruence;
    destruct r, cb; cbn -[explain JsString.slice];
    rewrite <- ?app_assoc; cbn [app]; repeat split; reflexivity.
Qed.

(** X23. When the wallet declines to sign, nothing is submitted: the
    calls stop at the signature request, the form keeps what was typed,
    the transferring flag is down again and the message is the one for a
    rejected transaction, whatever else the text of the error holds. *)
Theorem declined_signature_submits_nothing
    (before after : string) (r : RefreshOutcome)
    (s : State) (p : Provider) (a : string) :
  fst (validateInputs s) = true ->
  walletProvider s = Some p -> address s = Some a -> a <> "" ->
  let s' :=
    handleTransfer (SignThrows (before +:+ "User rejected" +:+ after)) r s in
  let quantity := parseFloat (amount s) in
  let accounts :=
    match transferType s with
    | SOL => []
    | SPL => [GetAssociatedTokenAddress (tokenMint s) a;
              GetAssociatedTokenAddress (tokenMint s) (recipientAddress s)]
    end in
  let instruction :=
    match transferType s with
    | SOL => SystemTransfer a (recipientAddress s)
               (times quantity (Zpos Verified.LAMPORTS_PER_SOL))
    | SPL => TokenTransfer (tokenMint s) a (recipientAddress s)
               (times quantity (10 ^ 9))
    end in
  trace s'
  = trace s ++ accounts ++ [GetLatestBlockhash; SignTransaction instruction]
  /\ error s'
     = Some "Transaction rejected. Please approve the transaction in your wallet."
  /\ recipientAddress s' = recipientAddress s /\ amount s' = amount s
  /\ tokenMint s' = tokenMint s
  /\ isTransferring s' = false.
Proof.
  intros Hok Hp Ha Hne. cbn zeta. run_transfer Hok.
  unfold handleTransferSOL, handleTransferSPL, send_and_confirm,
    handleTransfer_catch.
  assert (E : explain (before +:+ "User rejected" +:+ after)
              = "Transaction rejected. Please approve the transaction in your wallet.").
  { unfold explain. rewrite (includes_app before "User rejected" after).
    rewrite orb_true_r. reflexivity. }
  destruct s as [p0 a0 t cb ty ra am m i b0 e tr]. clear Hok.
  cbn [walletProvider address] in Hp, Ha. subst p0 a0.
  destruct a as [|ch a]; [congruence|].
  cbn [transferType].
  destruct ty;
    rewrite ?(bool_decide_eq_true_2 (SOL = SOL)),
            ?(bool_decide_eq_false_2 (SPL = SOL)) by congruence;
    cbn -[explain]; rewrite E; rewrite <- ?app_assoc; cbn [app];
    repeat split; reflexivity.
Qed.

(** X24. The message for a failed transfer is never empty, and a refusal
    comes first: an error whose text holds one of the three marks of a
    refusal is shown as a rejected transaction even when it also speaks of
    insufficient funds; an error with none of the four marks is shown by
    its own text. *)
Theorem explain_classifies (m : string) :
  Js.truthy (Some (explain m)) = true
  /\ (forall before mark after,
        mark ∈ ["not been authorized"; "User rejected"; "denied"] ->
        explain (before +:+ mark +:+ after)
        = "Transaction rejected. Please approve the transaction in your wallet.")
  /\ (forallb (fun mark => negb (JsString.includes m mark))
        ["not been authorized"; "User rejected"; "denied"; "insufficient"]
      = true ->
      m <> "" -> explain m = m).
Proof.
  split; [apply explain_shown|]. split.
  - intros before mark after Hm. unfold explain.
    repeat (apply elem_of_cons in Hm as [->|Hm];
            [rewrite includes_app, ?orb_true_r; reflexivity|]).
    apply elem_of_nil in Hm. contradiction.
  - cbn [forallb]. intros Hn Hne.
    repeat (apply andb_prop in Hn as [?%negb_true_iff Hn]).
    unfold explain.
    repeat match goal with
           | E : JsString.includes _ _ = false |- _ => rewrite E; clear E
           end.
    cbn [orb]. destruct m; [congruence|reflexivity].
Qed.

End TransferProperties.

Section Examples.

Lemma latch_blocks_until_connect_witness :
  exists c',
    step (Hooks true (Some "X") (Some wallet)) just_disconnected = Some c'
    /\ userDisconnectedRef (live c') = true
    /\ launches_nothing (live just_disconnected) (live c').
Proof.
  eexists. split; [vm_compute; reflexivity|].
  apply (latch_blocks_until_connect
           (Hooks true (Some "X") (Some wallet)) just_disconnected);
    [reflexivity|discriminate|vm_compute; reflexivity].
Defined.

Lemma stored_credential_needs_no_signature_witness :
  exists c,
    run (sign_in accept_X) (mount ∅ now0 false None None) = Some c
    /\ Js.truthy (authToken (live c)) = true
    /\ autoSign_fires (live c) (live c) = false.
Proof.
  eexists. split; [vm_compute; reflexivity|].
  apply (stored_credential_needs_no_signature
           (sign_in accept_X) ∅ now0 false None None);
    vm_compute; reflexivity.
Defined.

Lemma connect_without_credential_prompts_witness :
  let c := mount ∅ now0 false None None in
  exists c1 c2,
    step ClickConnect c = Some c1
    /\ step (Hooks true (Some "X") (Some wallet)) c1 = Some c2
    /\ trace (live c2)
       = trace (live c)
         ++ [OpenModal; SignMessage (Js.encode (challenge "X" (clock (live c))))]
    /\ AwaitSign wallet "X" (challenge "X" (clock (live c))) ∈ pending (live c2)
    /\ phase (live c2) = Authenticating.
Proof.
  apply (connect_without_credential_prompts
           (mount ∅ now0 false None None) "X" wallet);
    try (vm_compute; reflexivity); discriminate.
Defined.

Lemma sign_in_completes_witness :
  let c := mount ∅ now0 true (Some "X") (Some wallet) in
  exists c',
    step (SignSettles wallet "X" (challenge "X" iso0)
            (Signed [Byte.x01] (Responded accept_X))) c = Some c'
    /\ phase (live c') = Authenticated
    /\ user (live c') = Some user_X
    /\ authToken (live c') = Js.held (data_token accept_X)
    /\ getItem "authToken" (live c')
       = Some (Js.to_string (data_token accept_X))
    /\ no_new_prompt (trace (live c)) (trace (live c')).
Proof.
  apply (sign_in_completes
           (mount ∅ now0 true (Some "X") (Some wallet)) wallet "X"
           (challenge "X" iso0) [Byte.x01] accept_X user_X);
    try (vm_compute; reflexivity); try discriminate.
  apply list_elem_of_In. vm_compute. left. reflexivity.
Defined.

Lemma failed_revalidation_prompts_witness :
  let c := mount {["authToken" := "T"]} now0 true (Some "X") (Some wallet) in
  exists c',
    step (MeSettles "T" "X" MeNotOk) c = Some c'
    /\ trace (live c')
       = trace (live c)
         ++ [RemoveItem "authToken";
             SignMessage (Js.encode (challenge "X" (clock (live c))))]
    /\ getItem "authToken" (live c') = None
    /\ isSigned (live c') = false /\ authToken (live c') = None
    /\ phase (live c') = Authenticating.
Proof.
  apply (failed_revalidation_prompts
           (mount {["authToken" := "T"]} now0 true (Some "X") (Some wallet))
           "T" "X" MeNotOk "X" wallet);
    try (vm_compute; reflexivity); try discriminate.
  apply list_elem_of_In. vm_compute. left. reflexivity.
Defined.

Lemma foreign_record_is_purged_witness :
  let c := mount ∅ now0 true (Some "X") (Some wallet) in
  let data := {| success := true; data_message := None;
                 data_user := Some user_Y; data_token := Js.text "T" |} in
  exists c',
    step (SignSettles wallet "X" (challenge "X" iso0)
            (Signed [Byte.x01] (Responded data))) c = Some c'
    /\ getItem "authToken" (live c') = None
    /\ session (live c') = (false, None, None)
    /\ prompts (trace (live c')) = S (prompts (trace (live c)))
    /\ phase (live c') = Authenticating.
Proof.
  apply (foreign_record_is_purged
           (mount ∅ now0 true (Some "X") (Some wallet)) wallet "X"
           (challenge "X" iso0) [Byte.x01]
           {| success := true; data_message := None;
              data_user := Some user_Y; data_token := Js.text "T" |}
           user_Y "X" wallet);
    try (vm_compute; reflexivity); try discriminate.
  apply list_elem_of_In. vm_compute. left. reflexivity.
Defined.

Lemma late_answer_after_disconnect_is_adopted_witness :
  let c := mount {["authToken" := "T"]} now0 true (Some "X") (Some wallet) in
  exists c1 c2,
    step ClickDisconnect c = Some c1
    /\ step (MeSettles "T" "X" (MeOk user_X)) c1 = Some c2
    /\ isSigned (live c2) = true
    /\ user (live c2) = Some user_X
    /\ authToken (live c2) = Some "T"
    /\ getItem "authToken" (live c2) = None
    /\ userDisconnectedRef (live c2) = true.
Proof.
  apply (late_answer_after_disconnect_is_adopted
           (mount {["authToken" := "T"]} now0 true (Some "X") (Some wallet))
           "T" "X" user_X);
    try (vm_compute; reflexivity); try discriminate.
  apply list_elem_of_In. vm_compute. left. reflexivity.
Defined.

Lemma simplified_reload_restores_signed_witness :
  let z1 := simplified_signed_X in
  let c := SimplifiedRender.render
             (SimplifiedRender.render
                (SimplifiedRender.reload true (Some "X") (Some wallet) z1)) in
  Simplified.isSigned (SimplifiedRender.live c) = true
  /\ Simplified.trace (SimplifiedRender.live c) = [Simplified.GetBalance "X"]
  /\ Simplified.getItem (Simplified.slot "X") (SimplifiedRender.live c)
     = Some "true"
  /\ Simplified.phase (SimplifiedRender.live c) = Authenticated.
Proof.
  apply (simplified_reload_restores_signed [Byte.x01]
           simplified_connected_X simplified_connected_X wallet "X"
           (Some wallet));
    try reflexivity; discriminate.
Defined.

Lemma simplified_flag_is_per_address_witness :
  let c := SimplifiedRender.render
             (SimplifiedRender.reload true (Some "Y") (Some wallet)
                simplified_signed_X) in
  Simplified.isSigned (SimplifiedRender.live c) = false
  /\ Simplified.trace (SimplifiedRender.live c)
     = [Simplified.SignMessage
          (Js.encode (challenge "Y" (Simplified.clock simplified_connected_X)))]
  /\ Simplified.phase (SimplifiedRender.live c) = Authenticating.
Proof.
  apply (simplified_flag_is_per_address [Byte.x01]
           simplified_connected_X simplified_connected_X wallet wallet
           "X" "Y");
    try reflexivity; discriminate.
Defined.

Lemma simplified_render_keeps_signed_witness :
  let c := {| SimplifiedRender.live :=
                Simplified.mkState (Some "Z") true (Some wallet) true false
                  None false {[Simplified.slot "X" := "true"]} now0 [];
              SimplifiedRender.rendered :=
                Some (Simplified.mkState (Some "X") true (Some wallet) true
                        false None false {[Simplified.slot "X" := "true"]}
                        now0 []) |} in
  Simplified.isSigned (SimplifiedRender.live (SimplifiedRender.render c)) = true
  /\ SimplifiedRender.prompts
       (Simplified.trace (SimplifiedRender.live (SimplifiedRender.render c)))
     = SimplifiedRender.prompts (Simplified.trace (SimplifiedRender.live c))
  /\ Simplified.localStorage (SimplifiedRender.live (SimplifiedRender.render c))
     = Simplified.localStorage (SimplifiedRender.live c).
Proof.
  intros c. apply (simplified_render_keeps_signed c); reflexivity.
Defined.

Lemma history_shows_one_block_witness :
  let s' := History.fetchTransactions (History.ListOk None)
              history_T history_T in
  History.shows_loading s' = false
  /\ History.error s' = None
  /\ History.transactions s' = None
  /\ History.shows_error s' = false
  /\ blocks_shown s' + Nat.b2n (History.render_throws s') = 1
  /\ History.render_throws s' = true.
Proof.
  apply (history_shows_one_block (History.ListOk None)
           history_T history_T "T"); [reflexivity|discriminate].
Defined.

Lemma filter_change_reloads_witness :
  let v := History.setFilter History.All history_T in
  let s' := React.run_effect History.deps History.effect
              (Some history_T) v v in
  History.trace s'
  = [History.GetTransactions "/api/transactions?limit=50" "T";
     History.GetStats "T"]
  /\ History.isLoading s' = true /\ History.error s' = None
  /\ forall o,
       History.transactions (History.fetchStats_resume o s')
       = History.transactions s'
       /\ History.error (History.fetchStats_resume o s') = History.error s'
       /\ History.isLoading (History.fetchStats_resume o s')
          = History.isLoading s'.
Proof.
  apply (filter_change_reloads History.All history_T "T");
    try reflexivity; discriminate.
Defined.

Lemma challenge_names_wallet_and_moment_witness :
  challenge "X" iso0 = challenge "Y" iso0 <-> "X" = "Y" /\ iso0 = iso0.
Proof.
  apply (challenge_names_wallet_and_moment "X" "Y" iso0 iso0); reflexivity.
Defined.

Lemma transfer_needs_valid_form_and_wallet_witness :
  let s' := Transfer.handleTransfer
              (Transfer.Confirmed "5sig" Transfer.BackendAccepts)
              (Transfer.RefreshOk 1) form_blank in
  Transfer.trace s' = Transfer.trace form_blank
  /\ Js.truthy (Transfer.error s') = true.
Proof.
  apply (@transfer_needs_valid_form_and_wallet demo
           (Transfer.Confirmed "5sig" Transfer.BackendAccepts)
           (Transfer.RefreshOk 1) form_blank).
  vm_compute. reflexivity.
Defined.

Lemma valid_form_without_wallet_is_emptied_witness :
  let s' := Transfer.handleTransfer
              (Transfer.Confirmed "5sig" Transfer.BackendAccepts)
              (Transfer.RefreshOk 1) form_no_wallet in
  Transfer.recipientAddress s' = "" /\ Transfer.amount s' = ""
  /\ Transfer.tokenMint s' = ""
  /\ Transfer.error s'
     = Some (Transfer.explain Transfer.undefined_slice)
  /\ Transfer.isTransferring s' = false
  /\ Transfer.button_disabled s' = true
  /\ Transfer.trace s' = Transfer.trace form_no_wallet.
Proof.
  apply (@valid_form_without_wallet_is_emptied demo
           (Transfer.Confirmed "5sig" Transfer.BackendAccepts)
           (Transfer.RefreshOk 1) form_no_wallet);
    vm_compute; reflexivity.
Defined.

Lemma transfer_error_unless_complete_witness :
  let o := Transfer.SendThrows "insufficient lamports" in
  let r := Transfer.RefreshOk 1 in
  Transfer.isTransferring (Transfer.handleTransfer o r form_half_sol) = false
  /\ Js.defined (Transfer.error (Transfer.handleTransfer o r form_half_sol))
     = negb (completes o r form_half_sol).
Proof.
  apply (@transfer_error_unless_complete demo
           (Transfer.SendThrows "insufficient lamports")
           (Transfer.RefreshOk 1) form_half_sol).
  vm_compute. reflexivity.
Defined.

Lemma confirmed_transfer_calls_witness :
  let s := form_half_sol in
  let s' := Transfer.handleTransfer
              (Transfer.Confirmed "5sig" (Transfer.BackendRejects None))
              (Transfer.RefreshOk 1500000000) s in
  Transfer.trace s'
  = [Transfer.GetLatestBlockhash;
     Transfer.SignTransaction
       (Transfer.SystemTransfer "X" recipient_0
          (Transfer.times (Transfer.parseFloat "0.5")
             (Zpos Verified.LAMPORTS_PER_SOL)));
     Transfer.SendRawTransaction; Transfer.ConfirmTransaction "5sig";
     Transfer.PostVerify
       {| Transfer.body_txHash := "5sig"; Transfer.body_tokenMint := None;
          Transfer.body_recipient := recipient_0 |} "Bearer T";
     Transfer.Alert
       ("Transfer successful!" +:+ Js.newline +:+ "Signature: 5sig...5sig");
     Transfer.OnTransactionComplete; Transfer.GetBalance "X"]
  /\ Transfer.recipientAddress s' = "" /\ Transfer.amount s' = ""
  /\ Transfer.tokenMint s' = "".
Proof.
  apply (@confirmed_transfer_calls demo "5sig" (Transfer.BackendRejects None)
           (Transfer.RefreshOk 1500000000) form_half_sol wallet "X");
    try (vm_compute; reflexivity); discriminate.
Defined.

Lemma declined_signature_submits_nothing_witness :
  let s := form_half_sol in
  let s' := Transfer.handleTransfer
              (Transfer.SignThrows
                 ("" +:+ "User rejected" +:+ " the request."))
              (Transfer.RefreshOk 1) s in
  Transfer.trace s'
  = [Transfer.GetLatestBlockhash;
     Transfer.SignTransaction
       (Transfer.SystemTransfer "X" recipient_0
          (Transfer.times (Transfer.parseFloat "0.5")
             (Zpos Verified.LAMPORTS_PER_SOL)))]
  /\ Transfer.error s'
     = Some "Transaction rejected. Please approve the transaction in your wallet."
  /\ Transfer.recipientAddress s' = recipient_0
  /\ Transfer.amount s' = "0.5"
  /\ Transfer.tokenMint s' = ""
  /\ Transfer.isTransferring s' = false.
Proof.
  apply (@declined_signature_submits_nothing demo "" " the request."
           (Transfer.RefreshOk 1) form_half_sol wallet "X");
    try (vm_compute; reflexivity); discriminate.
Defined.

End Examples.
